(** * The AJINEXTEK AXL motion ABI, as declared by AXHS.h and AXM.h

    The two headers hold declarations only: enumerations, plain structs,
    one object-like macro and the [Axm*] prototypes exported by the vendor
    library.  This development records those declarations as data, in the
    order and with the names, types and values the headers give them, and
    proves the structural facts that callers of the ABI rely on. *)

From Stdlib Require Import ZArith List String Ascii Bool Lia.
Import ListNotations.
Local Open Scope string_scope.
Local Open Scope Z_scope.

(** ** A small language of C declarations *)

Module CDecl.

(** An array bound is either a literal or the name of a macro. *)
Inductive cexpr : Type :=
| Elit (z : Z)
| Emacro (name : string).

#[local] Set Warnings "-register-all".

Inductive callconv : Type :=
| Cdefault
| Stdcall.

Inductive ctype : Type :=
| Tvoid
| Tchar
| Tint
| Tlong
| Tdouble
| Tuchar
| Tushort
| Tulong
| Tnamed (name : string)
| Tstruct (tag : string)
| Tptr (t : ctype)
| Tarray (t : ctype) (len : cexpr)
| Tfunction (ret : ctype) (cc : callconv) (params : list ctype).

Record param : Type := Param { p_type : ctype; p_name : string }.

Record prototype : Type := Prototype {
  f_ret : ctype;
  f_cc : callconv;
  f_name : string;
  f_params : list param
}.

(** A header is a sequence of items; prototypes sit either directly at file
    scope or inside an [extern "C" { ... }] block. *)
Inductive item : Type :=
| ExternC (body : list prototype)
| Plain (p : prototype).

Record field : Type := Field { fd_type : ctype; fd_name : string }.

Record struct_decl : Type := Struct {
  s_tag : string;
  s_fields : list field;
  s_typedef : string
}.

(** String tests used to select declarations by naming convention. *)
Fixpoint starts_with (p s : string) : bool :=
  match p, s with
  | EmptyString, _ => true
  | String _ _, EmptyString => false
  | String a p', String b s' => Ascii.eqb a b && starts_with p' s'
  end.

Fixpoint contains (p s : string) : bool :=
  starts_with p s ||
  match s with
  | EmptyString => false
  | String _ s' => contains p s'
  end.

Definition lookup {A : Type} (k : string) (l : list (string * A)) : option A :=
  option_map snd (find (fun e => String.eqb k (fst e)) l).

(** Prototypes of a header, and those of its [extern "C"] blocks. *)
Definition item_protos (i : item) : list prototype :=
  match i with
  | ExternC body => body
  | Plain p => [p]
  end.

Definition item_extern_C (i : item) : list prototype :=
  match i with
  | ExternC body => body
  | Plain _ => []
  end.

Definition declared (h : list item) : list prototype := flat_map item_protos h.
Definition declared_extern_C (h : list item) : list prototype := flat_map item_extern_C h.

Definition find_proto (name : string) (l : list prototype) : option prototype :=
  find (fun f => String.eqb name (f_name f)) l.

Definition find_struct (name : string) (l : list struct_decl) : option struct_decl :=
  find (fun s => String.eqb name (s_typedef s)) l.

(** Typedef names are resolved through a table; names the table does not
    define (they come from the platform headers) stay as they are. *)
Definition resolve (typedefs : list (string * ctype)) (t : ctype) : ctype :=
  match t with
  | Tnamed n => match lookup n typedefs with Some u => u | None => t end
  | _ => t
  end.

Definition is_pointer (typedefs : list (string * ctype)) (t : ctype) : bool :=
  match resolve typedefs t with
  | Tptr _ => true
  | _ => false
  end.

Definition eval_cexpr (macros : list (string * Z)) (e : cexpr) : option Z :=
  match e with
  | Elit z => Some z
  | Emacro n => lookup n macros
  end.

(** Strictly increasing lists of integers: the shape of an enumeration whose
    explicit values are written in ascending order. *)
Fixpoint increasing_from (lo : Z) (l : list Z) : bool :=
  match l with
  | [] => true
  | x :: r => (lo <? x) && increasing_from x r
  end.

Definition increasing (l : list Z) : bool :=
  match l with
  | [] => true
  | x :: r => increasing_from x r
  end.

End CDecl.

Import CDecl.

(** ** AXHS.h *)

Module AXHS.

(** The [__DATA_TYPES__] typedefs, the struct typedefs used below, and the
    two callback typedefs
    [typedef void (__stdcall *AXT_EVENT_PROC)(long lActiveNo, DWORD uFlag);]
    and [AXT_INTERRUPT_PROC], which has the same signature. *)
Definition declared_typedefs : list (string * ctype) :=
  [ ("DWORD", Tulong);
    ("WORD", Tushort);
    ("BYTE", Tuchar);
    ("BOOL", Tint);
    ("HANDLE", Tptr Tvoid);
    ("MOTION_INFO", Tstruct "_MOTION_INFO");
    ("PMOTION_INFO", Tptr (Tstruct "_MOTION_INFO"));
    ("SIIIHBoardInfo", Tstruct "_SIIIHBoardInfo");
    ("SCAN_RESULT", Tstruct "_SCAN_RESULT");
    ("AXT_EVENT_PROC", Tptr (Tfunction Tvoid Stdcall [Tlong; Tnamed "DWORD"]));
    ("AXT_INTERRUPT_PROC", Tptr (Tfunction Tvoid Stdcall [Tlong; Tnamed "DWORD"])) ].

(** [#define HWND HANDLE] (in force unless [__AFX_H__] is defined): a macro,
    not a typedef. *)
Definition type_macros : list (string * ctype) :=
  [ ("HWND", Tnamed "HANDLE") ].

(** The type names of the header: its typedefs, and its type macros with
    their replacement looked up among the typedefs. *)
Definition typedefs : list (string * ctype) :=
  declared_typedefs ++
  map (fun m => (fst m, resolve declared_typedefs (snd m))) type_macros.

(** [typedef enum _AXT_FUNC_RESULT { ... } AXT_FUNC_RESULT;] every enumerator
    carries an explicit value. *)
Definition AXT_FUNC_RESULT : list (string * Z) :=
  [ ("AXT_RT_SUCCESS", 0);
    ("AXT_RT_OPEN_ERROR", 1001);
    ("AXT_RT_OPEN_ALREADY", 1002);
    ("AXT_RT_NOT_INITIAL", 1052);
    ("AXT_RT_NOT_OPEN", 1053);
    ("AXT_RT_NOT_SUPPORT_VERSION", 1054);
    ("AXT_RT_LOCK_FILE_MISMATCH", 1055);
    ("AXT_RT_MASTER_VERSION_MISMATCH", 1056);
    ("AXT_RT_NOT_RUN_EZMANAGER", 1057);
    ("AXT_RT_NOT_FIND_BIN_FILE", 1058);
    ("AXT_RT_NOT_FIND_ENI_FILE", 1059);
    ("AXT_RT_NOT_FIND_CONFIG_FILE", 1060);
    ("AXT_RT_RTOS_OPEN_ERROR", 1061);
    ("AXT_RT_SLAVE_CONFIG_ERROR", 1062);
    ("AXT_RT_SLAVE_OP_TIMEOUT_WARNING", 1063);
    ("AXT_RT_SLAVE_NOT_OP", 1064);
    ("AXT_RT_RESCAN_NOT_EXIST_BOARD", 1065);
    ("AXT_RT_RESCAN_TIMEOUT", 1066);
    ("AXT_RT_BAD_PARAMETER", 1070);
    ("AXT_RT_INVALID_HARDWARE", 1100);
    ("AXT_RT_INVALID_BOARD_NO", 1101);
    ("AXT_RT_INVALID_MODULE_POS", 1102);
    ("AXT_RT_INVALID_LEVEL", 1103);
    ("AXT_RT_INVALID_VARIABLE", 1104);
    ("AXT_RT_INVALID_MODULE_NO", 1105);
    ("AXT_RT_INVALID_NO", 1106);
    ("AXT_RT_ERROR_VERSION_READ", 1151);
    ("AXT_RT_NETWORK_ERROR", 1152);
    ("AXT_RT_NETWORK_LOCK_MISMATCH", 1153);
    ("AXT_RT_1ST_BELOW_MIN_VALUE", 1160);
    ("AXT_RT_1ST_ABOVE_MAX_VALUE", 1161);
    ("AXT_RT_2ND_BELOW_MIN_VALUE", 1170);
    ("AXT_RT_2ND_ABOVE_MAX_VALUE", 1171);
    ("AXT_RT_3RD_BELOW_MIN_VALUE", 1180);
    ("AXT_RT_3RD_ABOVE_MAX_VALUE", 1181);
    ("AXT_RT_4TH_BELOW_MIN_VALUE", 1190);
    ("AXT_RT_4TH_ABOVE_MAX_VALUE", 1191);
    ("AXT_RT_5TH_BELOW_MIN_VALUE", 1200);
    ("AXT_RT_5TH_ABOVE_MAX_VALUE", 1201);
    ("AXT_RT_6TH_BELOW_MIN_VALUE", 1210);
    ("AXT_RT_6TH_ABOVE_MAX_VALUE", 1211);
    ("AXT_RT_7TH_BELOW_MIN_VALUE", 1220);
    ("AXT_RT_7TH_ABOVE_MAX_VALUE", 1221);
    ("AXT_RT_8TH_BELOW_MIN_VALUE", 1230);
    ("AXT_RT_8TH_ABOVE_MAX_VALUE", 1231);
    ("AXT_RT_9TH_BELOW_MIN_VALUE", 1240);
    ("AXT_RT_9TH_ABOVE_MAX_VALUE", 1241);
    ("AXT_RT_10TH_BELOW_MIN_VALUE", 1250);
    ("AXT_RT_10TH_ABOVE_MAX_VALUE", 1251);
    ("AXT_RT_11TH_BELOW_MIN_VALUE", 1252);
    ("AXT_RT_11TH_ABOVE_MAX_VALUE", 1253);
    ("AXT_RT_AIO_OPEN_ERROR", 2001);
    ("AXT_RT_AIO_NOT_MODULE", 2051);
    ("AXT_RT_AIO_NOT_EVENT", 2052);
    ("AXT_RT_AIO_INVALID_MODULE_NO", 2101);
    ("AXT_RT_AIO_INVALID_CHANNEL_NO", 2102);
    ("AXT_RT_AIO_INVALID_USE", 2106);
    ("AXT_RT_AIO_INVALID_TRIGGER_MODE", 2107);
    ("AXT_RT_AIO_EXTERNAL_DATA_EMPTY", 2108);
    ("AXT_RT_AIO_INVALID_VALUE", 2109);
    ("AXT_RT_AIO_UPG_ALEADY_ENABLED", 2110);
    ("AXT_RT_DIO_OPEN_ERROR", 3001);
    ("AXT_RT_DIO_NOT_MODULE", 3051);
    ("AXT_RT_DIO_NOT_INTERRUPT", 3052);
    ("AXT_RT_DIO_INVALID_MODULE_NO", 3101);
    ("AXT_RT_DIO_INVALID_OFFSET_NO", 3102);
    ("AXT_RT_DIO_INVALID_LEVEL", 3103);
    ("AXT_RT_DIO_INVALID_MODE", 3104);
    ("AXT_RT_DIO_INVALID_VALUE", 3105);
    ("AXT_RT_DIO_INVALID_USE", 3106);
    ("AXT_RT_DIO_INVALID_LINK", 3107);
    ("AXT_RT_DIO_INTERLOCK_NOT_ENABLED", 3108);
    ("AXT_RT_DIO_INTERLOCK_NOT_SAME_BOARD", 3109);
    ("AXT_RT_CNT_OPEN_ERROR", 3201);
    ("AXT_RT_CNT_NOT_MODULE", 3251);
    ("AXT_RT_CNT_NOT_INTERRUPT", 3252);
    ("AXT_RT_CNT_NOT_TRIGGER_ENABLE", 3253);
    ("AXT_RT_CNT_INVALID_MODULE_NO", 3301);
    ("AXT_RT_CNT_INVALID_CHANNEL_NO", 3302);
    ("AXT_RT_CNT_INVALID_OFFSET_NO", 3303);
    ("AXT_RT_CNT_INVALID_LEVEL", 3304);
    ("AXT_RT_CNT_INVALID_MODE", 3305);
    ("AXT_RT_CNT_INVALID_VALUE", 3306);
    ("AXT_RT_CNT_INVALID_USE", 3307);
    ("AXT_RT_CNT_CMD_EXE_TIMEOUT", 3308);
    ("AXT_RT_CNT_INVALID_VELOCITY", 3309);
    ("AXT_RT_PROTECTED_DURING_PWMENABLE", 3310);
    ("AXT_RT_CNT_INVALID_TABLEPOS", 3311);
    ("AXT_RT_CNT_DIMENSION_ERROR", 3312);
    ("AXT_RT_CNT_INVALID_RANGE", 3313);
    ("AXT_RT_COM_OPEN_ERROR", 3401);
    ("AXT_RT_COM_NOT_OPEN", 3402);
    ("AXT_RT_COM_ALREADY_IN_USE", 3403);
    ("AXT_RT_COM_NOT_MODULE", 3451);
    ("AXT_RT_COM_NOT_INTERRUPT", 3452);
    ("AXT_RT_COM_INVALID_MODULE_NO", 3501);
    ("AXT_RT_COM_INVALID_PORT_NO", 3502);
    ("AXT_RT_COM_INVALID_OFFSET_NO", 3503);
    ("AXT_RT_COM_INVALID_LEVEL", 3504);
    ("AXT_RT_COM_INVALID_MODE", 3505);
    ("AXT_RT_COM_INVALID_VALUE", 3506);
    ("AXT_RT_COM_INVALID_USE", 3507);
    ("AXT_RT_COM_INVALID_BAUDRATE", 3508);
    ("AXT_RT_MOTION_OPEN_ERROR", 4001);
    ("AXT_RT_MOTION_NOT_MODULE", 4051);
    ("AXT_RT_MOTION_NOT_INTERRUPT", 4052);
    ("AXT_RT_MOTION_NOT_INITIAL_AXIS_NO", 4053);
    ("AXT_RT_MOTION_NOT_IN_CONT_INTERPOL", 4054);
    ("AXT_RT_MOTION_NOT_PARA_READ", 4055);
    ("AXT_RT_MOTION_INVALID_AXIS_NO", 4101);
    ("AXT_RT_MOTION_INVALID_METHOD", 4102);
    ("AXT_RT_MOTION_INVALID_USE", 4103);
    ("AXT_RT_MOTION_INVALID_LEVEL", 4104);
    ("AXT_RT_MOTION_INVALID_BIT_NO", 4105);
    ("AXT_RT_MOTION_INVALID_STOP_MODE", 4106);
    ("AXT_RT_MOTION_INVALID_TRIGGER_MODE", 4107);
    ("AXT_RT_MOTION_INVALID_TRIGGER_LEVEL", 4108);
    ("AXT_RT_MOTION_INVALID_SELECTION", 4109);
    ("AXT_RT_MOTION_INVALID_TIME", 4110);
    ("AXT_RT_MOTION_INVALID_FILE_LOAD", 4111);
    ("AXT_RT_MOTION_INVALID_FILE_SAVE", 4112);
    ("AXT_RT_MOTION_INVALID_VELOCITY", 4113);
    ("AXT_RT_MOTION_INVALID_ACCELTIME", 4114);
    ("AXT_RT_MOTION_INVALID_PULSE_VALUE", 4115);
    ("AXT_RT_MOTION_INVALID_NODE_NUMBER", 4116);
    ("AXT_RT_MOTION_INVALID_TARGET", 4117);
    ("AXT_RT_MOTION_SSTOPCMD_ALREADY_IN_EXECUTION", 4150);
    ("AXT_RT_MOTION_ERROR_IN_NONMOTION", 4151);
    ("AXT_RT_MOTION_ERROR_IN_MOTION", 4152);
    ("AXT_RT_MOTION_ERROR", 4153);
    ("AXT_RT_MOTION_ERROR_GANTRY_ENABLE", 4154);
    ("AXT_RT_MOTION_ERROR_GANTRY_AXIS", 4155);
    ("AXT_RT_MOTION_ERROR_MASTER_SERVOON", 4156);
    ("AXT_RT_MOTION_ERROR_SLAVE_SERVOON", 4157);
    ("AXT_RT_MOTION_INVALID_POSITION", 4158);
    ("AXT_RT_ERROR_NOT_SAME_MODULE", 4159);
    ("AXT_RT_ERROR_NOT_SAME_BOARD", 4160);
    ("AXT_RT_ERROR_NOT_SAME_PRODUCT", 4161);
    ("AXT_RT_NOT_CAPTURED", 4162);
    ("AXT_RT_ERROR_NOT_SAME_IC", 4163);
    ("AXT_RT_ERROR_NOT_GEARMODE", 4164);
    ("AXT_ERROR_CONTI_INVALID_AXIS_NO", 4165);
    ("AXT_ERROR_CONTI_INVALID_MAP_NO", 4166);
    ("AXT_ERROR_CONTI_EMPTY_MAP_NO", 4167);
    ("AXT_RT_MOTION_ERROR_CACULATION", 4168);
    ("AXT_RT_ERROR_MOVE_SENSOR_CHECK", 4169);
    ("AXT_ERROR_HELICAL_INVALID_AXIS_NO", 4170);
    ("AXT_ERROR_HELICAL_INVALID_MAP_NO", 4171);
    ("AXT_ERROR_HELICAL_EMPTY_MAP_NO", 4172);
    ("AXT_ERROR_HELICAL_ZPOS_DISTANCE_ZERO", 4173);
    ("AXT_ERROR_SPLINE_INVALID_AXIS_NO", 4180);
    ("AXT_ERROR_SPLINE_INVALID_MAP_NO", 4181);
    ("AXT_ERROR_SPLINE_EMPTY_MAP_NO", 4182);
    ("AXT_ERROR_SPLINE_NUM_ERROR", 4183);
    ("AXT_RT_MOTION_INTERPOL_VALUE", 4184);
    ("AXT_RT_ERROR_NOT_CONTIBEGIN", 4185);
    ("AXT_RT_ERROR_NOT_CONTIEND", 4186);
    ("AXT_RT_MOTION_HOME_SEARCHING", 4201);
    ("AXT_RT_MOTION_HOME_ERROR_SEARCHING", 4202);
    ("AXT_RT_MOTION_HOME_ERROR_START", 4203);
    ("AXT_RT_MOTION_HOME_ERROR_GANTRY", 4204);
    ("AXT_RT_MOTION_READ_ALARM_WAITING", 4210);
    ("AXT_RT_MOTION_READ_ALARM_NO_REQUEST", 4211);
    ("AXT_RT_MOTION_READ_ALARM_TIMEOUT", 4212);
    ("AXT_RT_MOTION_READ_ALARM_FAILED", 4213);
    ("AXT_RT_MOTION_READ_ALARM_UNKNOWN", 4220);
    ("AXT_RT_MOTION_READ_ALARM_FILES", 4221);
    ("AXT_RT_MOTION_READ_ALARM_NOT_DETECTED", 4222);
    ("AXT_RT_MOTION_POSITION_OUTOFBOUND", 4251);
    ("AXT_RT_MOTION_PROFILE_INVALID", 4252);
    ("AXT_RT_MOTION_VELOCITY_OUTOFBOUND", 4253);
    ("AXT_RT_MOTION_MOVE_UNIT_IS_ZERO", 4254);
    ("AXT_RT_MOTION_SETTING_ERROR", 4255);
    ("AXT_RT_MOTION_IN_CONT_INTERPOL", 4256);
    ("AXT_RT_MOTION_DISABLE_TRIGGER", 4257);
    ("AXT_RT_MOTION_INVALID_CONT_INDEX", 4258);
    ("AXT_RT_MOTION_CONT_QUEUE_FULL", 4259);
    ("AXT_RT_PROTECTED_DURING_SERVOON", 4260);
    ("AXT_RT_HW_ACCESS_ERROR", 4261);
    ("AXT_RT_HW_DPRAM_CMD_WRITE_ERROR_LV1", 4262);
    ("AXT_RT_HW_DPRAM_CMD_WRITE_ERROR_LV2", 4263);
    ("AXT_RT_HW_DPRAM_CMD_WRITE_ERROR_LV3", 4264);
    ("AXT_RT_HW_DPRAM_CMD_READ_ERROR_LV1", 4265);
    ("AXT_RT_HW_DPRAM_CMD_READ_ERROR_LV2", 4266);
    ("AXT_RT_HW_DPRAM_CMD_READ_ERROR_LV3", 4267);
    ("AXT_RT_COMPENSATION_SET_PARAM_FIRST", 4300);
    ("AXT_RT_COMPENSATION_NOT_INIT", 4301);
    ("AXT_RT_COMPENSATION_POS_OUTOFBOUND", 4302);
    ("AXT_RT_COMPENSATION_BACKLASH_NOT_INIT", 4303);
    ("AXT_RT_COMPENSATION_INVALID_ENTRY", 4304);
    ("AXT_RT_SEQ_NOT_IN_SERVICE", 4400);
    ("AXT_ERROR_SEQ_INVALID_MAP_NO", 4401);
    ("AXT_ERROR_INVALID_AXIS_NO", 4402);
    ("AXT_RT_ERROR_NOT_SEQ_NODE_BEGIN", 4403);
    ("AXT_RT_ERROR_NOT_SEQ_NODE_END", 4404);
    ("AXT_RT_ERROR_NO_NODE", 4405);
    ("AXT_RT_ERROR_SEQ_STOP_TIMEOUT", 4406);
    ("AXT_RT_ERROR_INVALID_SEQ_MASTER_AXIS_NO", 4407);
    ("AXT_RT_ERROR_RING_COUNTER_ENABLE", 4420);
    ("AXT_RT_ERROR_RING_COUNTER_OUT_OF_RANGE", 4421);
    ("AXT_RT_ERROR_SOFT_LIMIT_ENABLE", 4430);
    ("AXT_RT_ERROR_SOFT_LIMIT_NEGATIVE", 4431);
    ("AXT_RT_ERROR_SOFT_LIMIT_POSITIVE", 4432);
    ("AXT_RT_M3_COMMUNICATION_FAILED", 4500);
    ("AXT_RT_MOTION_ONE_OF_AXES_IS_NOT_M3", 4501);
    ("AXT_RT_MOTION_BIGGER_VEL_THEN_MAX_VEL", 4502);
    ("AXT_RT_MOTION_SMALLER_VEL_THEN_MAX_VEL", 4503);
    ("AXT_RT_MOTION_ACCEL_MUST_BIGGER_THEN_ZERO", 4504);
    ("AXT_RT_MOTION_SMALL_ACCEL_WITH_UNIT_PULSE", 4505);
    ("AXT_RT_MOTION_INVALID_INPUT_ACCEL", 4506);
    ("AXT_RT_MOTION_SMALL_DECEL_WITH_UNIT_PULSE", 4507);
    ("AXT_RT_MOTION_INVALID_INPUT_DECEL", 4508);
    ("AXT_RT_MOTION_SAME_START_AND_CENTER_POS", 4509);
    ("AXT_RT_MOTION_INVALID_JERK", 4510);
    ("AXT_RT_MOTION_INVALID_INPUT_VALUE", 4511);
    ("AXT_RT_MOTION_NOT_SUPPORT_PROFILE", 4512);
    ("AXT_RT_MOTION_INPOS_UNUSED", 4513);
    ("AXT_RT_MOTION_AXIS_IN_SLAVE_STATE", 4514);
    ("AXT_RT_MOTION_AXES_ARE_NOT_SAME_BOARD", 4515);
    ("AXT_RT_MOTION_ERROR_IN_ALARM", 4516);
    ("AXT_RT_MOTION_ERROR_IN_EMGN", 4517);
    ("AXT_RT_MOTION_CAN_NOT_CHANGE_COORD_NO", 4518);
    ("AXT_RT_MOTION_INVALID_INTERNAL_RADIOUS", 4519);
    ("AXT_RT_MOTION_CONTI_QUEUE_FULL", 4521);
    ("AXT_RT_MOTION_SAME_START_AND_END_POSITION", 4522);
    ("AXT_RT_MOTION_INVALID_ANGLE", 4523);
    ("AXT_RT_MOTION_CONTI_QUEUE_EMPTY", 4524);
    ("AXT_RT_MOTION_ERROR_GEAR_ENABLE", 4525);
    ("AXT_RT_MOTION_ERROR_GEAR_AXIS", 4526);
    ("AXT_RT_MOTION_ERROR_NO_GANTRY_ENABLE", 4527);
    ("AXT_RT_MOTION_ERROR_NO_GEAR_ENABLE", 4528);
    ("AXT_RT_MOTION_ERROR_GANTRY_ENABLE_FULL", 4529);
    ("AXT_RT_MOTION_ERROR_GEAR_ENABLE_FULL", 4530);
    ("AXT_RT_MOTION_ERROR_NO_GANTRY_SLAVE", 4531);
    ("AXT_RT_MOTION_ERROR_NO_GEAR_SLAVE", 4532);
    ("AXT_RT_MOTION_ERROR_MASTER_SLAVE_SAME", 4533);
    ("AXT_RT_MOTION_NOT_SUPPORT_HOMESIGNAL", 4534);
    ("AXT_RT_MOTION_ERROR_NOT_SYNC_CONNECT", 4535);
    ("AXT_RT_MOTION_OVERFLOW_POSITION", 4536);
    ("AXT_RT_MOTION_ERROR_INVALID_CONTIMAPAXIS", 4537);
    ("AXT_RT_MOTION_ERROR_INVALID_CONTIMAPSIZE", 4538);
    ("AXT_RT_MOTION_ERROR_IN_SERVO_OFF", 4539);
    ("AXT_RT_MOTION_ERROR_POSITIVE_LIMIT", 4540);
    ("AXT_RT_MOTION_ERROR_NEGATIVE_LIMIT", 4541);
    ("AXT_RT_MOTION_ERROR_OVERFLOW_SWPROFILE_NUM", 4542);
    ("AXT_RT_PROTECTED_DURING_INMOTION", 4543);
    ("AXT_ERROR_SYNC_INVALID_AXIS_NO", 4600);
    ("AXT_ERROR_SYNC_INVALID_MAP_NO", 4601);
    ("AXT_ERROR_SYNC_DUPLICATED_TIME", 4602);
    ("AXT_RT_DATA_FLASH_NOT_EXIST", 5000);
    ("AXT_RT_DATA_FLASH_BUSY", 5001);
    ("AXT_RT_QUEUE_CMD_ERROR", 5010);
    ("AXT_RT_QUEUE_CMD_WAIT_ERROR", 5011);
    ("AXT_RT_QUEUE_CMD_WAIT_TIMEOUT", 5012);
    ("AXT_RT_QUEUE_RSP_ERROR", 5015);
    ("AXT_RT_QUEUE_RSP_WAIT_ERROR", 5016);
    ("AXT_RT_QUEUE_RSP_WAIT_TIMEOUT", 5017);
    ("AXT_RT_MOTION_STILL_CONTI_MOTION", 5018);
    ("AXT_RT_MOTION_INVALD_SET", 6000);
    ("AXT_RT_MOTION_INVALD_RESET", 6001);
    ("AXT_RT_MOTION_INVALD_ENABLE", 6002);
    ("AXT_RT_LICENSE_INVALID", 6500);
    ("AXT_RT_MONITOR_IN_OPERATION", 6600);
    ("AXT_RT_MONITOR_NOT_OPERATION", 6601);
    ("AXT_RT_MONITOR_EMPTY_QUEUE", 6602);
    ("AXT_RT_MONITOR_INVALID_TRIGGER_OPTION", 6603);
    ("AXT_RT_MONITOR_EMPTY_ITEM", 6604);
    ("AXT_RT_MACRO_INVALID_MACRO_NO", 6700);
    ("AXT_RT_MACRO_INVALID_NODE_NO", 6701);
    ("AXT_RT_MACRO_INVALID_STOP_MODE", 6702);
    ("AXT_RT_MACRO_MEMORY_MISMATCH", 6703);
    ("AXT_RT_MACRO_CONTROL_LOCKED", 6704);
    ("AXT_RT_MACRO_INVALID_STATUS", 6705);
    ("AXT_RT_MACRO_INVALID_ARGUMENT", 6706);
    ("AXT_RT_MACRO_NOT_NODE_BEGIN", 6710);
    ("AXT_RT_MACRO_NOT_NODE_END", 6711);
    ("AXT_RT_MACRO_ALREADY_BEGIN", 6712);
    ("AXT_RT_MACRO_NODE_EMPTY", 6713);
    ("AXT_RT_MACRO_IN_OPERATION", 6714);
    ("AXT_RT_MACRO_NOT_OPERATION", 6715);
    ("AXT_RT_MACRO_NOT_SUPPORT_FUNCTION", 6716);
    ("AXT_RT_MACRO_NODE_FULL", 6717);
    ("AXT_RT_MACRO_NODE_CHECK_ERROR", 6720);
    ("AXT_RT_MACRO_NOT_CHECKED", 6721);
    ("AXT_RT_MACRO_NOT_PAUSED", 6722);
    ("AXT_MK_RT_INVALID_AXIS", 7100);
    ("AXT_MK_RT_INVALID_AXIS_SIZE", 7101);
    ("AXT_MK_RT_INVALID_COORD", 7102);
    ("AXT_MK_RT_INVALID_COORD_SIZE", 7103);
    ("AXT_MK_RT_INVALID_AXIS_MAP", 7104);
    ("AXT_MK_RT_INVALID_AXIS_MAP_SIZE", 7105);
    ("AXT_MK_RT_INVALID_VEL", 7106);
    ("AXT_MK_RT_INVALID_END_VEL", 7107);
    ("AXT_MK_RT_INVALID_ACCEL", 7108);
    ("AXT_MK_RT_INVALID_DECEL", 7109);
    ("AXT_MK_RT_INVALID_ABS_REL", 7110);
    ("AXT_MK_RT_INVALID_PROFILE", 7111);
    ("AXT_MK_RT_INVALID_STOP_DECEL", 7112);
    ("AXT_MK_RT_INVALID_STOP_TIME", 7113);
    ("AXT_MK_RT_INVALID_ACCEL_JERK_RATE", 7114);
    ("AXT_MK_RT_INVALID_DECEL_JERK_RATE", 7115);
    ("AXT_MK_RT_INVALID_ACCEL_UNIT", 7116);
    ("AXT_MK_RT_INVALID_DISTANCE", 7117);
    ("AXT_MK_RT_INVALID_ANGLE", 7118);
    ("AXT_MK_RT_INVALID_BIT", 7119);
    ("AXT_MK_RT_INVALID_PORT", 7120);
    ("AXT_MK_RT_INVALID_SPLINE_INDEX", 7121);
    ("AXT_MK_RT_INVALID_THREAD", 7122);
    ("AXT_MK_RT_INVALID_TIMER", 7123);
    ("AXT_MK_RT_INVALID_SEGMENT_COUNT", 7124);
    ("AXT_MK_RT_INVALID_SEGMENT_NO", 7125);
    ("AXT_MK_RT_INVALID_NODE_NO", 7126);
    ("AXT_MK_RT_INVALID_HWQ_COUNT", 7127);
    ("AXT_MK_RT_INVALID_NODE_SIZE", 7128);
    ("AXT_MK_RT_INVALID_STOP_NODE_SIZE", 7129);
    ("AXT_MK_RT_INVALID_SPLINE_SIZE", 7130);
    ("AXT_MK_RT_INVALID_LINE_LINE_FILLET", 7131);
    ("AXT_MK_RT_INVALID_LINE_ARC_FILLET", 7132);
    ("AXT_MK_RT_INVALID_ARC_LINE_FILLET", 7133);
    ("AXT_MK_RT_INVALID_ARC_ARC_FILLET", 7134);
    ("AXT_MK_RT_INVALID_RESET_FILLET", 7135);
    ("AXT_MK_RT_INVALID_TASK", 7136);
    ("AXT_MK_RT_INVALID_ROUND_INDEX", 7137);
    ("AXT_MK_RT_INVALID_LOG_DATA", 7138);
    ("AXT_MK_RT_INVALID_LOG10_DATA", 7139);
    ("AXT_MK_RT_INVALID_PORT_NO", 7140);
    ("AXT_MK_RT_INVALID_BAUD_RATE", 7141);
    ("AXT_MK_RT_INVALID_STOP_BIT", 7142);
    ("AXT_MK_RT_INVALID_PARITY", 7143);
    ("AXT_MK_RT_INVALID_EDGE", 7144);
    ("AXT_MK_RT_INVALID_STOP_MODE", 7145);
    ("AXT_MK_RT_INVALID_TRIGGER_TIME", 7146);
    ("AXT_MK_RT_INVALID_TRIGGER_LEVEL", 7147);
    ("AXT_MK_RT_INVALID_TRIGGER_SELECT", 7148);
    ("AXT_MK_RT_INVALID_TRIGGER_INTERRUPT", 7149);
    ("AXT_MK_RT_INVALID_TRIGGER_METHOD", 7150);
    ("AXT_MK_RT_INVALID_TRIGGER_POSITION", 7151);
    ("AXT_MK_RT_INVALID_TRIGGER_INDEX", 7152);
    ("AXT_MK_RT_INVALID_ECAM_DATA", 7153);
    ("AXT_MK_RT_INVALID_ECAM_POSITION", 7154);
    ("AXT_MK_RT_INVALID_EGEAR_SIZE", 7155);
    ("AXT_MK_RT_INVALID_INDEX", 7156);
    ("AXT_MK_RT_INVALID_MOTION_MODE", 7157);
    ("AXT_MK_RT_INVALID_SIGNAL", 7158);
    ("AXT_MK_RT_INVALID_STOP_DISTANCE", 7159);
    ("AXT_MK_RT_INVALID_DIRECTION", 7160);
    ("AXT_MK_RT_INVALID_ZERO_VELOCITY", 7161);
    ("AXT_MK_RT_INVALID_COORDINATE_INMOTION", 7162);
    ("AXT_MK_RT_INVALID_COORDINATE_MOTIONDONE", 7163);
    ("AXT_MK_RT_INVALID_BLENDING_MODE", 7164);
    ("AXT_MK_RT_INVALID_BLENDING_VALUE", 7165);
    ("AXT_MK_RT_INVALID_BLENDING_RATIO", 7166);
    ("AXT_MK_RT_INVALID_EGEAR_RATIO", 7167);
    ("AXT_MK_RT_INVALID_SLAVE_AXIS", 7168);
    ("AXT_MK_RT_INVALID_OPERATION_MODE", 7169);
    ("AXT_MK_RT_INVALID_CONTIQ_DISABLE", 7170);
    ("AXT_MK_RT_INVALID_CONTIQ_MODE", 7171);
    ("AXT_MK_RT_INVALID_CONTIQ_ANGLE", 7172);
    ("AXT_MK_RT_INVALID_CONTIQ_VELRATE", 7173);
    ("AXT_MK_RT_INVALID_CONTIQ_FILLET", 7174);
    ("AXT_MK_RT_CONTIQ_AUTO_VEL", 7175);
    ("AXT_MK_RT_CONTIQ_AUTO_ARC", 7176);
    ("AXT_MK_RT_CONTIQ_LINE", 7177);
    ("AXT_MK_RT_CONTIQ_CIRCLE", 7178);
    ("AXT_MK_RT_CONTIQ_ARC", 7179);
    ("AXT_MK_RT_CONTIQ_SYNC_SLAVE", 7180);
    ("AXT_MK_RT_INVALID_SEGMENT_OUTPUT_SIZE", 7181);
    ("AXT_MK_RT_INVALID_SEGMENT_NUMBER", 7182);
    ("AXT_MK_RT_INVALID_TRIG_COUNT", 7183);
    ("AXT_MK_RT_INVALID_TRIG_TIME", 7184);
    ("AXT_MK_RT_NOT_CAPTURED", 7185);
    ("AXT_MK_RT_INVALID_CAPTURE_INDEX", 7186);
    ("AXT_MK_RT_INVALID_LEVEL", 7187);
    ("AXT_MK_RT_INVALID_SEGMENT_OUTPUT_MODE", 7188);
    ("AXT_MK_RT_INVALID_SEGMENT_OUTPUT_VALUE", 7189);
    ("AXT_MK_RT_INVALID_SEGMENT_OUTPUT_RATIO", 7190);
    ("AXT_MK_RT_INVALID_SPLINE_POINT_SIZE", 7191);
    ("AXT_MK_RT_INVALID_INMOTION", 7192);
    ("AXT_MK_RT_ENABLE_CONTIQ", 7200);
    ("AXT_MK_RT_DISABLE_CONTIQ", 7201);
    ("AXT_MK_RT_ENABLE_CONTIQ_SYNC", 7202);
    ("AXT_MK_RT_DISABLE_CONTIQ_SYNC", 7203);
    ("AXT_MK_RT_ENABLE_CONTI", 7204);
    ("AXT_MK_RT_DISABLE_CONTI", 7205);
    ("AXT_MK_RT_ENABLE_EGEAR", 7206);
    ("AXT_MK_RT_DISABLE_EGEAR", 7207);
    ("AXT_MK_RT_ENABLE_TASK", 7208);
    ("AXT_MK_RT_DISABLE_TASK", 7209);
    ("AXT_MK_RT_DISABLE_PORT_NO", 7210);
    ("AXT_MK_RT_ALREADY_OPEN", 7300);
    ("AXT_MK_RT_ALREADY_CLOSE", 7301);
    ("AXT_MK_RT_ERROR_HOME", 7400);
    ("AXT_MK_RT_ERROR_MOTION", 7401);
    ("AXT_MK_RT_ERROR_INSTOPPING", 7402);
    ("AXT_MK_RT_ERROR_TIME_OUT", 7403);
    ("AXT_MK_RT_ERROR_BUFFER_FULL", 7404);
    ("AXT_MK_RT_ERROR_DATA_CREATE", 7405);
    ("AXT_MK_RT_ERROR_CALCULATION", 7406);
    ("AXT_MK_RT_ERROR_QUEUE_FULL", 7500);
    ("AXT_MK_RT_ERROR_QUEUE_NULL", 7501);
    ("AXT_MK_RT_ERROR_ECAM_TABLE", 7502);
    ("AXT_MK_RT_ERROR_SPLINE_POSITION", 7503);
    ("AXT_MK_RT_INVALID_CIRCULAR_POINT", 7510);
    ("AXT_MK_RT_INVALID_POINT", 7511);
    ("AXT_MK_RT_INVALID_QUEUE_SIZE", 7512);
    ("AXT_MK_RT_INVALID_POSITION", 7513);
    ("AXT_MK_RT_INVALID_ROTATION", 7514);
    ("AXT_MK_RT_INVALID_TABLE", 7600);
    ("AXT_MK_RT_INVALID_TABLE_NO", 7601);
    ("AXT_MK_RT_INVALID_TABLE_DATA", 7602);
    ("AXT_MK_RT_INVALID_POSITION_SIZE", 7603);
    ("AXT_MK_RT_INVALID_TABLE_ENABLED", 7604);
    ("AXT_MK_RT_INVALID_TABLE_NOT_ENABLED", 7605);
    ("AXT_MK_RT_INVALID_TABLE_NONE", 7606);
    ("AXT_MK_RT_INVALID_GET_TABLE", 7607);
    ("AXT_MK_RT_INVALID_ENABLE_TABLE", 7608);
    ("AXT_MK_RT_INVALID_DISABLE_TABLE", 7609);
    ("AXT_MK_RT_INVALID_SET", 7610);
    ("AXT_MK_RT_INVALID_RESET", 7611);
    ("AXT_MK_RT_INVALID_ENABLE", 7612);
    ("AXT_MK_RT_INVALID_ROBOT_SIZE", 7700);
    ("AXT_MK_RT_INVALID_ROBOT_AXIS_SIZE", 7701);
    ("AXT_MK_RT_INVALID_ROBOT_COORD_SIZE", 7702);
    ("AXT_MK_RT_INVALID_ROBOT_NO", 7703);
    ("AXT_MK_RT_INVALID_ROBOT_COORD", 7704);
    ("AXT_MK_RT_INVALID_ROBOT_LIMIT", 7705);
    ("AXT_MK_RT_INVALID_ROBOT_POS_LIMIT", 7706);
    ("AXT_MK_RT_INVALID_ROBOT_NEG_LIMIT", 7707);
    ("AXT_MK_RT_INVALID_ROBOT_VEL_LIMIT", 7708);
    ("AXT_MK_RT_INVALID_ROBOT_ACCEL_LIMIT", 7709);
    ("AXT_MK_RT_INVALID_ROBOT_DECEL_LIMIT", 7710);
    ("AXT_MK_RT_ERROR_ROBOT_CALCULATION", 7711);
    ("AXT_MK_RT_INVALID_FRAME", 7712);
    ("AXT_MK_RT_INVALID_FRAME_NO", 7713);
    ("AXT_MK_RT_INVALID_FRAME_TYPE", 7714);
    ("AXT_MK_RT_INVALID_OBJECT_NO", 7715);
    ("AXT_MK_RT_INVALID_ROBOT_SYNC", 7716);
    ("AXT_MK_RT_INVALID_ROBOT_SYNC_MOTION", 7717);
    ("AXT_MK_RT_INVALID_ROBOT_SYNC_ENABLE", 7718);
    ("AXT_MK_RT_INVALID_ROBOT_SYNC_DISABLE", 7719);
    ("AXT_MK_RT_INVALID_ROBOT_SYNC_MOTION_MODE", 7720);
    ("AXT_MK_RT_INVALID_ROBOT_SYNC_WORK_COORD", 7721);
    ("AXT_MK_RT_INVALID_CAPTURE_POS_NO", 7722);
    ("AXT_MK_RT_INVALID_ROBOT_CAPTURE_POS", 7730);
    ("AXT_MK_RT_INVALID_ROBOT_AXIS", 7731);
    ("AXT_MK_RT_INVALID_WORK_NEGATIVE_LIMIT", 7732);
    ("AXT_MK_RT_INVALID_WORK_POSITIVE_LIMIT", 7733);
    ("AXT_MK_RT_INVALID_TOOL_NO", 7740);
    ("AXT_MK_RT_INVALID_FREQUENCY_SIZE", 7800);
    ("AXT_MK_RT_INVALID_IMPULSE_COUNT", 7801);
    ("AXT_MK_RT_INVALID_AMPLITUDE", 7802);
    ("AXT_MK_RT_INVALID_INPUT_SHAPER__NONE", 7803);
    ("AXT_MK_RT_INVALID_INPUT_SHAPER_ENABLED", 7804);
    ("AXT_MK_RT_INVALID_ARRAY_SIZE", 7805);
    ("AXT_MK_RT_NOT_SUPPORT", 7900);
    ("AXT_MK_RT_ERROR", 7901);
    ("AXT_MK_RT_INVLID_FUNCTION_TYPE", 7902) ].

(** [typedef enum _AXT_MOTION_FUNC_RETURN_MODE]. *)
Definition AXT_MOTION_FUNC_RETURN_MODE : list (string * Z) :=
  [ ("FUNC_RETURN_IMMEDIATE", 0);
    ("FUNC_RETURN_BLOCKING", 1);
    ("FUNC_RETURN_NON_BLOCKING", 2) ].

(** [#define MAX_BOARD_COUNT 20]. *)
Definition MAX_BOARD_COUNT : Z := 20.

Definition macros : list (string * Z) := [ ("MAX_BOARD_COUNT", MAX_BOARD_COUNT) ].

Definition MOTION_INFO_decl : struct_decl :=
  Struct "_MOTION_INFO"
    [ Field Tdouble "dCmdPos";
      Field Tdouble "dActPos";
      Field (Tnamed "DWORD") "dwMechSig";
      Field (Tnamed "DWORD") "dwDrvStat";
      Field (Tnamed "DWORD") "dwInput";
      Field (Tnamed "DWORD") "dwOutput";
      Field (Tnamed "DWORD") "dwMask" ]
    "MOTION_INFO".

(** The read-mask bit written beside each data field of [MOTION_INFO]
    ([// Command ...[0x01]] and so on); [dwMask] itself carries none. *)
Definition MOTION_INFO_mask_bits : list (string * Z) :=
  [ ("dCmdPos", 0x01);
    ("dActPos", 0x02);
    ("dwMechSig", 0x04);
    ("dwDrvStat", 0x08);
    ("dwInput", 0x10);
    ("dwOutput", 0x10) ].

(** The example value the header gives for reading everything. *)
Definition MOTION_INFO_read_all : Z := 0x1F.

Definition SIIIHBoardInfo_decl : struct_decl :=
  Struct "_SIIIHBoardInfo"
    [ Field (Tnamed "BOOL") "bIsSIIIHBoard";
      Field Tlong "lNodeCount" ]
    "SIIIHBoardInfo".

Definition SCAN_RESULT_decl : struct_decl :=
  Struct "_SCAN_RESULT"
    [ Field Tlong "lTotalBoardCount";
      Field (Tarray (Tnamed "SIIIHBoardInfo") (Emacro "MAX_BOARD_COUNT")) "BoardInfo" ]
    "SCAN_RESULT".

(** The [__AXL_MOVE_PARAM_DEFINE_] block: one struct per move function whose
    arguments can be read back. *)
Definition AXT_MOVE_START_POS_PARAM : struct_decl :=
  Struct "_AXT_MOVE_START_POS_PARAM"
    [ Field Tlong "lAxisNo";
      Field Tdouble "dPos";
      Field Tdouble "dVel";
      Field Tdouble "dAccel";
      Field Tdouble "dDecel" ]
    "AXT_MOVE_START_POS_PARAM".

Definition AXT_MOVE_POS_PARAM : struct_decl :=
  Struct "_AXT_MOVE_POS_PARAM"
    [ Field Tlong "lAxisNo";
      Field Tdouble "dPos";
      Field Tdouble "dVel";
      Field Tdouble "dAccel";
      Field Tdouble "dDecel" ]
    "AXT_MOVE_POS_PARAM".

Definition AXT_MOVE_VEL_PARAM : struct_decl :=
  Struct "_AXT_MOVE_VEL_PARAM"
    [ Field Tlong "lAxisNo";
      Field Tdouble "dVel";
      Field Tdouble "dAccel";
      Field Tdouble "dDecel" ]
    "AXT_MOVE_VEL_PARAM".

Definition AXT_MOVE_START_MULTI_POS_PARAM : struct_decl :=
  Struct "_AXT_MOVE_START_MULTI_POS_PARAM"
    [ Field Tlong "lArraySize";
      Field (Tptr Tlong) "lMultiAxesNo";
      Field (Tptr Tdouble) "dMultiPos";
      Field (Tptr Tdouble) "dMultiVel";
      Field (Tptr Tdouble) "dMultiAccel";
      Field (Tptr Tdouble) "dMultiDecel" ]
    "AXT_MOVE_START_MULTI_POS_PARAM".

Definition AXT_MOVE_TO_ABS_POS_PARAM : struct_decl :=
  Struct "_AXT_MOVE_TO_ABS_POS_PARAM"
    [ Field Tlong "lAxisNo";
      Field Tdouble "dPos";
      Field Tdouble "dVel";
      Field Tdouble "dAccel";
      Field Tdouble "dDecel" ]
    "AXT_MOVE_TO_ABS_POS_PARAM".

Definition move_param_structs : list struct_decl :=
  [ AXT_MOVE_START_POS_PARAM;
    AXT_MOVE_POS_PARAM;
    AXT_MOVE_VEL_PARAM;
    AXT_MOVE_START_MULTI_POS_PARAM;
    AXT_MOVE_TO_ABS_POS_PARAM ].

Definition structs : list struct_decl :=
  [ MOTION_INFO_decl; SIIIHBoardInfo_decl; SCAN_RESULT_decl ] ++ move_param_structs.

End AXHS.

(** ** AXM.h *)

Module AXM.

(** The prototypes between [extern "C" {] and its closing brace, in file
    order. *)
Definition AXM_prototypes : list prototype :=
  [ Prototype (Tnamed "DWORD") Stdcall "AxmInfoGetAxis" [Param Tlong "lAxisNo"; Param (Tptr Tlong) "lpBoardNo"; Param (Tptr Tlong) "lpModulePos"; Param (Tptr (Tnamed "DWORD")) "upModuleID"];
    Prototype (Tnamed "DWORD") Stdcall "AxmInfoIsMotionModule" [Param (Tptr (Tnamed "DWORD")) "upStatus"];
    Prototype (Tnamed "DWORD") Stdcall "AxmInfoIsInvalidAxisNo" [Param Tlong "lAxisNo"];
    Prototype (Tnamed "DWORD") Stdcall "AxmInfoGetAxisStatus" [Param Tlong "lAxisNo"];
    Prototype (Tnamed "DWORD") Stdcall "AxmInfoGetAxisCount" [Param (Tptr Tlong) "lpAxisCount"];
    Prototype (Tnamed "DWORD") Stdcall "AxmInfoGetFirstAxisNo" [Param Tlong "lBoardNo"; Param Tlong "lModulePos"; Param (Tptr Tlong) "lpAxisNo"];
    Prototype (Tnamed "DWORD") Stdcall "AxmInfoGetBoardFirstAxisNo" [Param Tlong "lBoardNo"; Param Tlong "lModulePos"; Param (Tptr Tlong) "lpAxisNo"];
    Prototype (Tnamed "DWORD") Stdcall "AxmVirtualSetAxisNoMap" [Param Tlong "lRealAxisNo"; Param Tlong "lVirtualAxisNo"];
    Prototype (Tnamed "DWORD") Stdcall "AxmVirtualGetAxisNoMap" [Param Tlong "lRealAxisNo"; Param (Tptr Tlong) "lpVirtualAxisNo"];
    Prototype (Tnamed "DWORD") Stdcall "AxmVirtualSetMultiAxisNoMap" [Param Tlong "lSize"; Param (Tptr Tlong) "lpRealAxesNo"; Param (Tptr Tlong) "lpVirtualAxesNo"];
    Prototype (Tnamed "DWORD") Stdcall "AxmVirtualGetMultiAxisNoMap" [Param Tlong "lSize"; Param (Tptr Tlong) "lpRealAxesNo"; Param (Tptr Tlong) "lpVirtualAxesNo"];
    Prototype (Tnamed "DWORD") Stdcall "AxmVirtualResetAxisMap" [];
    Prototype (Tnamed "DWORD") Stdcall "AxmInterruptSetAxis" [Param Tlong "lAxisNo"; Param (Tnamed "HWND") "hWnd"; Param (Tnamed "DWORD") "uMessage"; Param (Tnamed "AXT_INTERRUPT_PROC") "pProc"; Param (Tptr (Tnamed "HANDLE")) "pEvent"];
    Prototype (Tnamed "DWORD") Stdcall "AxmInterruptSetAxisEnable" [Param Tlong "lAxisNo"; Param (Tnamed "DWORD") "uUse"];
    Prototype (Tnamed "DWORD") Stdcall "AxmInterruptGetAxisEnable" [Param Tlong "lAxisNo"; Param (Tptr (Tnamed "DWORD")) "upUse"];
    Prototype (Tnamed "DWORD") Stdcall "AxmInterruptRead" [Param (Tptr Tlong) "lpAxisNo"; Param (Tptr (Tnamed "DWORD")) "upFlag"];
    Prototype (Tnamed "DWORD") Stdcall "AxmInterruptReadAxisFlag" [Param Tlong "lAxisNo"; Param Tlong "lBank"; Param (Tptr (Tnamed "DWORD")) "upFlag"];
    Prototype (Tnamed "DWORD") Stdcall "AxmInterruptSetUserEnable" [Param Tlong "lAxisNo"; Param Tlong "lBank"; Param (Tnamed "DWORD") "uInterruptNum"];
    Prototype (Tnamed "DWORD") Stdcall "AxmInterruptGetUserEnable" [Param Tlong "lAxisNo"; Param Tlong "lBank"; Param (Tptr (Tnamed "DWORD")) "upInterruptNum"];
    Prototype (Tnamed "DWORD") Stdcall "AxmInterruptSetCNTComparator" [Param Tlong "lAxisNo"; Param Tlong "lComparatorNo"; Param Tdouble "dPosition"];
    Prototype (Tnamed "DWORD") Stdcall "AxmInterruptGetCNTComparator" [Param Tlong "lAxisNo"; Param Tlong "lComparatorNo"; Param (Tptr Tdouble) "dpPosition"];
    Prototype (Tnamed "DWORD") Stdcall "AxmMotGetFileName" [Param (Tptr Tchar) "szFileName"];
    Prototype (Tnamed "DWORD") Stdcall "AxmMotLoadParaAll" [Param (Tptr Tchar) "szFilePath"];
    Prototype (Tnamed "DWORD") Stdcall "AxmMotSaveParaAll" [Param (Tptr Tchar) "szFilePath"];
    Prototype (Tnamed "DWORD") Stdcall "AxmMotSetParaLoad" [Param Tlong "lAxisNo"; Param Tdouble "dInitPos"; Param Tdouble "dInitVel"; Param Tdouble "dInitAccel"; Param Tdouble "dInitDecel"];
    Prototype (Tnamed "DWORD") Stdcall "AxmMotGetParaLoad" [Param Tlong "lAxisNo"; Param (Tptr Tdouble) "dpInitPos"; Param (Tptr Tdouble) "dpInitVel"; Param (Tptr Tdouble) "dpInitAccel"; Param (Tptr Tdouble) "dpInitDecel"];
    Prototype (Tnamed "DWORD") Stdcall "AxmMotSetPulseOutMethod" [Param Tlong "lAxisNo"; Param (Tnamed "DWORD") "uMethod"];
    Prototype (Tnamed "DWORD") Stdcall "AxmMotGetPulseOutMethod" [Param Tlong "lAxisNo"; Param (Tptr (Tnamed "DWORD")) "upMethod"];
    Prototype (Tnamed "DWORD") Stdcall "AxmMotSetEncInputMethod" [Param Tlong "lAxisNo"; Param (Tnamed "DWORD") "uMethod"];
    Prototype (Tnamed "DWORD") Stdcall "AxmMotGetEncInputMethod" [Param Tlong "lAxisNo"; Param (Tptr (Tnamed "DWORD")) "upMethod"];
    Prototype (Tnamed "DWORD") Stdcall "AxmMotSetMoveUnitPerPulse" [Param Tlong "lAxisNo"; Param Tdouble "dUnit"; Param Tlong "lPulse"];
    Prototype (Tnamed "DWORD") Stdcall "AxmMotGetMoveUnitPerPulse" [Param Tlong "lAxisNo"; Param (Tptr Tdouble) "dpUnit"; Param (Tptr Tlong) "lpPulse"];
    Prototype (Tnamed "DWORD") Stdcall "AxmMotSetDecelMode" [Param Tlong "lAxisNo"; Param (Tnamed "DWORD") "uMethod"];
    Prototype (Tnamed "DWORD") Stdcall "AxmMotGetDecelMode" [Param Tlong "lAxisNo"; Param (Tptr (Tnamed "DWORD")) "upMethod"];
    Prototype (Tnamed "DWORD") Stdcall "AxmMotSetRemainPulse" [Param Tlong "lAxisNo"; Param (Tnamed "DWORD") "uData"];
    Prototype (Tnamed "DWORD") Stdcall "AxmMotGetRemainPulse" [Param Tlong "lAxisNo"; Param (Tptr (Tnamed "DWORD")) "upData"];
    Prototype (Tnamed "DWORD") Stdcall "AxmMotSetMaxVel" [Param Tlong "lAxisNo"; Param Tdouble "dVel"];
    Prototype (Tnamed "DWORD") Stdcall "AxmMotGetMaxVel" [Param Tlong "lAxisNo"; Param (Tptr Tdouble) "dpVel"];
    Prototype (Tnamed "DWORD") Stdcall "AxmMotSetAbsRelMode" [Param Tlong "lAxisNo"; Param (Tnamed "DWORD") "uAbsRelMode"];
    Prototype (Tnamed "DWORD") Stdcall "AxmMotGetAbsRelMode" [Param Tlong "lAxisNo"; Param (Tptr (Tnamed "DWORD")) "upAbsRelMode"];
    Prototype (Tnamed "DWORD") Stdcall "AxmMotSetProfileMode" [Param Tlong "lAxisNo"; Param (Tnamed "DWORD") "uProfileMode"];
    Prototype (Tnamed "DWORD") Stdcall "AxmMotGetProfileMode" [Param Tlong "lAxisNo"; Param (Tptr (Tnamed "DWORD")) "upProfileMode"];
    Prototype (Tnamed "DWORD") Stdcall "AxmMotSetAccelUnit" [Param Tlong "lAxisNo"; Param (Tnamed "DWORD") "uAccelUnit"];
    Prototype (Tnamed "DWORD") Stdcall "AxmMotGetAccelUnit" [Param Tlong "lAxisNo"; Param (Tptr (Tnamed "DWORD")) "upAccelUnit"];
    Prototype (Tnamed "DWORD") Stdcall "AxmMotSetMinVel" [Param Tlong "lAxisNo"; Param Tdouble "dMinVel"];
    Prototype (Tnamed "DWORD") Stdcall "AxmMotGetMinVel" [Param Tlong "lAxisNo"; Param (Tptr Tdouble) "dpMinVel"];
    Prototype (Tnamed "DWORD") Stdcall "AxmMotSetAccelJerk" [Param Tlong "lAxisNo"; Param Tdouble "dAccelJerk"];
    Prototype (Tnamed "DWORD") Stdcall "AxmMotGetAccelJerk" [Param Tlong "lAxisNo"; Param (Tptr Tdouble) "dpAccelJerk"];
    Prototype (Tnamed "DWORD") Stdcall "AxmMotSetDecelJerk" [Param Tlong "lAxisNo"; Param Tdouble "dDecelJerk"];
    Prototype (Tnamed "DWORD") Stdcall "AxmMotGetDecelJerk" [Param Tlong "lAxisNo"; Param (Tptr Tdouble) "dpDecelJerk"];
    Prototype (Tnamed "DWORD") Stdcall "AxmMotSetProfilePriority" [Param Tlong "lAxisNo"; Param (Tnamed "DWORD") "uPriority"];
    Prototype (Tnamed "DWORD") Stdcall "AxmMotGetProfilePriority" [Param Tlong "lAxisNo"; Param (Tptr (Tnamed "DWORD")) "upPriority"];
    Prototype (Tnamed "DWORD") Stdcall "AxmSignalSetZphaseLevel" [Param Tlong "lAxisNo"; Param (Tnamed "DWORD") "uLevel"];
    Prototype (Tnamed "DWORD") Stdcall "AxmSignalGetZphaseLevel" [Param Tlong "lAxisNo"; Param (Tptr (Tnamed "DWORD")) "upLevel"];
    Prototype (Tnamed "DWORD") Stdcall "AxmSignalSetServoOnLevel" [Param Tlong "lAxisNo"; Param (Tnamed "DWORD") "uLevel"];
    Prototype (Tnamed "DWORD") Stdcall "AxmSignalGetServoOnLevel" [Param Tlong "lAxisNo"; Param (Tptr (Tnamed "DWORD")) "upLevel"];
    Prototype (Tnamed "DWORD") Stdcall "AxmSignalSetServoAlarmResetLevel" [Param Tlong "lAxisNo"; Param (Tnamed "DWORD") "uLevel"];
    Prototype (Tnamed "DWORD") Stdcall "AxmSignalGetServoAlarmResetLevel" [Param Tlong "lAxisNo"; Param (Tptr (Tnamed "DWORD")) "upLevel"];
    Prototype (Tnamed "DWORD") Stdcall "AxmSignalSetInpos" [Param Tlong "lAxisNo"; Param (Tnamed "DWORD") "uUse"];
    Prototype (Tnamed "DWORD") Stdcall "AxmSignalGetInpos" [Param Tlong "lAxisNo"; Param (Tptr (Tnamed "DWORD")) "upUse"];
    Prototype (Tnamed "DWORD") Stdcall "AxmSignalReadInpos" [Param Tlong "lAxisNo"; Param (Tptr (Tnamed "DWORD")) "upStatus"];
    Prototype (Tnamed "DWORD") Stdcall "AxmSignalSetServoAlarm" [Param Tlong "lAxisNo"; Param (Tnamed "DWORD") "uUse"];
    Prototype (Tnamed "DWORD") Stdcall "AxmSignalGetServoAlarm" [Param Tlong "lAxisNo"; Param (Tptr (Tnamed "DWORD")) "upUse"];
    Prototype (Tnamed "DWORD") Stdcall "AxmSignalReadServoAlarm" [Param Tlong "lAxisNo"; Param (Tptr (Tnamed "DWORD")) "upStatus"];
    Prototype (Tnamed "DWORD") Stdcall "AxmSignalSetLimit" [Param Tlong "lAxisNo"; Param (Tnamed "DWORD") "uStopMode"; Param (Tnamed "DWORD") "uPositiveLevel"; Param (Tnamed "DWORD") "uNegativeLevel"];
    Prototype (Tnamed "DWORD") Stdcall "AxmSignalGetLimit" [Param Tlong "lAxisNo"; Param (Tptr (Tnamed "DWORD")) "upStopMode"; Param (Tptr (Tnamed "DWORD")) "upPositiveLevel"; Param (Tptr (Tnamed "DWORD")) "upNegativeLevel"];
    Prototype (Tnamed "DWORD") Stdcall "AxmSignalReadLimit" [Param Tlong "lAxisNo"; Param (Tptr (Tnamed "DWORD")) "upPositiveStatus"; Param (Tptr (Tnamed "DWORD")) "upNegativeStatus"];
    Prototype (Tnamed "DWORD") Stdcall "AxmSignalSetSoftLimit" [Param Tlong "lAxisNo"; Param (Tnamed "DWORD") "uUse"; Param (Tnamed "DWORD") "uStopMode"; Param (Tnamed "DWORD") "uSelection"; Param Tdouble "dPositivePos"; Param Tdouble "dNegativePos"];
    Prototype (Tnamed "DWORD") Stdcall "AxmSignalGetSoftLimit" [Param Tlong "lAxisNo"; Param (Tptr (Tnamed "DWORD")) "upUse"; Param (Tptr (Tnamed "DWORD")) "upStopMode"; Param (Tptr (Tnamed "DWORD")) "upSelection"; Param (Tptr Tdouble) "dpPositivePos"; Param (Tptr Tdouble) "dpNegativePos"];
    Prototype (Tnamed "DWORD") Stdcall "AxmSignalReadSoftLimit" [Param Tlong "lAxisNo"; Param (Tptr (Tnamed "DWORD")) "upPositiveStatus"; Param (Tptr (Tnamed "DWORD")) "upNegativeStatus"];
    Prototype (Tnamed "DWORD") Stdcall "AxmSignalSetStop" [Param Tlong "lAxisNo"; Param (Tnamed "DWORD") "uStopMode"; Param (Tnamed "DWORD") "uLevel"];
    Prototype (Tnamed "DWORD") Stdcall "AxmSignalGetStop" [Param Tlong "lAxisNo"; Param (Tptr (Tnamed "DWORD")) "upStopMode"; Param (Tptr (Tnamed "DWORD")) "upLevel"];
    Prototype (Tnamed "DWORD") Stdcall "AxmSignalReadStop" [Param Tlong "lAxisNo"; Param (Tptr (Tnamed "DWORD")) "upStatus"];
    Prototype (Tnamed "DWORD") Stdcall "AxmSignalServoOn" [Param Tlong "lAxisNo"; Param (Tnamed "DWORD") "uOnOff"];
    Prototype (Tnamed "DWORD") Stdcall "AxmSignalIsServoOn" [Param Tlong "lAxisNo"; Param (Tptr (Tnamed "DWORD")) "upOnOff"];
    Prototype (Tnamed "DWORD") Stdcall "AxmSignalServoAlarmReset" [Param Tlong "lAxisNo"; Param (Tnamed "DWORD") "uOnOff"];
    Prototype (Tnamed "DWORD") Stdcall "AxmSignalWriteOutput" [Param Tlong "lAxisNo"; Param (Tnamed "DWORD") "uValue"];
    Prototype (Tnamed "DWORD") Stdcall "AxmSignalReadOutput" [Param Tlong "lAxisNo"; Param (Tptr (Tnamed "DWORD")) "upValue"];
    Prototype (Tnamed "DWORD") Stdcall "AxmSignalWriteBrakeOn" [Param Tlong "lAxisNo"; Param (Tnamed "DWORD") "uOnOff"];
    Prototype (Tnamed "DWORD") Stdcall "AxmSignalReadBrakeOn" [Param Tlong "lAxisNo"; Param (Tptr (Tnamed "DWORD")) "upOnOff"];
    Prototype (Tnamed "DWORD") Stdcall "AxmSignalWriteOutputBit" [Param Tlong "lAxisNo"; Param Tlong "lBitNo"; Param (Tnamed "DWORD") "uOnOff"];
    Prototype (Tnamed "DWORD") Stdcall "AxmSignalReadOutputBit" [Param Tlong "lAxisNo"; Param Tlong "lBitNo"; Param (Tptr (Tnamed "DWORD")) "upOnOff"];
    Prototype (Tnamed "DWORD") Stdcall "AxmSignalReadInput" [Param Tlong "lAxisNo"; Param (Tptr (Tnamed "DWORD")) "upValue"];
    Prototype (Tnamed "DWORD") Stdcall "AxmSignalReadInputBit" [Param Tlong "lAxisNo"; Param Tlong "lBitNo"; Param (Tptr (Tnamed "DWORD")) "upOn"];
    Prototype (Tnamed "DWORD") Stdcall "AxmSignalSetFilterBandwidth" [Param Tlong "lAxisNo"; Param (Tnamed "DWORD") "uSignal"; Param Tdouble "dBandwidthUsec"];
    Prototype (Tnamed "DWORD") Stdcall "AxmSignalOutputOn" [Param Tlong "lAxisNo"; Param Tlong "lArraySize"; Param (Tptr Tlong) "lpBitNo"; Param Tlong "lmSec"];
    Prototype (Tnamed "DWORD") Stdcall "AxmSignalOutputOff" [Param Tlong "lAxisNo"; Param Tlong "lArraySize"; Param (Tptr Tlong) "lpBitNo"; Param Tlong "lmSec"];
    Prototype (Tnamed "DWORD") Stdcall "AxmStatusReadInMotion" [Param Tlong "lAxisNo"; Param (Tptr (Tnamed "DWORD")) "upStatus"];
    Prototype (Tnamed "DWORD") Stdcall "AxmStatusReadDrivePulseCount" [Param Tlong "lAxisNo"; Param (Tptr Tlong) "lpPulse"];
    Prototype (Tnamed "DWORD") Stdcall "AxmStatusReadMotion" [Param Tlong "lAxisNo"; Param (Tptr (Tnamed "DWORD")) "upStatus"];
    Prototype (Tnamed "DWORD") Stdcall "AxmStatusReadStop" [Param Tlong "lAxisNo"; Param (Tptr (Tnamed "DWORD")) "upStatus"];
    Prototype (Tnamed "DWORD") Stdcall "AxmStatusReadMechanical" [Param Tlong "lAxisNo"; Param (Tptr (Tnamed "DWORD")) "upStatus"];
    Prototype (Tnamed "DWORD") Stdcall "AxmStatusReadVel" [Param Tlong "lAxisNo"; Param (Tptr Tdouble) "dpVel"];
    Prototype (Tnamed "DWORD") Stdcall "AxmStatusReadPosError" [Param Tlong "lAxisNo"; Param (Tptr Tdouble) "dpError"];
    Prototype (Tnamed "DWORD") Stdcall "AxmStatusReadDriveDistance" [Param Tlong "lAxisNo"; Param (Tptr Tdouble) "dpUnit"];
    Prototype (Tnamed "DWORD") Stdcall "AxmStatusSetPosType" [Param Tlong "lAxisNo"; Param (Tnamed "DWORD") "uPosType"; Param Tdouble "dPositivePos"; Param Tdouble "dNegativePos"];
    Prototype (Tnamed "DWORD") Stdcall "AxmStatusGetPosType" [Param Tlong "lAxisNo"; Param (Tptr (Tnamed "DWORD")) "upPosType"; Param (Tptr Tdouble) "dpPositivePos"; Param (Tptr Tdouble) "dpNegativePos"];
    Prototype (Tnamed "DWORD") Stdcall "AxmStatusSetAbsOrgOffset" [Param Tlong "lAxisNo"; Param Tdouble "dOrgOffsetPos"];
    Prototype (Tnamed "DWORD") Stdcall "AxmStatusSetActPos" [Param Tlong "lAxisNo"; Param Tdouble "dPos"];
    Prototype (Tnamed "DWORD") Stdcall "AxmStatusGetActPos" [Param Tlong "lAxisNo"; Param (Tptr Tdouble) "dpPos"];
    Prototype (Tnamed "DWORD") Stdcall "AxmStatusGetAmpActPos" [Param Tlong "lAxisNo"; Param (Tptr Tdouble) "dpPos"];
    Prototype (Tnamed "DWORD") Stdcall "AxmStatusSetCmdPos" [Param Tlong "lAxisNo"; Param Tdouble "dPos"];
    Prototype (Tnamed "DWORD") Stdcall "AxmStatusGetCmdPos" [Param Tlong "lAxisNo"; Param (Tptr Tdouble) "dpPos"];
    Prototype (Tnamed "DWORD") Stdcall "AxmStatusSetPosMatch" [Param Tlong "lAxisNo"; Param Tdouble "dPos"];
    Prototype (Tnamed "DWORD") Stdcall "AxmStatusReadMotionInfo" [Param Tlong "lAxisNo"; Param (Tnamed "PMOTION_INFO") "pMI"];
    Prototype (Tnamed "DWORD") Stdcall "AxmStatusRequestServoAlarm" [Param Tlong "lAxisNo"];
    Prototype (Tnamed "DWORD") Stdcall "AxmStatusReadServoAlarm" [Param Tlong "lAxisNo"; Param (Tnamed "DWORD") "uReturnMode"; Param (Tptr (Tnamed "DWORD")) "upAlarmCode"];
    Prototype (Tnamed "DWORD") Stdcall "AxmStatusGetServoAlarmString" [Param Tlong "lAxisNo"; Param (Tnamed "DWORD") "uAlarmCode"; Param Tlong "lAlarmStringSize"; Param (Tptr Tchar) "szAlarmString"];
    Prototype (Tnamed "DWORD") Stdcall "AxmStatusRequestServoAlarmHistory" [Param Tlong "lAxisNo"];
    Prototype (Tnamed "DWORD") Stdcall "AxmStatusReadServoAlarmHistory" [Param Tlong "lAxisNo"; Param (Tnamed "DWORD") "uReturnMode"; Param (Tptr Tlong) "lpCount"; Param (Tptr (Tnamed "DWORD")) "upAlarmCode"];
    Prototype (Tnamed "DWORD") Stdcall "AxmStatusClearServoAlarmHistory" [Param Tlong "lAxisNo"];
    Prototype (Tnamed "DWORD") Stdcall "AxmHomeSetSignalLevel" [Param Tlong "lAxisNo"; Param (Tnamed "DWORD") "uLevel"];
    Prototype (Tnamed "DWORD") Stdcall "AxmHomeGetSignalLevel" [Param Tlong "lAxisNo"; Param (Tptr (Tnamed "DWORD")) "upLevel"];
    Prototype (Tnamed "DWORD") Stdcall "AxmHomeReadSignal" [Param Tlong "lAxisNo"; Param (Tptr (Tnamed "DWORD")) "upStatus"];
    Prototype (Tnamed "DWORD") Stdcall "AxmHomeSetMethod" [Param Tlong "lAxisNo"; Param Tlong "lHmDir"; Param (Tnamed "DWORD") "uHomeSignal"; Param (Tnamed "DWORD") "uZphas"; Param Tdouble "dHomeClrTime"; Param Tdouble "dHomeOffset"];
    Prototype (Tnamed "DWORD") Stdcall "AxmHomeGetMethod" [Param Tlong "lAxisNo"; Param (Tptr Tlong) "lpHmDir"; Param (Tptr (Tnamed "DWORD")) "upHomeSignal"; Param (Tptr (Tnamed "DWORD")) "upZphas"; Param (Tptr Tdouble) "dpHomeClrTime"; Param (Tptr Tdouble) "dpHomeOffset"];
    Prototype (Tnamed "DWORD") Stdcall "AxmHomeSetFineAdjust" [Param Tlong "lAxisNo"; Param Tdouble "dHomeDogLength"; Param Tlong "lLevelScanTime"; Param (Tnamed "DWORD") "uFineSearchUse"; Param (Tnamed "DWORD") "uHomeClrUse"];
    Prototype (Tnamed "DWORD") Stdcall "AxmHomeGetFineAdjust" [Param Tlong "lAxisNo"; Param (Tptr Tdouble) "dpHomeDogLength"; Param (Tptr Tlong) "lpLevelScanTime"; Param (Tptr (Tnamed "DWORD")) "upFineSearchUse"; Param (Tptr (Tnamed "DWORD")) "upHomeClrUse"];
    Prototype (Tnamed "DWORD") Stdcall "AxmHomeSetInterlock" [Param Tlong "lAxisNo"; Param (Tnamed "DWORD") "uInterlockMode"; Param Tdouble "dInterlockData"];
    Prototype (Tnamed "DWORD") Stdcall "AxmHomeGetInterlock" [Param Tlong "lAxisNo"; Param (Tptr (Tnamed "DWORD")) "upInterlockMode"; Param (Tptr Tdouble) "dpInterlockData"];
    Prototype (Tnamed "DWORD") Stdcall "AxmHomeSetVel" [Param Tlong "lAxisNo"; Param Tdouble "dVelFirst"; Param Tdouble "dVelSecond"; Param Tdouble "dVelThird"; Param Tdouble "dVelLast"; Param Tdouble "dAccFirst"; Param Tdouble "dAccSecond"];
    Prototype (Tnamed "DWORD") Stdcall "AxmHomeGetVel" [Param Tlong "lAxisNo"; Param (Tptr Tdouble) "dpVelFirst"; Param (Tptr Tdouble) "dpVelSecond"; Param (Tptr Tdouble) "dpVelThird"; Param (Tptr Tdouble) "dpVelLast"; Param (Tptr Tdouble) "dpAccFirst"; Param (Tptr Tdouble) "dpAccSecond"];
    Prototype (Tnamed "DWORD") Stdcall "AxmHomeSetStart" [Param Tlong "lAxisNo"];
    Prototype (Tnamed "DWORD") Stdcall "AxmHomeSetResult" [Param Tlong "lAxisNo"; Param (Tnamed "DWORD") "uHomeResult"];
    Prototype (Tnamed "DWORD") Stdcall "AxmHomeGetResult" [Param Tlong "lAxisNo"; Param (Tptr (Tnamed "DWORD")) "upHomeResult"];
    Prototype (Tnamed "DWORD") Stdcall "AxmHomeGetRate" [Param Tlong "lAxisNo"; Param (Tptr (Tnamed "DWORD")) "upHomeMainStepNumber"; Param (Tptr (Tnamed "DWORD")) "upHomeStepNumber"];
    Prototype (Tnamed "DWORD") Stdcall "AxmMoveStartPos" [Param Tlong "lAxisNo"; Param Tdouble "dPos"; Param Tdouble "dVel"; Param Tdouble "dAccel"; Param Tdouble "dDecel"];
    Prototype (Tnamed "DWORD") Stdcall "AxmMovePos" [Param Tlong "lAxisNo"; Param Tdouble "dPos"; Param Tdouble "dVel"; Param Tdouble "dAccel"; Param Tdouble "dDecel"];
    Prototype (Tnamed "DWORD") Stdcall "AxmMoveVel" [Param Tlong "lAxisNo"; Param Tdouble "dVel"; Param Tdouble "dAccel"; Param Tdouble "dDecel"];
    Prototype (Tnamed "DWORD") Stdcall "AxmMoveStartMultiVel" [Param Tlong "lArraySize"; Param (Tptr Tlong) "lpAxesNo"; Param (Tptr Tdouble) "dpVel"; Param (Tptr Tdouble) "dpAccel"; Param (Tptr Tdouble) "dpDecel"];
    Prototype (Tnamed "DWORD") Stdcall "AxmMoveStartMultiVelEx" [Param Tlong "lArraySize"; Param (Tptr Tlong) "lpAxesNo"; Param (Tptr Tdouble) "dpVel"; Param (Tptr Tdouble) "dpAccel"; Param (Tptr Tdouble) "dpDecel"; Param (Tnamed "DWORD") "dwSyncMode"];
    Prototype (Tnamed "DWORD") Stdcall "AxmMoveStartLineVel" [Param Tlong "lArraySize"; Param (Tptr Tlong) "lpAxesNo"; Param (Tptr Tdouble) "dpDis"; Param Tdouble "dVel"; Param Tdouble "dAccel"; Param Tdouble "dDecel"];
    Prototype (Tnamed "DWORD") Stdcall "AxmMoveSignalSearch" [Param Tlong "lAxisNo"; Param Tdouble "dVel"; Param Tdouble "dAccel"; Param Tlong "lDetectSignal"; Param Tlong "lSignalEdge"; Param Tlong "lSignalMethod"];
    Prototype (Tnamed "DWORD") Stdcall "AxmMoveSignalSearchAtDis" [Param Tlong "lAxisNo"; Param Tdouble "dVel"; Param Tdouble "dAccel"; Param Tdouble "dDecel"; Param Tlong "lDetectSignal"; Param Tdouble "dDis"];
    Prototype (Tnamed "DWORD") Stdcall "AxmMoveSignalCapture" [Param Tlong "lAxisNo"; Param Tdouble "dVel"; Param Tdouble "dAccel"; Param Tlong "lDetectSignal"; Param Tlong "lSignalEdge"; Param Tlong "lTarget"; Param Tlong "lSignalMethod"];
    Prototype (Tnamed "DWORD") Stdcall "AxmMoveGetCapturePos" [Param Tlong "lAxisNo"; Param (Tptr Tdouble) "dpCapPotition"];
    Prototype (Tnamed "DWORD") Stdcall "AxmMoveStartMultiPos" [Param Tlong "lArraySize"; Param (Tptr Tlong) "lpAxisNo"; Param (Tptr Tdouble) "dpPos"; Param (Tptr Tdouble) "dpVel"; Param (Tptr Tdouble) "dpAccel"; Param (Tptr Tdouble) "dpDecel"];
    Prototype (Tnamed "DWORD") Stdcall "AxmMoveMultiPos" [Param Tlong "lArraySize"; Param (Tptr Tlong) "lpAxisNo"; Param (Tptr Tdouble) "dpPos"; Param (Tptr Tdouble) "dpVel"; Param (Tptr Tdouble) "dpAccel"; Param (Tptr Tdouble) "dpDecel"];
    Prototype (Tnamed "DWORD") Stdcall "AxmMoveStartTorque" [Param Tlong "lAxisNo"; Param Tdouble "dTorque"; Param Tdouble "dVel"; Param (Tnamed "DWORD") "dwAccFilterSel"; Param (Tnamed "DWORD") "dwGainSel"; Param (Tnamed "DWORD") "dwSpdLoopSel"];
    Prototype (Tnamed "DWORD") Stdcall "AxmMoveTorqueStop" [Param Tlong "lAxisNo"; Param (Tnamed "DWORD") "dwMethod"];
    Prototype (Tnamed "DWORD") Stdcall "AxmMoveStartPosWithList" [Param Tlong "lAxisNo"; Param Tdouble "dPosition"; Param (Tptr Tdouble) "dpVel"; Param (Tptr Tdouble) "dpAccel"; Param (Tptr Tdouble) "dpDecel"; Param Tlong "lListNum"];
    Prototype (Tnamed "DWORD") Stdcall "AxmMoveStartPosWithPosEvent" [Param Tlong "lAxisNo"; Param Tdouble "dPos"; Param Tdouble "dVel"; Param Tdouble "dAccel"; Param Tdouble "dDecel"; Param Tlong "lEventAxisNo"; Param Tdouble "dComparePosition"; Param (Tnamed "DWORD") "uPositionSource"];
    Prototype (Tnamed "DWORD") Stdcall "AxmMoveStop" [Param Tlong "lAxisNo"; Param Tdouble "dDecel"];
    Prototype (Tnamed "DWORD") Stdcall "AxmMoveStopEx" [Param Tlong "lAxisNo"; Param Tdouble "dDecel"];
    Prototype (Tnamed "DWORD") Stdcall "AxmMoveEStop" [Param Tlong "lAxisNo"];
    Prototype (Tnamed "DWORD") Stdcall "AxmMoveSStop" [Param Tlong "lAxisNo"];
    Prototype (Tnamed "DWORD") Stdcall "AxmOverridePos" [Param Tlong "lAxisNo"; Param Tdouble "dOverridePos"];
    Prototype (Tnamed "DWORD") Stdcall "AxmOverridePosAbs" [Param Tlong "lAxisNo"; Param Tdouble "dOverridePos"];
    Prototype (Tnamed "DWORD") Stdcall "AxmOverrideSetMaxVel" [Param Tlong "lAxisNo"; Param Tdouble "dOverrideMaxVel"];
    Prototype (Tnamed "DWORD") Stdcall "AxmOverrideVel" [Param Tlong "lAxisNo"; Param Tdouble "dOverrideVel"];
    Prototype (Tnamed "DWORD") Stdcall "AxmOverrideAccelVelDecel" [Param Tlong "lAxisNo"; Param Tdouble "dOverrideVelocity"; Param Tdouble "dMaxAccel"; Param Tdouble "dMaxDecel"];
    Prototype (Tnamed "DWORD") Stdcall "AxmOverrideVelAtPos" [Param Tlong "lAxisNo"; Param Tdouble "dPos"; Param Tdouble "dVel"; Param Tdouble "dAccel"; Param Tdouble "dDecel"; Param Tdouble "dOverridePos"; Param Tdouble "dOverrideVel"; Param Tlong "lTarget"];
    Prototype (Tnamed "DWORD") Stdcall "AxmOverrideVelAtMultiPos" [Param Tlong "lAxisNo"; Param Tdouble "dPos"; Param Tdouble "dVel"; Param Tdouble "dAccel"; Param Tdouble "dDecel"; Param Tlong "lArraySize"; Param (Tptr Tdouble) "dpOverridePos"; Param (Tptr Tdouble) "dpOverrideVel"; Param Tlong "lTarget"; Param (Tnamed "DWORD") "dwOverrideMode"];
    Prototype (Tnamed "DWORD") Stdcall "AxmOverrideVelAtMultiPos2" [Param Tlong "lAxisNo"; Param Tdouble "dPos"; Param Tdouble "dVel"; Param Tdouble "dAccel"; Param Tdouble "dDecel"; Param Tlong "lArraySize"; Param (Tptr Tdouble) "dpOverridePos"; Param (Tptr Tdouble) "dpOverrideVel"; Param (Tptr Tdouble) "dpOverrideAccelDecel"; Param Tlong "lTarget"; Param (Tnamed "DWORD") "dwOverrideMode"];
    Prototype (Tnamed "DWORD") Stdcall "AxmOverrideAccelVelDecelAtMultiPos" [Param Tlong "lAxisNo"; Param Tdouble "dPosition"; Param Tdouble "dVelocity"; Param Tdouble "dAcceleration"; Param Tdouble "dDeceleration"; Param Tlong "lArraySize"; Param (Tptr Tdouble) "dpOverridePosition"; Param (Tptr Tdouble) "dpOverrideVelocity"; Param (Tptr Tdouble) "dpOverrideAccel"; Param (Tptr Tdouble) "dpOverrideDecel"; Param Tlong "lTarget"; Param (Tnamed "DWORD") "dwOverrideMode"];
    Prototype (Tnamed "DWORD") Stdcall "AxmOverrideMultiVel" [Param Tlong "lArraySize"; Param (Tptr Tlong) "lpAxisNo"; Param (Tptr Tdouble) "dpOverrideVel"];
    Prototype (Tnamed "DWORD") Stdcall "AxmLinkSetMode" [Param Tlong "lMasterAxisNo"; Param Tlong "lSlaveAxisNo"; Param Tdouble "dSlaveRatio"];
    Prototype (Tnamed "DWORD") Stdcall "AxmLinkGetMode" [Param Tlong "lMasterAxisNo"; Param (Tptr Tlong) "lpSlaveAxisNo"; Param (Tptr Tdouble) "dpGearRatio"];
    Prototype (Tnamed "DWORD") Stdcall "AxmLinkResetMode" [Param Tlong "lMasterAxisNo"];
    Prototype (Tnamed "DWORD") Stdcall "AxmGantrySetEnable" [Param Tlong "lMasterAxisNo"; Param Tlong "lSlaveAxisNo"; Param (Tnamed "DWORD") "uSlHomeUse"; Param Tdouble "dSlOffset"; Param Tdouble "dSlOffsetRange"];
    Prototype (Tnamed "DWORD") Stdcall "AxmGantryGetEnable" [Param Tlong "lMasterAxisNo"; Param (Tptr (Tnamed "DWORD")) "upSlHomeUse"; Param (Tptr Tdouble) "dpSlOffset"; Param (Tptr Tdouble) "dpSlORange"; Param (Tptr (Tnamed "DWORD")) "upGatryOn"];
    Prototype (Tnamed "DWORD") Stdcall "AxmGantrySetDisable" [Param Tlong "lMasterAxisNo"; Param Tlong "lSlaveAxisNo"];
    Prototype (Tnamed "DWORD") Stdcall "AxmGantrySetCompensationGain" [Param Tlong "lMasterAxisNo"; Param Tlong "lMasterGain"; Param Tlong "lSlaveGain"];
    Prototype (Tnamed "DWORD") Stdcall "AxmGantryGetCompensationGain" [Param Tlong "lMasterAxisNo"; Param (Tptr Tlong) "lpMasterGain"; Param (Tptr Tlong) "lpSlaveGain"];
    Prototype (Tnamed "DWORD") Stdcall "AxmGantrySetErrorRange" [Param Tlong "lMasterAxisNo"; Param Tdouble "dErrorRange"; Param (Tnamed "DWORD") "uUse"];
    Prototype (Tnamed "DWORD") Stdcall "AxmGantryGetErrorRange" [Param Tlong "lMasterAxisNo"; Param (Tptr Tdouble) "dpErrorRange"; Param (Tptr (Tnamed "DWORD")) "upUse"];
    Prototype (Tnamed "DWORD") Stdcall "AxmGantryReadErrorRangeStatus" [Param Tlong "lMasterAxisNo"; Param (Tptr (Tnamed "DWORD")) "dwpStatus"];
    Prototype (Tnamed "DWORD") Stdcall "AxmGantryReadErrorRangeComparePos" [Param Tlong "lMasterAxisNo"; Param (Tptr Tdouble) "dpComparePos"];
    Prototype (Tnamed "DWORD") Stdcall "AxmLineMove" [Param Tlong "lCoord"; Param (Tptr Tdouble) "dpEndPos"; Param Tdouble "dVel"; Param Tdouble "dAccel"; Param Tdouble "dDecel"];
    Prototype (Tnamed "DWORD") Stdcall "AxmLineMoveEx2" [Param Tlong "lCoord"; Param (Tptr Tdouble) "dpEndPos"; Param Tdouble "dVel"; Param Tdouble "dAccel"; Param Tdouble "dDecel"];
    Prototype (Tnamed "DWORD") Stdcall "AxmCircleCenterMove" [Param Tlong "lCoord"; Param (Tptr Tlong) "lAxisNo"; Param (Tptr Tdouble) "dCenterPos"; Param (Tptr Tdouble) "dEndPos"; Param Tdouble "dVel"; Param Tdouble "dAccel"; Param Tdouble "dDecel"; Param (Tnamed "DWORD") "uCWDir"];
    Prototype (Tnamed "DWORD") Stdcall "AxmCirclePointMove" [Param Tlong "lCoord"; Param (Tptr Tlong) "lAxisNo"; Param (Tptr Tdouble) "dMidPos"; Param (Tptr Tdouble) "dEndPos"; Param Tdouble "dVel"; Param Tdouble "dAccel"; Param Tdouble "dDecel"; Param Tlong "lArcCircle"];
    Prototype (Tnamed "DWORD") Stdcall "AxmCircleRadiusMove" [Param Tlong "lCoord"; Param (Tptr Tlong) "lAxisNo"; Param Tdouble "dRadius"; Param (Tptr Tdouble) "dEndPos"; Param Tdouble "dVel"; Param Tdouble "dAccel"; Param Tdouble "dDecel"; Param (Tnamed "DWORD") "uCWDir"; Param (Tnamed "DWORD") "uShortDistance"];
    Prototype (Tnamed "DWORD") Stdcall "AxmCircleAngleMove" [Param Tlong "lCoord"; Param (Tptr Tlong) "lAxisNo"; Param (Tptr Tdouble) "dCenterPos"; Param Tdouble "dAngle"; Param Tdouble "dVel"; Param Tdouble "dAccel"; Param Tdouble "dDecel"; Param (Tnamed "DWORD") "uCWDir"];
    Prototype (Tnamed "DWORD") Stdcall "AxmContiSetAxisMap" [Param Tlong "lCoord"; Param Tlong "lSize"; Param (Tptr Tlong) "lpAxesNo"];
    Prototype (Tnamed "DWORD") Stdcall "AxmContiGetAxisMap" [Param Tlong "lCoord"; Param (Tptr Tlong) "lpSize"; Param (Tptr Tlong) "lpAxesNo"];
    Prototype (Tnamed "DWORD") Stdcall "AxmContiResetAxisMap" [Param Tlong "lCoordinate"];
    Prototype (Tnamed "DWORD") Stdcall "AxmContiSetAbsRelMode" [Param Tlong "lCoord"; Param (Tnamed "DWORD") "uAbsRelMode"];
    Prototype (Tnamed "DWORD") Stdcall "AxmContiGetAbsRelMode" [Param Tlong "lCoord"; Param (Tptr (Tnamed "DWORD")) "upAbsRelMode"];
    Prototype (Tnamed "DWORD") Stdcall "AxmContiReadFree" [Param Tlong "lCoord"; Param (Tptr (Tnamed "DWORD")) "upQueueFree"];
    Prototype (Tnamed "DWORD") Stdcall "AxmContiReadIndex" [Param Tlong "lCoord"; Param (Tptr Tlong) "lpQueueIndex"];
    Prototype (Tnamed "DWORD") Stdcall "AxmContiWriteClear" [Param Tlong "lCoord"];
    Prototype (Tnamed "DWORD") Stdcall "AxmContiBeginNode" [Param Tlong "lCoord"];
    Prototype (Tnamed "DWORD") Stdcall "AxmContiEndNode" [Param Tlong "lCoord"];
    Prototype (Tnamed "DWORD") Stdcall "AxmContiStart" [Param Tlong "lCoord"; Param (Tnamed "DWORD") "dwProfileset"; Param Tlong "lAngle"];
    Prototype (Tnamed "DWORD") Stdcall "AxmContiIsMotion" [Param Tlong "lCoord"; Param (Tptr (Tnamed "DWORD")) "upInMotion"];
    Prototype (Tnamed "DWORD") Stdcall "AxmContiGetNodeNum" [Param Tlong "lCoord"; Param (Tptr Tlong) "lpNodeNum"];
    Prototype (Tnamed "DWORD") Stdcall "AxmContiGetTotalNodeNum" [Param Tlong "lCoord"; Param (Tptr Tlong) "lpNodeNum"];
    Prototype (Tnamed "DWORD") Stdcall "AxmContiDigitalOutputBit" [Param Tlong "lCoord"; Param Tlong "lSize"; Param Tlong "lModuleType"; Param (Tptr Tlong) "lpModuleNo"; Param (Tptr Tlong) "lpBit"; Param (Tptr Tlong) "lpOffOn"; Param (Tptr Tdouble) "dpDistTime"; Param (Tptr Tlong) "lpDistTimeMode"];
    Prototype (Tnamed "DWORD") Stdcall "AxmContiSetConnectionRadius" [Param Tlong "lCoord"; Param Tdouble "dRadius"];
    Prototype (Tnamed "DWORD") Stdcall "AxmTriggerSetTimeLevel" [Param Tlong "lAxisNo"; Param Tdouble "dTrigTime"; Param (Tnamed "DWORD") "uTriggerLevel"; Param (Tnamed "DWORD") "uSelect"; Param (Tnamed "DWORD") "uInterrupt"];
    Prototype (Tnamed "DWORD") Stdcall "AxmTriggerGetTimeLevel" [Param Tlong "lAxisNo"; Param (Tptr Tdouble) "dpTrigTime"; Param (Tptr (Tnamed "DWORD")) "upTriggerLevel"; Param (Tptr (Tnamed "DWORD")) "upSelect"; Param (Tptr (Tnamed "DWORD")) "upInterrupt"];
    Prototype (Tnamed "DWORD") Stdcall "AxmTriggerSetAbsPeriod" [Param Tlong "lAxisNo"; Param (Tnamed "DWORD") "uMethod"; Param Tdouble "dPos"];
    Prototype (Tnamed "DWORD") Stdcall "AxmTriggerGetAbsPeriod" [Param Tlong "lAxisNo"; Param (Tptr (Tnamed "DWORD")) "upMethod"; Param (Tptr Tdouble) "dpPos"];
    Prototype (Tnamed "DWORD") Stdcall "AxmTriggerSetBlock" [Param Tlong "lAxisNo"; Param Tdouble "dStartPos"; Param Tdouble "dEndPos"; Param Tdouble "dPeriodPos"];
    Prototype (Tnamed "DWORD") Stdcall "AxmTriggerGetBlock" [Param Tlong "lAxisNo"; Param (Tptr Tdouble) "dpStartPos"; Param (Tptr Tdouble) "dpEndPos"; Param (Tptr Tdouble) "dpPeriodPos"];
    Prototype (Tnamed "DWORD") Stdcall "AxmTriggerOneShot" [Param Tlong "lAxisNo"];
    Prototype (Tnamed "DWORD") Stdcall "AxmTriggerSetTimerOneshot" [Param Tlong "lAxisNo"; Param Tlong "lmSec"];
    Prototype (Tnamed "DWORD") Stdcall "AxmTriggerOnlyAbs" [Param Tlong "lAxisNo"; Param Tlong "lTrigNum"; Param (Tptr Tdouble) "dpTrigPos"];
    Prototype (Tnamed "DWORD") Stdcall "AxmTriggerSetReset" [Param Tlong "lAxisNo"];
    Prototype (Tnamed "DWORD") Stdcall "AxmTriggerSetPoint" [Param Tlong "lAxisNo"; Param Tdouble "dStartPos"; Param Tdouble "dEndPos"];
    Prototype (Tnamed "DWORD") Stdcall "AxmTriggerGetPoint" [Param Tlong "lAxisNo"; Param (Tptr Tdouble) "dpStrPosition"; Param (Tptr Tdouble) "dpEndPos"];
    Prototype (Tnamed "DWORD") Stdcall "AxmTriggerSetPointClear" [Param Tlong "lAxisNo"];
    Prototype (Tnamed "DWORD") Stdcall "AxmCrcSetMaskLevel" [Param Tlong "lAxisNo"; Param (Tnamed "DWORD") "uLevel"; Param (Tnamed "DWORD") "uMethod"];
    Prototype (Tnamed "DWORD") Stdcall "AxmCrcGetMaskLevel" [Param Tlong "lAxisNo"; Param (Tptr (Tnamed "DWORD")) "upLevel"; Param (Tptr (Tnamed "DWORD")) "upMethod"];
    Prototype (Tnamed "DWORD") Stdcall "AxmCrcSetOutput" [Param Tlong "lAxisNo"; Param (Tnamed "DWORD") "uOnOff"];
    Prototype (Tnamed "DWORD") Stdcall "AxmCrcGetOutput" [Param Tlong "lAxisNo"; Param (Tptr (Tnamed "DWORD")) "upOnOff"];
    Prototype (Tnamed "DWORD") Stdcall "AxmMPGSetEnable" [Param Tlong "lAxisNo"; Param Tlong "lInputMethod"; Param Tlong "lDriveMode"; Param Tdouble "dMPGPos"; Param Tdouble "dVel"; Param Tdouble "dAccel"];
    Prototype (Tnamed "DWORD") Stdcall "AxmMPGGetEnable" [Param Tlong "lAxisNo"; Param (Tptr Tlong) "lpInputMethod"; Param (Tptr Tlong) "lpDriveMode"; Param (Tptr Tdouble) "dpMPGPos"; Param (Tptr Tdouble) "dpVel"; Param (Tptr Tdouble) "dAccel"];
    Prototype (Tnamed "DWORD") Stdcall "AxmMPGSetRatio" [Param Tlong "lAxisNo"; Param (Tnamed "DWORD") "uMPGnumerator"; Param (Tnamed "DWORD") "uMPGdenominator"];
    Prototype (Tnamed "DWORD") Stdcall "AxmMPGGetRatio" [Param Tlong "lAxisNo"; Param (Tptr (Tnamed "DWORD")) "upMPGnumerator"; Param (Tptr (Tnamed "DWORD")) "upMPGdenominator"];
    Prototype (Tnamed "DWORD") Stdcall "AxmMPGReset" [Param Tlong "lAxisNo"];
    Prototype (Tnamed "DWORD") Stdcall "AxmHelixCenterMove" [Param Tlong "lCoord"; Param Tdouble "dCenterXPos"; Param Tdouble "dCenterYPos"; Param Tdouble "dEndXPos"; Param Tdouble "dEndYPos"; Param Tdouble "dZPos"; Param Tdouble "dVel"; Param Tdouble "dAccel"; Param Tdouble "dDecel"; Param (Tnamed "DWORD") "uCWDir"];
    Prototype (Tnamed "DWORD") Stdcall "AxmHelixPointMove" [Param Tlong "lCoord"; Param Tdouble "dMidXPos"; Param Tdouble "dMidYPos"; Param Tdouble "dEndXPos"; Param Tdouble "dEndYPos"; Param Tdouble "dZPos"; Param Tdouble "dVel"; Param Tdouble "dAccel"; Param Tdouble "dDecel"];
    Prototype (Tnamed "DWORD") Stdcall "AxmHelixRadiusMove" [Param Tlong "lCoord"; Param Tdouble "dRadius"; Param Tdouble "dEndXPos"; Param Tdouble "dEndYPos"; Param Tdouble "dZPos"; Param Tdouble "dVel"; Param Tdouble "dAccel"; Param Tdouble "dDecel"; Param (Tnamed "DWORD") "uCWDir"; Param (Tnamed "DWORD") "uShortDistance"];
    Prototype (Tnamed "DWORD") Stdcall "AxmHelixAngleMove" [Param Tlong "lCoord"; Param Tdouble "dCenterXPos"; Param Tdouble "dCenterYPos"; Param Tdouble "dAngle"; Param Tdouble "dZPos"; Param Tdouble "dVel"; Param Tdouble "dAccel"; Param Tdouble "dDecel"; Param (Tnamed "DWORD") "uCWDir"];
    Prototype (Tnamed "DWORD") Stdcall "AxmHelixPitchMove" [Param Tlong "lCoordNo"; Param (Tptr Tdouble) "dpFirstCenterPos"; Param (Tptr Tdouble) "dpSecondCenterPos"; Param Tdouble "dPitch"; Param Tdouble "dTraverseDistance"; Param Tdouble "dVel"; Param Tdouble "dAccel"; Param Tdouble "dDecel"; Param (Tnamed "DWORD") "uCWDir"];
    Prototype (Tnamed "DWORD") Stdcall "AxmSplineWrite" [Param Tlong "lCoord"; Param Tlong "lPosSize"; Param (Tptr Tdouble) "dpPosX"; Param (Tptr Tdouble) "dpPosY"; Param Tdouble "dVel"; Param Tdouble "dAccel"; Param Tdouble "dDecel"; Param Tdouble "dPosZ"; Param Tlong "lPointFactor"];
    Prototype (Tnamed "DWORD") Stdcall "AxmCompensationSet" [Param Tlong "lAxisNo"; Param Tlong "lNumEntry"; Param Tdouble "dStartPos"; Param (Tptr Tdouble) "dpPosition"; Param (Tptr Tdouble) "dpCorrection"; Param (Tnamed "DWORD") "dwRollOver"];
    Prototype (Tnamed "DWORD") Stdcall "AxmCompensationGet" [Param Tlong "lAxisNo"; Param (Tptr Tlong) "lpNumEntry"; Param (Tptr Tdouble) "dpStartPos"; Param (Tptr Tdouble) "dpPosition"; Param (Tptr Tdouble) "dpCorrection"; Param (Tptr (Tnamed "DWORD")) "dwpRollOver"];
    Prototype (Tnamed "DWORD") Stdcall "AxmCompensationEnable" [Param Tlong "lAxisNo"; Param (Tnamed "DWORD") "dwEnable"];
    Prototype (Tnamed "DWORD") Stdcall "AxmCompensationIsEnable" [Param Tlong "lAxisNo"; Param (Tptr (Tnamed "DWORD")) "dwpEnable"];
    Prototype (Tnamed "DWORD") Stdcall "AxmCompensationGetCorrection" [Param Tlong "lAxisNo"; Param (Tptr Tdouble) "dpCorrection"];
    Prototype (Tnamed "DWORD") Stdcall "AxmCompensationSetBacklash" [Param Tlong "lAxisNo"; Param Tlong "lBacklashDir"; Param Tdouble "dBacklash"];
    Prototype (Tnamed "DWORD") Stdcall "AxmCompensationGetBacklash" [Param Tlong "lAxisNo"; Param (Tptr Tlong) "lpBacklashDir"; Param (Tptr Tdouble) "dpBacklash"];
    Prototype (Tnamed "DWORD") Stdcall "AxmCompensationEnableBacklash" [Param Tlong "lAxisNo"; Param (Tnamed "DWORD") "dwEnable"];
    Prototype (Tnamed "DWORD") Stdcall "AxmCompensationIsEnableBacklash" [Param Tlong "lAxisNo"; Param (Tptr (Tnamed "DWORD")) "dwpEnable"];
    Prototype (Tnamed "DWORD") Stdcall "AxmCompensationSetLocating" [Param Tlong "lAxisNo"; Param Tdouble "dVel"; Param Tdouble "dAccel"; Param Tdouble "dDecel"; Param Tdouble "dWaitTime"];
    Prototype (Tnamed "DWORD") Stdcall "AxmEcamSet" [Param Tlong "lAxisNo"; Param Tlong "lMasterAxis"; Param Tlong "lNumEntry"; Param Tdouble "dMasterStartPos"; Param (Tptr Tdouble) "dpMasterPos"; Param (Tptr Tdouble) "dpSlavePos"];
    Prototype (Tnamed "DWORD") Stdcall "AxmEcamSetWithSource" [Param Tlong "lAxisNo"; Param Tlong "lMasterAxis"; Param Tlong "lNumEntry"; Param Tdouble "dMasterStartPos"; Param (Tptr Tdouble) "dpMasterPos"; Param (Tptr Tdouble) "dpSlavePos"; Param (Tnamed "DWORD") "dwSource"];
    Prototype (Tnamed "DWORD") Stdcall "AxmEcamGet" [Param Tlong "lAxisNo"; Param (Tptr Tlong) "lpMasterAxis"; Param (Tptr Tlong) "lpNumEntry"; Param (Tptr Tdouble) "dpMasterStartPos"; Param (Tptr Tdouble) "dpMasterPos"; Param (Tptr Tdouble) "dpSlavePos"];
    Prototype (Tnamed "DWORD") Stdcall "AxmEcamGetWithSource" [Param Tlong "lAxisNo"; Param (Tptr Tlong) "lpMasterAxis"; Param (Tptr Tlong) "lpNumEntry"; Param (Tptr Tdouble) "dpMasterStartPos"; Param (Tptr Tdouble) "dpMasterPos"; Param (Tptr Tdouble) "dpSlavePos"; Param (Tptr (Tnamed "DWORD")) "dwpSource"];
    Prototype (Tnamed "DWORD") Stdcall "AxmEcamEnableBySlave" [Param Tlong "lAxisNo"; Param (Tnamed "DWORD") "dwEnable"];
    Prototype (Tnamed "DWORD") Stdcall "AxmEcamEnableByMaster" [Param Tlong "lAxisNo"; Param (Tnamed "DWORD") "dwEnable"];
    Prototype (Tnamed "DWORD") Stdcall "AxmEcamIsSlaveEnable" [Param Tlong "lAxisNo"; Param (Tptr (Tnamed "DWORD")) "dwpEnable"];
    Prototype (Tnamed "DWORD") Stdcall "AxmStatusSetServoMonitor" [Param Tlong "lAxisNo"; Param (Tnamed "DWORD") "dwSelMon"; Param Tdouble "dActionValue"; Param (Tnamed "DWORD") "dwAction"];
    Prototype (Tnamed "DWORD") Stdcall "AxmStatusGetServoMonitor" [Param Tlong "lAxisNo"; Param (Tnamed "DWORD") "dwSelMon"; Param (Tptr Tdouble) "dpActionValue"; Param (Tptr (Tnamed "DWORD")) "dwpAction"];
    Prototype (Tnamed "DWORD") Stdcall "AxmStatusSetServoMonitorEnable" [Param Tlong "lAxisNo"; Param (Tnamed "DWORD") "dwEnable"];
    Prototype (Tnamed "DWORD") Stdcall "AxmStatusGetServoMonitorEnable" [Param Tlong "lAxisNo"; Param (Tptr (Tnamed "DWORD")) "dwpEnable"];
    Prototype (Tnamed "DWORD") Stdcall "AxmStatusReadServoMonitorFlag" [Param Tlong "lAxisNo"; Param (Tnamed "DWORD") "dwSelMon"; Param (Tptr (Tnamed "DWORD")) "dwpMonitorFlag"; Param (Tptr Tdouble) "dpMonitorValue"];
    Prototype (Tnamed "DWORD") Stdcall "AxmStatusReadServoMonitorValue" [Param Tlong "lAxisNo"; Param (Tnamed "DWORD") "dwSelMon"; Param (Tptr Tdouble) "dpMonitorValue"];
    Prototype (Tnamed "DWORD") Stdcall "AxmStatusSetReadServoLoadRatio" [Param Tlong "lAxisNo"; Param (Tnamed "DWORD") "dwSelMon"];
    Prototype (Tnamed "DWORD") Stdcall "AxmStatusReadServoLoadRatio" [Param Tlong "lAxisNo"; Param (Tptr Tdouble) "dpMonitorValue"];
    Prototype (Tnamed "DWORD") Stdcall "AxmMotSetScaleCoeff" [Param Tlong "lAxisNo"; Param Tlong "lScaleCoeff"];
    Prototype (Tnamed "DWORD") Stdcall "AxmMotGetScaleCoeff" [Param Tlong "lAxisNo"; Param (Tptr Tlong) "lpScaleCoeff"];
    Prototype (Tnamed "DWORD") Stdcall "AxmMoveSignalSearchEx" [Param Tlong "lAxisNo"; Param Tdouble "dVel"; Param Tdouble "dAccel"; Param Tlong "lDetectSignal"; Param Tlong "lSignalEdge"; Param Tlong "lSignalMethod"];
    Prototype (Tnamed "DWORD") Stdcall "AxmMoveToAbsPos" [Param Tlong "lAxisNo"; Param Tdouble "dPos"; Param Tdouble "dVel"; Param Tdouble "dAccel"; Param Tdouble "dDecel"];
    Prototype (Tnamed "DWORD") Stdcall "AxmStatusReadVelEx" [Param Tlong "lAxisNo"; Param (Tptr Tdouble) "dpVel"];
    Prototype (Tnamed "DWORD") Stdcall "AxmMotSetElectricGearRatio" [Param Tlong "lAxisNo"; Param Tlong "lNumerator"; Param Tlong "lDenominator"];
    Prototype (Tnamed "DWORD") Stdcall "AxmMotGetElectricGearRatio" [Param Tlong "lAxisNo"; Param (Tptr Tlong) "lpNumerator"; Param (Tptr Tlong) "lpDenominator"];
    Prototype (Tnamed "DWORD") Stdcall "AxmMotSetTorqueLimit" [Param Tlong "lAxisNo"; Param Tdouble "dbPlusDirTorqueLimit"; Param Tdouble "dbMinusDirTorqueLimit"];
    Prototype (Tnamed "DWORD") Stdcall "AxmMotGetTorqueLimit" [Param Tlong "lAxisNo"; Param (Tptr Tdouble) "dbpPlusDirTorqueLimit"; Param (Tptr Tdouble) "dbpMinusDirTorqueLimit"];
    Prototype (Tnamed "DWORD") Stdcall "AxmMotSetTorqueLimitEx" [Param Tlong "lAxisNo"; Param Tdouble "dbPlusDirTorqueLimit"; Param Tdouble "dbMinusDirTorqueLimit"];
    Prototype (Tnamed "DWORD") Stdcall "AxmMotGetTorqueLimitEx" [Param Tlong "lAxisNo"; Param (Tptr Tdouble) "dbpPlusDirTorqueLimit"; Param (Tptr Tdouble) "dbpMinusDirTorqueLimit"];
    Prototype (Tnamed "DWORD") Stdcall "AxmMotSetTorqueLimitAtPos" [Param Tlong "lAxisNo"; Param Tdouble "dbPlusDirTorqueLimit"; Param Tdouble "dbMinusDirTorqueLimit"; Param Tdouble "dPosition"; Param Tlong "lTarget"];
    Prototype (Tnamed "DWORD") Stdcall "AxmMotGetTorqueLimitAtPos" [Param Tlong "lAxisNo"; Param (Tptr Tdouble) "dbpPlusDirTorqueLimit"; Param (Tptr Tdouble) "dbpMinusDirTorqueLimit"; Param (Tptr Tdouble) "dpPosition"; Param (Tptr Tlong) "lpTarget"];
    Prototype (Tnamed "DWORD") Stdcall "AxmMotSetTorqueLimitEnable" [Param Tlong "lAxisNo"; Param (Tnamed "DWORD") "uUse"];
    Prototype (Tnamed "DWORD") Stdcall "AxmMotGetTorqueLimitEnable" [Param Tlong "lAxisNo"; Param (Tptr (Tnamed "DWORD")) "upUse"];
    Prototype (Tnamed "DWORD") Stdcall "AxmOverridePosSetFunction" [Param Tlong "lAxisNo"; Param (Tnamed "DWORD") "dwUsage"; Param Tlong "lDecelPosRatio"; Param Tdouble "dReserved"];
    Prototype (Tnamed "DWORD") Stdcall "AxmOverridePosGetFunction" [Param Tlong "lAxisNo"; Param (Tptr (Tnamed "DWORD")) "dwpUsage"; Param (Tptr Tlong) "lpDecelPosRatio"; Param (Tptr Tdouble) "dpReserved"];
    Prototype (Tnamed "DWORD") Stdcall "AxmSignalSetWriteOutputBitAtPos" [Param Tlong "lAxisNo"; Param Tlong "lModuleNo"; Param Tlong "lOffset"; Param (Tnamed "DWORD") "uValue"; Param Tdouble "dPosition"; Param Tlong "lTarget"];
    Prototype (Tnamed "DWORD") Stdcall "AxmSignalGetWriteOutputBitAtPos" [Param Tlong "lAxisNo"; Param (Tptr Tlong) "lpModuleNo"; Param (Tptr Tlong) "lOffset"; Param (Tptr (Tnamed "DWORD")) "upValue"; Param (Tptr Tdouble) "dpPosition"; Param (Tptr Tlong) "lpTarget"];
    Prototype (Tnamed "DWORD") Stdcall "AxmAdvVSTSetParameter" [Param Tlong "lCoord"; Param (Tnamed "DWORD") "dwISTSize"; Param (Tptr Tdouble) "dbpFrequency"; Param (Tptr Tdouble) "dbpDampingRatio"; Param (Tptr (Tnamed "DWORD")) "dwpImpulseCount"];
    Prototype (Tnamed "DWORD") Stdcall "AxmAdvVSTGetParameter" [Param Tlong "lCoord"; Param (Tptr (Tnamed "DWORD")) "dwpISTSize"; Param (Tptr Tdouble) "dbpFrequency"; Param (Tptr Tdouble) "dbpDampingRatio"; Param (Tptr (Tnamed "DWORD")) "dwpImpulseCount"];
    Prototype (Tnamed "DWORD") Stdcall "AxmAdvVSTSetEnabele" [Param Tlong "lCoord"; Param (Tnamed "DWORD") "dwISTEnable"];
    Prototype (Tnamed "DWORD") Stdcall "AxmAdvVSTGetEnabele" [Param Tlong "lCoord"; Param (Tptr (Tnamed "DWORD")) "dwpISTEnable"];
    Prototype (Tnamed "DWORD") Stdcall "AxmAdvLineMove" [Param Tlong "lCoordinate"; Param (Tptr Tdouble) "dPosition"; Param Tdouble "dMaxVelocity"; Param Tdouble "dStartVel"; Param Tdouble "dStopVel"; Param Tdouble "dMaxAccel"; Param Tdouble "dMaxDecel"];
    Prototype (Tnamed "DWORD") Stdcall "AxmAdvOvrLineMove" [Param Tlong "lCoordinate"; Param (Tptr Tdouble) "dPosition"; Param Tdouble "dMaxVelocity"; Param Tdouble "dStartVel"; Param Tdouble "dStopVel"; Param Tdouble "dMaxAccel"; Param Tdouble "dMaxDecel"; Param Tlong "lOverrideMode"];
    Prototype (Tnamed "DWORD") Stdcall "AxmAdvCircleCenterMove" [Param Tlong "lCoord"; Param (Tptr Tlong) "lAxisNo"; Param (Tptr Tdouble) "dCenterPos"; Param (Tptr Tdouble) "dEndPos"; Param Tdouble "dVel"; Param Tdouble "dStartVel"; Param Tdouble "dStopVel"; Param Tdouble "dAccel"; Param Tdouble "dDecel"; Param (Tnamed "DWORD") "uCWDir"];
    Prototype (Tnamed "DWORD") Stdcall "AxmAdvCirclePointMove" [Param Tlong "lCoord"; Param (Tptr Tlong) "lAxisNo"; Param (Tptr Tdouble) "dMidPos"; Param (Tptr Tdouble) "dEndPos"; Param Tdouble "dVel"; Param Tdouble "dStartVel"; Param Tdouble "dStopVel"; Param Tdouble "dAccel"; Param Tdouble "dDecel"; Param Tlong "lArcCircle"];
    Prototype (Tnamed "DWORD") Stdcall "AxmAdvCircleAngleMove" [Param Tlong "lCoord"; Param (Tptr Tlong) "lAxisNo"; Param (Tptr Tdouble) "dCenterPos"; Param Tdouble "dAngle"; Param Tdouble "dVel"; Param Tdouble "dStartVel"; Param Tdouble "dStopVel"; Param Tdouble "dAccel"; Param Tdouble "dDecel"; Param (Tnamed "DWORD") "uCWDir"];
    Prototype (Tnamed "DWORD") Stdcall "AxmAdvCircleRadiusMove" [Param Tlong "lCoord"; Param (Tptr Tlong) "lAxisNo"; Param Tdouble "dRadius"; Param (Tptr Tdouble) "dEndPos"; Param Tdouble "dVel"; Param Tdouble "dStartVel"; Param Tdouble "dStopVel"; Param Tdouble "dAccel"; Param Tdouble "dDecel"; Param (Tnamed "DWORD") "uCWDir"; Param (Tnamed "DWORD") "uShortDistance"];
    Prototype (Tnamed "DWORD") Stdcall "AxmAdvOvrCircleRadiusMove" [Param Tlong "lCoord"; Param (Tptr Tlong) "lAxisNo"; Param Tdouble "dRadius"; Param (Tptr Tdouble) "dEndPos"; Param Tdouble "dVel"; Param Tdouble "dStartVel"; Param Tdouble "dStopVel"; Param Tdouble "dAccel"; Param Tdouble "dDecel"; Param (Tnamed "DWORD") "uCWDir"; Param (Tnamed "DWORD") "uShortDistance"; Param Tlong "lOverrideMode"];
    Prototype (Tnamed "DWORD") Stdcall "AxmAdvHelixCenterMove" [Param Tlong "lCoord"; Param Tdouble "dCenterXPos"; Param Tdouble "dCenterYPos"; Param Tdouble "dEndXPos"; Param Tdouble "dEndYPos"; Param Tdouble "dZPos"; Param Tdouble "dVel"; Param Tdouble "dStartVel"; Param Tdouble "dStopVel"; Param Tdouble "dAccel"; Param Tdouble "dDecel"; Param (Tnamed "DWORD") "uCWDir"];
    Prototype (Tnamed "DWORD") Stdcall "AxmAdvHelixPointMove" [Param Tlong "lCoord"; Param Tdouble "dMidXPos"; Param Tdouble "dMidYPos"; Param Tdouble "dEndXPos"; Param Tdouble "dEndYPos"; Param Tdouble "dZPos"; Param Tdouble "dVel"; Param Tdouble "dStartVel"; Param Tdouble "dStopVel"; Param Tdouble "dAccel"; Param Tdouble "dDecel"];
    Prototype (Tnamed "DWORD") Stdcall "AxmAdvHelixAngleMove" [Param Tlong "lCoord"; Param Tdouble "dCenterXPos"; Param Tdouble "dCenterYPos"; Param Tdouble "dAngle"; Param Tdouble "dZPos"; Param Tdouble "dVel"; Param Tdouble "dStartVel"; Param Tdouble "dStopVel"; Param Tdouble "dAccel"; Param Tdouble "dDecel"; Param (Tnamed "DWORD") "uCWDir"];
    Prototype (Tnamed "DWORD") Stdcall "AxmAdvHelixRadiusMove" [Param Tlong "lCoord"; Param Tdouble "dRadius"; Param Tdouble "dEndXPos"; Param Tdouble "dEndYPos"; Param Tdouble "dZPos"; Param Tdouble "dVel"; Param Tdouble "dStartVel"; Param Tdouble "dStopVel"; Param Tdouble "dAccel"; Param Tdouble "dDecel"; Param (Tnamed "DWORD") "uCWDir"; Param (Tnamed "DWORD") "uShortDistance"];
    Prototype (Tnamed "DWORD") Stdcall "AxmAdvOvrHelixRadiusMove" [Param Tlong "lCoord"; Param Tdouble "dRadius"; Param Tdouble "dEndXPos"; Param Tdouble "dEndYPos"; Param Tdouble "dZPos"; Param Tdouble "dVel"; Param Tdouble "dStartVel"; Param Tdouble "dStopVel"; Param Tdouble "dAccel"; Param Tdouble "dDecel"; Param (Tnamed "DWORD") "uCWDir"; Param (Tnamed "DWORD") "uShortDistance"; Param Tlong "lOverrideMode"];
    Prototype (Tnamed "DWORD") Stdcall "AxmAdvScriptLineMove" [Param Tlong "lCoordinate"; Param (Tptr Tdouble) "dPosition"; Param Tdouble "dMaxVelocity"; Param Tdouble "dStartVel"; Param Tdouble "dStopVel"; Param Tdouble "dMaxAccel"; Param Tdouble "dMaxDecel"; Param (Tnamed "DWORD") "dwScript"; Param Tlong "lScirptAxisNo"; Param Tdouble "dScriptPos"];
    Prototype (Tnamed "DWORD") Stdcall "AxmAdvScriptOvrLineMove" [Param Tlong "lCoordinate"; Param (Tptr Tdouble) "dPosition"; Param Tdouble "dMaxVelocity"; Param Tdouble "dStartVel"; Param Tdouble "dStopVel"; Param Tdouble "dMaxAccel"; Param Tdouble "dMaxDecel"; Param Tlong "lOverrideMode"; Param (Tnamed "DWORD") "dwScript"; Param Tlong "lScirptAxisNo"; Param Tdouble "dScriptPos"];
    Prototype (Tnamed "DWORD") Stdcall "AxmAdvScriptCircleCenterMove" [Param Tlong "lCoord"; Param (Tptr Tlong) "lAxisNo"; Param (Tptr Tdouble) "dCenterPos"; Param (Tptr Tdouble) "dEndPos"; Param Tdouble "dVel"; Param Tdouble "dStartVel"; Param Tdouble "dStopVel"; Param Tdouble "dAccel"; Param Tdouble "dDecel"; Param (Tnamed "DWORD") "uCWDir"; Param (Tnamed "DWORD") "dwScript"; Param Tlong "lScirptAxisNo"; Param Tdouble "dScriptPos"];
    Prototype (Tnamed "DWORD") Stdcall "AxmAdvScriptCirclePointMove" [Param Tlong "lCoord"; Param (Tptr Tlong) "lAxisNo"; Param (Tptr Tdouble) "dMidPos"; Param (Tptr Tdouble) "dEndPos"; Param Tdouble "dVel"; Param Tdouble "dStartVel"; Param Tdouble "dStopVel"; Param Tdouble "dAccel"; Param Tdouble "dDecel"; Param Tlong "lArcCircle"; Param (Tnamed "DWORD") "dwScript"; Param Tlong "lScirptAxisNo"; Param Tdouble "dScriptPos"];
    Prototype (Tnamed "DWORD") Stdcall "AxmAdvScriptCircleAngleMove" [Param Tlong "lCoord"; Param (Tptr Tlong) "lAxisNo"; Param (Tptr Tdouble) "dCenterPos"; Param Tdouble "dAngle"; Param Tdouble "dVel"; Param Tdouble "dStartVel"; Param Tdouble "dStopVel"; Param Tdouble "dAccel"; Param Tdouble "dDecel"; Param (Tnamed "DWORD") "uCWDir"; Param (Tnamed "DWORD") "dwScript"; Param Tlong "lScirptAxisNo"; Param Tdouble "dScriptPos"];
    Prototype (Tnamed "DWORD") Stdcall "AxmAdvScriptCircleRadiusMove" [Param Tlong "lCoord"; Param (Tptr Tlong) "lAxisNo"; Param Tdouble "dRadius"; Param (Tptr Tdouble) "dEndPos"; Param Tdouble "dVel"; Param Tdouble "dStartVel"; Param Tdouble "dStopVel"; Param Tdouble "dAccel"; Param Tdouble "dDecel"; Param (Tnamed "DWORD") "uCWDir"; Param (Tnamed "DWORD") "uShortDistance"; Param (Tnamed "DWORD") "dwScript"; Param Tlong "lScirptAxisNo"; Param Tdouble "dScriptPos"];
    Prototype (Tnamed "DWORD") Stdcall "AxmAdvScriptOvrCircleRadiusMove" [Param Tlong "lCoord"; Param (Tptr Tlong) "lAxisNo"; Param Tdouble "dRadius"; Param (Tptr Tdouble) "dEndPos"; Param Tdouble "dVel"; Param Tdouble "dStartVel"; Param Tdouble "dStopVel"; Param Tdouble "dAccel"; Param Tdouble "dDecel"; Param (Tnamed "DWORD") "uCWDir"; Param (Tnamed "DWORD") "uShortDistance"; Param Tlong "lOverrideMode"; Param (Tnamed "DWORD") "dwScript"; Param Tlong "lScirptAxisNo"; Param Tdouble "dScriptPos"];
    Prototype (Tnamed "DWORD") Stdcall "AxmAdvScriptHelixCenterMove" [Param Tlong "lCoord"; Param Tdouble "dCenterXPos"; Param Tdouble "dCenterYPos"; Param Tdouble "dEndXPos"; Param Tdouble "dEndYPos"; Param Tdouble "dZPos"; Param Tdouble "dVel"; Param Tdouble "dStartVel"; Param Tdouble "dStopVel"; Param Tdouble "dAccel"; Param Tdouble "dDecel"; Param (Tnamed "DWORD") "uCWDir"; Param (Tnamed "DWORD") "dwScript"; Param Tlong "lScirptAxisNo"; Param Tdouble "dScriptPos"];
    Prototype (Tnamed "DWORD") Stdcall "AxmAdvScriptHelixPointMove" [Param Tlong "lCoord"; Param Tdouble "dMidXPos"; Param Tdouble "dMidYPos"; Param Tdouble "dEndXPos"; Param Tdouble "dEndYPos"; Param Tdouble "dZPos"; Param Tdouble "dVel"; Param Tdouble "dStartVel"; Param Tdouble "dStopVel"; Param Tdouble "dAccel"; Param Tdouble "dDecel"; Param (Tnamed "DWORD") "dwScript"; Param Tlong "lScirptAxisNo"; Param Tdouble "dScriptPos"];
    Prototype (Tnamed "DWORD") Stdcall "AxmAdvScriptHelixAngleMove" [Param Tlong "lCoord"; Param Tdouble "dCenterXPos"; Param Tdouble "dCenterYPos"; Param Tdouble "dAngle"; Param Tdouble "dZPos"; Param Tdouble "dVel"; Param Tdouble "dStartVel"; Param Tdouble "dStopVel"; Param Tdouble "dAccel"; Param Tdouble "dDecel"; Param (Tnamed "DWORD") "uCWDir"; Param (Tnamed "DWORD") "dwScript"; Param Tlong "lScirptAxisNo"; Param Tdouble "dScriptPos"];
    Prototype (Tnamed "DWORD") Stdcall "AxmAdvScriptHelixRadiusMove" [Param Tlong "lCoord"; Param Tdouble "dRadius"; Param Tdouble "dEndXPos"; Param Tdouble "dEndYPos"; Param Tdouble "dZPos"; Param Tdouble "dVel"; Param Tdouble "dStartVel"; Param Tdouble "dStopVel"; Param Tdouble "dAccel"; Param Tdouble "dDecel"; Param (Tnamed "DWORD") "uCWDir"; Param (Tnamed "DWORD") "uShortDistance"; Param (Tnamed "DWORD") "dwScript"; Param Tlong "lScirptAxisNo"; Param Tdouble "dScriptPos"];
    Prototype (Tnamed "DWORD") Stdcall "AxmAdvScriptOvrHelixRadiusMove" [Param Tlong "lCoord"; Param Tdouble "dRadius"; Param Tdouble "dEndXPos"; Param Tdouble "dEndYPos"; Param Tdouble "dZPos"; Param Tdouble "dVel"; Param Tdouble "dStartVel"; Param Tdouble "dStopVel"; Param Tdouble "dAccel"; Param Tdouble "dDecel"; Param (Tnamed "DWORD") "uCWDir"; Param (Tnamed "DWORD") "uShortDistance"; Param Tlong "lOverrideMode"; Param (Tnamed "DWORD") "dwScript"; Param Tlong "lScirptAxisNo"; Param Tdouble "dScriptPos"];
    Prototype (Tnamed "DWORD") Stdcall "AxmAdvContiGetNodeNum" [Param Tlong "lCoordinate"; Param (Tptr Tlong) "lpNodeNum"];
    Prototype (Tnamed "DWORD") Stdcall "AxmAdvContiGetTotalNodeNum" [Param Tlong "lCoordinate"; Param (Tptr Tlong) "lpNodeNum"];
    Prototype (Tnamed "DWORD") Stdcall "AxmAdvContiReadIndex" [Param Tlong "lCoordinate"; Param (Tptr Tlong) "lpQueueIndex"];
    Prototype (Tnamed "DWORD") Stdcall "AxmAdvContiReadFree" [Param Tlong "lCoordinate"; Param (Tptr (Tnamed "DWORD")) "upQueueFree"];
    Prototype (Tnamed "DWORD") Stdcall "AxmAdvContiWriteClear" [Param Tlong "lCoordinate"];
    Prototype (Tnamed "DWORD") Stdcall "AxmAdvOvrContiWriteClear" [Param Tlong "lCoordinate"];
    Prototype (Tnamed "DWORD") Stdcall "AxmAdvContiStart" [Param Tlong "lCoord"; Param (Tnamed "DWORD") "dwProfileset"; Param Tlong "lAngle"];
    Prototype (Tnamed "DWORD") Stdcall "AxmAdvContiStop" [Param Tlong "lCoordinate"; Param Tdouble "dDecel"];
    Prototype (Tnamed "DWORD") Stdcall "AxmAdvContiSetAxisMap" [Param Tlong "lCoord"; Param Tlong "lSize"; Param (Tptr Tlong) "lpAxesNo"];
    Prototype (Tnamed "DWORD") Stdcall "AxmAdvContiGetAxisMap" [Param Tlong "lCoord"; Param (Tptr Tlong) "lpSize"; Param (Tptr Tlong) "lpAxesNo"];
    Prototype (Tnamed "DWORD") Stdcall "AxmAdvContiSetAbsRelMode" [Param Tlong "lCoord"; Param (Tnamed "DWORD") "uAbsRelMode"];
    Prototype (Tnamed "DWORD") Stdcall "AxmAdvContiGetAbsRelMode" [Param Tlong "lCoord"; Param (Tptr (Tnamed "DWORD")) "uAbsRelMode"];
    Prototype (Tnamed "DWORD") Stdcall "AxmAdvContiIsMotion" [Param Tlong "lCoordinate"; Param (Tptr (Tnamed "DWORD")) "upInMotion"];
    Prototype (Tnamed "DWORD") Stdcall "AxmAdvContiBeginNode" [Param Tlong "lCoord"];
    Prototype (Tnamed "DWORD") Stdcall "AxmAdvContiEndNode" [Param Tlong "lCoord"];
    Prototype (Tnamed "DWORD") Stdcall "AxmMoveMultiStop" [Param Tlong "lArraySize"; Param (Tptr Tlong) "lpAxesNo"; Param (Tptr Tdouble) "dMaxDecel"];
    Prototype (Tnamed "DWORD") Stdcall "AxmMoveMultiEStop" [Param Tlong "lArraySize"; Param (Tptr Tlong) "lpAxesNo"];
    Prototype (Tnamed "DWORD") Stdcall "AxmMoveMultiSStop" [Param Tlong "lArraySize"; Param (Tptr Tlong) "lpAxesNo"];
    Prototype (Tnamed "DWORD") Stdcall "AxmStatusReadActVel" [Param Tlong "lAxisNo"; Param (Tptr Tdouble) "dpVel"];
    Prototype (Tnamed "DWORD") Stdcall "AxmStatusReadServoCmdStat" [Param Tlong "lAxisNo"; Param (Tptr (Tnamed "DWORD")) "upStatus"];
    Prototype (Tnamed "DWORD") Stdcall "AxmStatusReadServoCmdCtrl" [Param Tlong "lAxisNo"; Param (Tptr (Tnamed "DWORD")) "upStatus"];
    Prototype (Tnamed "DWORD") Stdcall "AxmGantryGetMstToSlvOverDist" [Param Tlong "lAxisNo"; Param (Tptr Tdouble) "dpPosition"];
    Prototype (Tnamed "DWORD") Stdcall "AxmGantrySetMstToSlvOverDist" [Param Tlong "lAxisNo"; Param Tdouble "dPosition"];
    Prototype (Tnamed "DWORD") Stdcall "AxmSignalReadServoAlarmCode" [Param Tlong "lAxisNo"; Param (Tptr (Tnamed "WORD")) "upCodeStatus"];
    Prototype (Tnamed "DWORD") Stdcall "AxmM3ServoCoordinatesSet" [Param Tlong "lAxisNo"; Param (Tnamed "DWORD") "dwPosData"; Param (Tnamed "DWORD") "dwPos_sel"; Param (Tnamed "DWORD") "dwRefe"];
    Prototype (Tnamed "DWORD") Stdcall "AxmM3ServoBreakOn" [Param Tlong "lAxisNo"];
    Prototype (Tnamed "DWORD") Stdcall "AxmM3ServoBreakOff" [Param Tlong "lAxisNo"];
    Prototype (Tnamed "DWORD") Stdcall "AxmM3ServoConfig" [Param Tlong "lAxisNo"; Param (Tnamed "DWORD") "dwCfMode"];
    Prototype (Tnamed "DWORD") Stdcall "AxmM3ServoSensOn" [Param Tlong "lAxisNo"];
    Prototype (Tnamed "DWORD") Stdcall "AxmM3ServoSensOff" [Param Tlong "lAxisNo"];
    Prototype (Tnamed "DWORD") Stdcall "AxmM3ServoSmon" [Param Tlong "lAxisNo"];
    Prototype (Tnamed "DWORD") Stdcall "AxmM3ServoGetSmon" [Param Tlong "lAxisNo"; Param (Tptr (Tnamed "BYTE")) "pbParam"];
    Prototype (Tnamed "DWORD") Stdcall "AxmM3ServoSvOn" [Param Tlong "lAxisNo"];
    Prototype (Tnamed "DWORD") Stdcall "AxmM3ServoSvOff" [Param Tlong "lAxisNo"];
    Prototype (Tnamed "DWORD") Stdcall "AxmM3ServoInterpolate" [Param Tlong "lAxisNo"; Param (Tnamed "DWORD") "dwTPOS"; Param (Tnamed "DWORD") "dwVFF"; Param (Tnamed "DWORD") "dwTFF"; Param (Tnamed "DWORD") "dwTLIM"];
    Prototype (Tnamed "DWORD") Stdcall "AxmM3ServoPosing" [Param Tlong "lAxisNo"; Param (Tnamed "DWORD") "dwTPOS"; Param (Tnamed "DWORD") "dwSPD"; Param (Tnamed "DWORD") "dwACCR"; Param (Tnamed "DWORD") "dwDECR"; Param (Tnamed "DWORD") "dwTLIM"];
    Prototype (Tnamed "DWORD") Stdcall "AxmM3ServoFeed" [Param Tlong "lAxisNo"; Param Tlong "lSPD"; Param (Tnamed "DWORD") "dwACCR"; Param (Tnamed "DWORD") "dwDECR"; Param (Tnamed "DWORD") "dwTLIM"];
    Prototype (Tnamed "DWORD") Stdcall "AxmM3ServoExFeed" [Param Tlong "lAxisNo"; Param Tlong "lSPD"; Param (Tnamed "DWORD") "dwACCR"; Param (Tnamed "DWORD") "dwDECR"; Param (Tnamed "DWORD") "dwTLIM"; Param (Tnamed "DWORD") "dwExSig1"; Param (Tnamed "DWORD") "dwExSig2"];
    Prototype (Tnamed "DWORD") Stdcall "AxmM3ServoExPosing" [Param Tlong "lAxisNo"; Param (Tnamed "DWORD") "dwTPOS"; Param (Tnamed "DWORD") "dwSPD"; Param (Tnamed "DWORD") "dwACCR"; Param (Tnamed "DWORD") "dwDECR"; Param (Tnamed "DWORD") "dwTLIM"; Param (Tnamed "DWORD") "dwExSig1"; Param (Tnamed "DWORD") "dwExSig2"];
    Prototype (Tnamed "DWORD") Stdcall "AxmM3ServoZret" [Param Tlong "lAxisNo"; Param (Tnamed "DWORD") "dwSPD"; Param (Tnamed "DWORD") "dwACCR"; Param (Tnamed "DWORD") "dwDECR"; Param (Tnamed "DWORD") "dwTLIM"; Param (Tnamed "DWORD") "dwExSig1"; Param (Tnamed "DWORD") "dwExSig2"; Param (Tnamed "BYTE") "bHomeDir"; Param (Tnamed "BYTE") "bHomeType"];
    Prototype (Tnamed "DWORD") Stdcall "AxmM3ServoVelctrl" [Param Tlong "lAxisNo"; Param (Tnamed "DWORD") "dwTFF"; Param (Tnamed "DWORD") "dwVREF"; Param (Tnamed "DWORD") "dwACCR"; Param (Tnamed "DWORD") "dwDECR"; Param (Tnamed "DWORD") "dwTLIM"];
    Prototype (Tnamed "DWORD") Stdcall "AxmM3ServoTrqctrl" [Param Tlong "lAxisNo"; Param (Tnamed "DWORD") "dwVLIM"; Param Tlong "lTQREF"];
    Prototype (Tnamed "DWORD") Stdcall "AxmM3ServoGetParameter" [Param Tlong "lAxisNo"; Param (Tnamed "WORD") "wNo"; Param (Tnamed "BYTE") "bSize"; Param (Tnamed "BYTE") "bMode"; Param (Tptr (Tnamed "BYTE")) "pbParam"];
    Prototype (Tnamed "DWORD") Stdcall "AxmM3ServoSetParameter" [Param Tlong "lAxisNo"; Param (Tnamed "WORD") "wNo"; Param (Tnamed "BYTE") "bSize"; Param (Tnamed "BYTE") "bMode"; Param (Tptr (Tnamed "BYTE")) "pbParam"];
    Prototype (Tnamed "DWORD") Stdcall "AxmServoCmdExecution" [Param Tlong "lAxisNo"; Param (Tnamed "DWORD") "dwCommand"; Param (Tnamed "DWORD") "dwSize"; Param (Tptr (Tnamed "DWORD")) "pdwExcData"];
    Prototype (Tnamed "DWORD") Stdcall "AxmM3ServoGetTorqLimit" [Param Tlong "lAxisNo"; Param (Tptr (Tnamed "DWORD")) "dwpTorqLimit"];
    Prototype (Tnamed "DWORD") Stdcall "AxmM3ServoSetTorqLimit" [Param Tlong "lAxisNo"; Param (Tnamed "DWORD") "dwTorqLimit"];
    Prototype (Tnamed "DWORD") Stdcall "AxmM3ServoGetSendSvCmdIOOutput" [Param Tlong "lAxisNo"; Param (Tptr (Tnamed "DWORD")) "dwData"];
    Prototype (Tnamed "DWORD") Stdcall "AxmM3ServoSetSendSvCmdIOOutput" [Param Tlong "lAxisNo"; Param (Tnamed "DWORD") "dwData"];
    Prototype (Tnamed "DWORD") Stdcall "AxmM3ServoGetSvCmdCtrl" [Param Tlong "lAxisNo"; Param (Tptr (Tnamed "DWORD")) "dwData"];
    Prototype (Tnamed "DWORD") Stdcall "AxmM3ServoSetSvCmdCtrl" [Param Tlong "lAxisNo"; Param (Tnamed "DWORD") "dwData"];
    Prototype (Tnamed "DWORD") Stdcall "AxmM3AdjustmentOperation" [Param Tlong "lAxisNo"; Param (Tnamed "DWORD") "dwReqCode"];
    Prototype (Tnamed "DWORD") Stdcall "AxmM3ServoSetMonSel" [Param Tlong "lAxisNo"; Param (Tnamed "DWORD") "dwMon0"; Param (Tnamed "DWORD") "dwMon1"; Param (Tnamed "DWORD") "dwMon2"];
    Prototype (Tnamed "DWORD") Stdcall "AxmM3ServoGetMonSel" [Param Tlong "lAxisNo"; Param (Tptr (Tnamed "DWORD")) "upMon0"; Param (Tptr (Tnamed "DWORD")) "upMon1"; Param (Tptr (Tnamed "DWORD")) "upMon2"];
    Prototype (Tnamed "DWORD") Stdcall "AxmM3ServoReadMonData" [Param Tlong "lAxisNo"; Param (Tnamed "DWORD") "dwMonSel"; Param (Tptr (Tnamed "DWORD")) "dwpMonData"];
    Prototype (Tnamed "DWORD") Stdcall "AxmAdvTorqueContiSetAxisMap" [Param Tlong "lCoord"; Param Tlong "lSize"; Param (Tptr Tlong) "lpAxesNo"; Param (Tnamed "DWORD") "dwTLIM"; Param (Tnamed "DWORD") "dwConMode"];
    Prototype (Tnamed "DWORD") Stdcall "AxmM3ServoSetTorqProfile" [Param Tlong "lCoord"; Param Tlong "lAxisNo"; Param Tlong "TorqueSign"; Param (Tnamed "DWORD") "dwVLIM"; Param (Tnamed "DWORD") "dwProfileMode"; Param (Tnamed "DWORD") "dwStdTorq"; Param (Tnamed "DWORD") "dwStopTorq"];
    Prototype (Tnamed "DWORD") Stdcall "AxmM3ServoGetTorqProfile" [Param Tlong "lCoord"; Param Tlong "lAxisNo"; Param (Tptr Tlong) "lpTorqueSign"; Param (Tptr (Tnamed "DWORD")) "updwVLIM"; Param (Tptr (Tnamed "DWORD")) "upProfileMode"; Param (Tptr (Tnamed "DWORD")) "upStdTorq"; Param (Tptr (Tnamed "DWORD")) "upStopTorq"];
    Prototype (Tnamed "DWORD") Stdcall "AxmSignalSetInposRange" [Param Tlong "lAxisNo"; Param Tdouble "dInposRange"];
    Prototype (Tnamed "DWORD") Stdcall "AxmSignalGetInposRange" [Param Tlong "lAxisNo"; Param (Tptr Tdouble) "dpInposRange"];
    Prototype (Tnamed "DWORD") Stdcall "AxmMotSetOverridePosMode" [Param Tlong "lAxisNo"; Param (Tnamed "DWORD") "dwAbsRelMode"];
    Prototype (Tnamed "DWORD") Stdcall "AxmMotGetOverridePosMode" [Param Tlong "lAxisNo"; Param (Tptr (Tnamed "DWORD")) "dwpAbsRelMode"];
    Prototype (Tnamed "DWORD") Stdcall "AxmMotSetOverrideLinePosMode" [Param Tlong "lCoordNo"; Param (Tnamed "DWORD") "dwAbsRelMode"];
    Prototype (Tnamed "DWORD") Stdcall "AxmMotGetOverrideLinePosMode" [Param Tlong "lCoordNo"; Param (Tptr (Tnamed "DWORD")) "dwpAbsRelMode"];
    Prototype (Tnamed "DWORD") Stdcall "AxmMoveStartPosEx" [Param Tlong "lAxisNo"; Param Tdouble "dPos"; Param Tdouble "dVel"; Param Tdouble "dAccel"; Param Tdouble "dDecel"; Param Tdouble "dEndVel"];
    Prototype (Tnamed "DWORD") Stdcall "AxmMovePosEx" [Param Tlong "lAxisNo"; Param Tdouble "dPos"; Param Tdouble "dVel"; Param Tdouble "dAccel"; Param Tdouble "dDecel"; Param Tdouble "dEndVel"];
    Prototype (Tnamed "DWORD") Stdcall "AxmMoveCoordStop" [Param Tlong "lCoordNo"; Param Tdouble "dDecel"];
    Prototype (Tnamed "DWORD") Stdcall "AxmMoveCoordEStop" [Param Tlong "lCoordNo"];
    Prototype (Tnamed "DWORD") Stdcall "AxmMoveCoordSStop" [Param Tlong "lCoordNo"];
    Prototype (Tnamed "DWORD") Stdcall "AxmOverrideLinePos" [Param Tlong "lCoordNo"; Param (Tptr Tdouble) "dpOverridePos"];
    Prototype (Tnamed "DWORD") Stdcall "AxmOverrideLineVel" [Param Tlong "lCoordNo"; Param Tdouble "dOverrideVel"; Param (Tptr Tdouble) "dpDistance"];
    Prototype (Tnamed "DWORD") Stdcall "AxmOverrideLineAccelVelDecel" [Param Tlong "lCoordNo"; Param Tdouble "dOverrideVelocity"; Param Tdouble "dMaxAccel"; Param Tdouble "dMaxDecel"; Param (Tptr Tdouble) "dpDistance"];
    Prototype (Tnamed "DWORD") Stdcall "AxmOverrideAccelVelDecelAtPos" [Param Tlong "lAxisNo"; Param Tdouble "dPos"; Param Tdouble "dVel"; Param Tdouble "dAccel"; Param Tdouble "dDecel"; Param Tdouble "dOverridePos"; Param Tdouble "dOverrideVel"; Param Tdouble "dOverrideAccel"; Param Tdouble "dOverrideDecel"; Param Tlong "lTarget"];
    Prototype (Tnamed "DWORD") Stdcall "AxmEGearSet" [Param Tlong "lMasterAxisNo"; Param Tlong "lSize"; Param (Tptr Tlong) "lpSlaveAxisNo"; Param (Tptr Tdouble) "dpGearRatio"];
    Prototype (Tnamed "DWORD") Stdcall "AxmEGearGet" [Param Tlong "lMasterAxisNo"; Param (Tptr Tlong) "lpSize"; Param (Tptr Tlong) "lpSlaveAxisNo"; Param (Tptr Tdouble) "dpGearRatio"];
    Prototype (Tnamed "DWORD") Stdcall "AxmEGearReset" [Param Tlong "lMasterAxisNo"];
    Prototype (Tnamed "DWORD") Stdcall "AxmEGearEnable" [Param Tlong "lMasterAxisNo"; Param (Tnamed "DWORD") "dwEnable"];
    Prototype (Tnamed "DWORD") Stdcall "AxmEGearIsEnable" [Param Tlong "lMasterAxisNo"; Param (Tptr (Tnamed "DWORD")) "dwpEnable"];
    Prototype (Tnamed "DWORD") Stdcall "AxmMotSetEndVel" [Param Tlong "lAxisNo"; Param Tdouble "dEndVelocity"];
    Prototype (Tnamed "DWORD") Stdcall "AxmMotGetEndVel" [Param Tlong "lAxisNo"; Param (Tptr Tdouble) "dpEndVelocity"];
    Prototype (Tnamed "DWORD") Stdcall "AxmLineMoveWithAxes" [Param Tlong "lCoord"; Param Tlong "lArraySize"; Param (Tptr Tlong) "lpAxisNo"; Param (Tptr Tdouble) "dpEndPos"; Param Tdouble "dVel"; Param Tdouble "dAccel"; Param Tdouble "dDecel"];
    Prototype (Tnamed "DWORD") Stdcall "AxmCircleCenterMoveWithAxes" [Param Tlong "lCoord"; Param Tlong "lArraySize"; Param (Tptr Tlong) "lpAxisNo"; Param (Tptr Tdouble) "dCenterPosition"; Param (Tptr Tdouble) "dEndPosition"; Param Tdouble "dMaxVelocity"; Param Tdouble "dMaxAccel"; Param Tdouble "dMaxDecel"; Param (Tnamed "DWORD") "uCWDir"; Param (Tnamed "DWORD") "dw3DCircle"];
    Prototype (Tnamed "DWORD") Stdcall "AxmCircleRadiusMoveWithAxes" [Param Tlong "lCoord"; Param Tlong "lArraySize"; Param (Tptr Tlong) "lpAxisNo"; Param Tdouble "dRadius"; Param (Tptr Tdouble) "dEndPos"; Param Tdouble "dVel"; Param Tdouble "dAccel"; Param Tdouble "dDecel"; Param (Tnamed "DWORD") "uCWDir"; Param (Tnamed "DWORD") "uShortDistance"];
    Prototype (Tnamed "DWORD") Stdcall "AxmCircleAngleMoveWithAxes" [Param Tlong "lCoord"; Param Tlong "lArraySize"; Param (Tptr Tlong) "lpAxisNo"; Param (Tptr Tdouble) "dCenterPos"; Param Tdouble "dAngle"; Param Tdouble "dVel"; Param Tdouble "dAccel"; Param Tdouble "dDecel"; Param (Tnamed "DWORD") "uCWDir"];
    Prototype (Tnamed "DWORD") Stdcall "AxmCirclePointMoveWithAxes" [Param Tlong "lCoordNo"; Param Tlong "lArraySize"; Param (Tptr Tlong) "lpAxisNo"; Param (Tptr Tdouble) "dpMidPos"; Param (Tptr Tdouble) "dpEndPos"; Param Tdouble "dVel"; Param Tdouble "dAccel"; Param Tdouble "dDecel"; Param Tlong "lArcCircle"];
    Prototype (Tnamed "DWORD") Stdcall "AxmLineMoveWithAxesWithEvent" [Param Tlong "lCoord"; Param Tlong "lArraySize"; Param (Tptr Tlong) "lpAxisNo"; Param (Tptr Tdouble) "dpEndPos"; Param Tdouble "dVel"; Param Tdouble "dAccel"; Param Tdouble "dDecel"; Param (Tnamed "DWORD") "dwEventFlag"];
    Prototype (Tnamed "DWORD") Stdcall "AxmCircleCenterMoveWithAxesWithEvent" [Param Tlong "lCoord"; Param Tlong "lArraySize"; Param (Tptr Tlong) "lpAxisNo"; Param (Tptr Tdouble) "dCenterPosition"; Param (Tptr Tdouble) "dEndPosition"; Param Tdouble "dMaxVelocity"; Param Tdouble "dMaxAccel"; Param Tdouble "dMaxDecel"; Param (Tnamed "DWORD") "uCWDir"; Param (Tnamed "DWORD") "dw3DCircle"; Param (Tnamed "DWORD") "dwEventFlag"];
    Prototype (Tnamed "DWORD") Stdcall "AxmFilletMove" [Param Tlong "lCoordinate"; Param (Tptr Tdouble) "dPosition"; Param (Tptr Tdouble) "dFirstVector"; Param (Tptr Tdouble) "dSecondVector"; Param Tdouble "dMaxVelocity"; Param Tdouble "dMaxAccel"; Param Tdouble "dMaxDecel"; Param Tdouble "dRadius"];
    Prototype (Tnamed "DWORD") Stdcall "AxmMovePVT" [Param Tlong "lAxisNo"; Param (Tnamed "DWORD") "dwArraySize"; Param (Tptr Tdouble) "pdPos"; Param (Tptr Tdouble) "pdVel"; Param (Tptr (Tnamed "DWORD")) "pdwUsec"];
    Prototype (Tnamed "DWORD") Stdcall "AxmSyncSetAxisMap" [Param Tlong "lSyncNo"; Param Tlong "lSize"; Param (Tptr Tlong) "lpAxesNo"];
    Prototype (Tnamed "DWORD") Stdcall "AxmSyncClear" [Param Tlong "lSyncNo"];
    Prototype (Tnamed "DWORD") Stdcall "AxmSyncBegin" [Param Tlong "lSyncNo"];
    Prototype (Tnamed "DWORD") Stdcall "AxmSyncEnd" [Param Tlong "lSyncNo"];
    Prototype (Tnamed "DWORD") Stdcall "AxmSyncStart" [Param Tlong "lSyncNo"];
    Prototype (Tnamed "DWORD") Stdcall "AxmStatusReadRemainQueueCount" [Param Tlong "lAxisNo"; Param (Tptr (Tnamed "DWORD")) "pdwRemainQueueCount"];
    Prototype (Tnamed "DWORD") Stdcall "AxmMoveGetStartPosParam" [Param (Tptr Tlong) "lpAxisNo"; Param (Tptr Tdouble) "dpPos"; Param (Tptr Tdouble) "dpVel"; Param (Tptr Tdouble) "dpAccel"; Param (Tptr Tdouble) "dpDecel"];
    Prototype (Tnamed "DWORD") Stdcall "AxmMoveGetPosParam" [Param (Tptr Tlong) "lpAxisNo"; Param (Tptr Tdouble) "dpPos"; Param (Tptr Tdouble) "dpVel"; Param (Tptr Tdouble) "dpAccel"; Param (Tptr Tdouble) "dpDecel"];
    Prototype (Tnamed "DWORD") Stdcall "AxmMoveGetVelParam" [Param (Tptr Tlong) "lpAxisNo"; Param (Tptr Tdouble) "dpVel"; Param (Tptr Tdouble) "dpAccel"; Param (Tptr Tdouble) "dpDecel"];
    Prototype (Tnamed "DWORD") Stdcall "AxmMoveGetStartMultiPosParam" [Param (Tptr Tlong) "lpArraySize"; Param (Tptr Tlong) "lpAxesNoArrGet"; Param (Tptr Tdouble) "dpPosArrGet"; Param (Tptr Tdouble) "dpVelArrGet"; Param (Tptr Tdouble) "dpAccelArrGet"; Param (Tptr Tdouble) "dpDecelArrGet"];
    Prototype (Tnamed "DWORD") Stdcall "AxmMoveGetToAbsPosParam" [Param (Tptr Tlong) "lpAxisNo"; Param (Tptr Tdouble) "dpPos"; Param (Tptr Tdouble) "dpVel"; Param (Tptr Tdouble) "dpAccel"; Param (Tptr Tdouble) "dpDecel"];
    Prototype (Tnamed "DWORD") Stdcall "AxmMoveGetLastParam" [Param Tlong "lAxisNo"; Param (Tptr Tdouble) "dpPos"; Param (Tptr Tdouble) "dpVel"; Param (Tptr Tdouble) "dpAccel"; Param (Tptr Tdouble) "dpDecel"] ].

(** The header: after [#include "AXHS.h"] its only item is the
    [extern "C"] block, which a C++ translation unit opens and closes under
    [#ifdef __cplusplus]. *)
Definition header : list item := [ ExternC AXM_prototypes ].

(** The return values that the [{ RETURN VALUE }] comment blocks of the
    header list (lines 1241-1242, 1250-1252 and 1260-1262), each with the
    prototype the block stands above. *)
Definition documented_return_values : list (string * list Z) :=
  [ ("AxmCompensationSetBacklash", [0]);
    ("AxmCompensationEnableBacklash", [0; 4303]);
    ("AxmCompensationSetLocating", [0; 4303]) ].

End AXM.

(** ** Result codes *)

Module ResultCode.

Definition is_success (e : string * Z) : bool := String.eqb (fst e) "AXT_RT_SUCCESS".

Definition failure_codes : list (string * Z) :=
  filter (fun e => negb (is_success e)) AXHS.AXT_FUNC_RESULT.

Definition values : list Z := map snd AXHS.AXT_FUNC_RESULT.

(** The codes whose enumerator name starts with a given subsystem prefix,
    and the numeric band (least and greatest value) they span. *)
Definition codes_with_prefix (p : string) : list Z :=
  map snd (filter (fun e => starts_with p (fst e)) AXHS.AXT_FUNC_RESULT).

Definition band (p : string) : option (Z * Z) :=
  match codes_with_prefix p with
  | [] => None
  | c :: cs => Some (fold_right Z.min c cs, fold_right Z.max c cs)
  end.

Definition bands_disjoint (a b : option (Z * Z)) : bool :=
  match a, b with
  | Some (lo1, hi1), Some (lo2, hi2) => (hi1 <? lo2) || (hi2 <? lo1)
  | _, _ => true
  end.

Definition band_inside (a b : option (Z * Z)) : bool :=
  match a, b with
  | Some (lo1, hi1), Some (lo2, hi2) => (lo2 <=? lo1) && (hi1 <=? hi2)
  | _, _ => false
  end.

Fixpoint pairwise {A : Type} (r : A -> A -> bool) (l : list A) : bool :=
  match l with
  | [] => true
  | x :: t => forallb (r x) t && pairwise r t
  end.

(** The subsystem prefixes that occur in the enumeration. *)
Definition AIO := "AXT_RT_AIO_".
Definition DIO := "AXT_RT_DIO_".
Definition CNT := "AXT_RT_CNT_".
Definition COM := "AXT_RT_COM_".
Definition MOTION := "AXT_RT_MOTION_".
Definition MACRO := "AXT_RT_MACRO_".
Definition QUEUE := "AXT_RT_QUEUE_".
Definition M3 := "AXT_RT_M3_".

Definition subsystem_prefixes : list string :=
  [ AIO; DIO; CNT; COM; MOTION; MACRO; QUEUE; M3 ].

(** Every two distinct prefixes of a list span disjoint bands. *)
Definition bands_pairwise_disjoint (ps : list string) : Prop :=
  forall p q, In p ps -> In q ps -> p <> q ->
    bands_disjoint (band p) (band q) = true.

(** The ordinal that names the k-th argument in the range codes. *)
Definition ordinal (k : nat) : string :=
  match k with
  | 1%nat => "1ST" | 2%nat => "2ND" | 3%nat => "3RD" | 4%nat => "4TH"
  | 5%nat => "5TH" | 6%nat => "6TH" | 7%nat => "7TH" | 8%nat => "8TH"
  | 9%nat => "9TH" | 10%nat => "10TH" | 11%nat => "11TH"
  | _ => ""
  end.

Definition arg_below_min (k : nat) : option Z :=
  lookup ("AXT_RT_" ++ ordinal k ++ "_BELOW_MIN_VALUE") AXHS.AXT_FUNC_RESULT.

Definition arg_above_max (k : nat) : option Z :=
  lookup ("AXT_RT_" ++ ordinal k ++ "_ABOVE_MAX_VALUE") AXHS.AXT_FUNC_RESULT.

Definition arg_range_codes : list (option Z) :=
  flat_map (fun k => [arg_below_min k; arg_above_max k]) (seq 1 11).

(** The enumerator that a numeric code stands for. *)
Definition name_of (code : Z) : option string :=
  option_map fst (find (fun e => snd e =? code) AXHS.AXT_FUNC_RESULT).

End ResultCode.

(** ** Shapes of prototypes *)

Module Shape.

(** The query families: [AxmInfo*], [Axm*Get*] and [AxmStatusRead*]. *)
Definition is_query (name : string) : bool :=
  starts_with "AxmInfo" name || contains "Get" name || starts_with "AxmStatusRead" name.

(** A C function can hand a result back beside its return value only
    through a parameter of pointer type. *)
Definition has_output_pointer (f : prototype) : bool :=
  existsb (fun p => is_pointer AXHS.typedefs (p_type p)) (f_params f).

Definition is_move (f : prototype) : bool := starts_with "AxmMove" (f_name f).

(** A return-mode parameter: typed by the return-mode enumeration, or named
    as one. *)
Definition is_return_mode_param (p : param) : bool :=
  contains "ReturnMode" (p_name p) ||
  match p_type p with
  | Tnamed n => String.eqb n "AXT_MOTION_FUNC_RETURN_MODE"
  | _ => false
  end.

Definition takes_return_mode (f : prototype) : bool :=
  existsb is_return_mode_param (f_params f).

Definition is_stdcall (f : prototype) : bool :=
  match f_cc f with
  | Stdcall => true
  | Cdefault => false
  end.

Definition returns_DWORD (f : prototype) : bool :=
  match f_ret f with
  | Tnamed n => String.eqb n "DWORD"
  | _ => false
  end.

Definition has_param_named (n : string) (f : prototype) : bool :=
  existsb (fun p => String.eqb n (p_name p)) (f_params f).

(** Names: [AXT_MOVE_START_POS_PARAM] belongs to [AxmMoveStartPos] and is
    read back by [AxmMoveGetStartPosParam]. *)
Definition lower (c : ascii) : ascii :=
  let n := nat_of_ascii c in
  if (65 <=? n)%nat && (n <=? 90)%nat then ascii_of_nat (n + 32) else c.

Fixpoint camel (up : bool) (s : string) : string :=
  match s with
  | EmptyString => EmptyString
  | String c r =>
      if Ascii.eqb c "_" then camel true r
      else String (if up then c else lower c) (camel false r)
  end.

Definition stem (s : struct_decl) : string :=
  let n := s_typedef s in
  camel true (substring 9 (String.length n - 15) n).

Definition move_function_name (s : struct_decl) : string := "AxmMove" ++ stem s.
Definition accessor_name (s : struct_decl) : string := "AxmMoveGet" ++ stem s ++ "Param".

(** The type through which an accessor hands back a field: a pointer to a
    scalar field, the field's own type when it is already a pointer. *)
Definition out_type (t : ctype) : ctype :=
  match t with
  | Tptr _ => t
  | _ => Tptr t
  end.

(** Number of scalar members held by a value of a type, arrays and nested
    structs expanded. *)
Fixpoint scalar_count (structs : list struct_decl) (fuel : nat) (t : ctype) : option Z :=
  match fuel with
  | O => None
  | S k =>
      match t with
      | Tnamed n =>
          match find_struct n structs with
          | Some s =>
              fold_right
                (fun fd acc =>
                   match scalar_count structs k (fd_type fd), acc with
                   | Some a, Some b => Some (a + b)
                   | _, _ => None
                   end)
                (Some 0) (s_fields s)
          | None => Some 1
          end
      | Tarray u len =>
          match eval_cexpr AXHS.macros len, scalar_count structs k u with
          | Some n, Some a => Some (n * a)
          | _, _ => None
          end
      | _ => Some 1
      end
  end.

End Shape.

(** ** Reading a motion snapshot *)

Module MotionInfo.

Section Snapshot.

Variable double : Type.

Record MOTION_INFO : Type := {
  dCmdPos : double;
  dActPos : double;
  dwMechSig : Z;
  dwDrvStat : Z;
  dwInput : Z;
  dwOutput : Z;
  dwMask : Z
}.

(** A field is requested when its documented bit is set in the mask (the
    bit table above [AxmStatusReadMotionInfo] in AXM.h: bit 4 stands for
    both the universal input and the universal output read). *)
Definition selected (mask : Z) (fld : string) : bool :=
  match lookup fld AXHS.MOTION_INFO_mask_bits with
  | Some b => negb (Z.land mask b =? 0)
  | None => false
  end.

(** The driver-internal state the spec speaks of: for each valid axis number
    the current values of the six data fields (the [dwMask] of such a record
    plays no part). *)
Definition driver : Type := Z -> option MOTION_INFO.

(** [populated mask axis out]: every field requested by [mask] holds, in
    [out], the axis's current value. *)
Definition populated (mask : Z) (axis out : MOTION_INFO) : Prop :=
  (selected mask "dCmdPos" = true -> dCmdPos out = dCmdPos axis) /\
  (selected mask "dActPos" = true -> dActPos out = dActPos axis) /\
  (selected mask "dwMechSig" = true -> dwMechSig out = dwMechSig axis) /\
  (selected mask "dwDrvStat" = true -> dwDrvStat out = dwDrvStat axis) /\
  (selected mask "dwInput" = true -> dwInput out = dwInput axis) /\
  (selected mask "dwOutput" = true -> dwOutput out = dwOutput axis).

(** Modelled from the spec: the body of [AxmStatusReadMotionInfo] is in the
    vendor library; AXM.h has its prototype
    [DWORD AxmStatusReadMotionInfo(long lAxisNo, PMOTION_INFO pMI)] only.
    The spec words what it does as: it "returns a DWORD status code from the
    AXT_FUNC_RESULT enumeration (success = 0, or one of ... failure codes
    such as invalid axis ...)", and [MOTION_INFO] is "tagged with a
    read-mask (dwMask) indicating which fields the caller wants populated
    ... filled by the driver on request".  So a call relates the axis
    number and the caller's record to a status and the record handed back:
    on success the axis is a valid one and every requested field holds the
    axis's value; nothing is said of the fields that were not requested,
    nor of the record after a failure, and they are left unconstrained. *)
Definition AxmStatusReadMotionInfo (drv : driver) (lAxisNo : Z) (pMI : MOTION_INFO)
  (status : Z) (out : MOTION_INFO) : Prop :=
  (In ("AXT_RT_SUCCESS", status) AXHS.AXT_FUNC_RESULT /\
   exists axis, drv lAxisNo = Some axis /\ populated (dwMask pMI) axis out) \/
  (exists name, In (name, status) ResultCode.failure_codes).

(** One record that answers a request: the requested fields taken from the
    axis, every other field (and the mask) from an arbitrary record. *)
Definition fill (mask : Z) (axis other : MOTION_INFO) : MOTION_INFO :=
  {| dCmdPos := if selected mask "dCmdPos" then dCmdPos axis else dCmdPos other;
     dActPos := if selected mask "dActPos" then dActPos axis else dActPos other;
     dwMechSig := if selected mask "dwMechSig" then dwMechSig axis else dwMechSig other;
     dwDrvStat := if selected mask "dwDrvStat" then dwDrvStat axis else dwDrvStat other;
     dwInput := if selected mask "dwInput" then dwInput axis else dwInput other;
     dwOutput := if selected mask "dwOutput" then dwOutput axis else dwOutput other;
     dwMask := dwMask other |}.

End Snapshot.

Arguments dCmdPos {double} _.
Arguments dActPos {double} _.
Arguments dwMechSig {double} _.
Arguments dwDrvStat {double} _.
Arguments dwInput {double} _.
Arguments dwOutput {double} _.
Arguments dwMask {double} _.
Arguments populated {double} mask axis out.
Arguments AxmStatusReadMotionInfo {double} drv lAxisNo pMI status out.
Arguments fill {double} mask axis other.

(** The mask that requests every documented bit, and the distinct bits. *)
Definition full_mask : Z := fold_right Z.lor 0 (map snd AXHS.MOTION_INFO_mask_bits).
Definition mask_bit_set : list Z := nodup Z.eq_dec (map snd AXHS.MOTION_INFO_mask_bits).
Definition data_fields : list string := map fst AXHS.MOTION_INFO_mask_bits.

End MotionInfo.

(** ** The documented contract of a call *)

Module Contract.

(** What a caller observes of one call: the returned status and the names
    of the parameters through which something was written. *)
Record outcome : Type := Outcome { status : Z; written : list string }.

(** The query families: [AxmInfo*], [Axm*Get*], [Axm*Read*] and [Axm*Is*]
    (a name that also carries [Set] configures a reading and is a setter). *)
Definition is_query_function (name : string) : bool :=
  Shape.is_query name ||
  ((contains "Read" name || contains "Is" name) && negb (contains "Set" name)).

(** The parameters of pointer type: the only ways a C function has to hand
    something back beside its return value. *)
Definition pointer_params (f : prototype) : list string :=
  map p_name (filter (fun p => is_pointer AXHS.typedefs (p_type p)) (f_params f)).

Definition success_status (s : Z) : Prop := In ("AXT_RT_SUCCESS", s) AXHS.AXT_FUNC_RESULT.

(** Modelled from the spec: the bodies of the [Axm*] functions are in the
    vendor library; AXM.h has their prototypes only.  The spec words the
    contract of each function as: it "accepts axis/coordinate indices and
    physical parameters, returns a DWORD status code from the
    AXT_FUNC_RESULT enumeration (success = 0, or one of ... failure codes
    ...), and for query functions writes results through output pointers".
    So the status of every outcome is a value of the enumeration, whatever
    is written is written through pointer parameters, and a query function
    that succeeds writes through at least one of its pointer parameters
    (when it has none, as two query functions do, there is nothing to write
    through). *)
Definition returns (f : prototype) (o : outcome) : Prop :=
  (exists name, In (name, status o) AXHS.AXT_FUNC_RESULT) /\
  incl (written o) (pointer_params f) /\
  (is_query_function (f_name f) = true -> success_status (status o) ->
   pointer_params f <> [] -> written o <> []).

End Contract.

(** ** The remembered arguments of the move functions *)

Module MoveParam.

Section Memory.

(** The argument values of one call of a move function. *)
Variable args : Type.

(** One call of a move function: which function, with what arguments, and
    the status it returned. *)
Record call : Type := Call { c_function : string; c_args : args; c_status : Z }.

Definition succeeded (c : call) : bool :=
  match lookup "AXT_RT_SUCCESS" AXHS.AXT_FUNC_RESULT with
  | Some s => c_status c =? s
  | None => false
  end.

(** What the driver remembers: for each move function the arguments it
    last stored, if any. *)
Definition memory : Type := string -> option args.

Definition empty : memory := fun _ => None.

(** Modelled from the spec: the bodies of the move functions and of the
    [AxmMoveGet*Param] accessors are in the vendor library.  The spec says
    the parameter bundles "exist purely to let a caller retrieve the
    arguments most recently passed to a corresponding move-start function";
    the comment above the accessors (AXM.h, lines 1994-1996) narrows this:
    the values are stored, and returned, only when the move succeeded, and
    the parameters of a move that failed are not stored. *)
Definition record_call (m : memory) (c : call) : memory :=
  if succeeded c
  then fun f => if String.eqb f (c_function c) then Some (c_args c) else m f
  else m.

Definition after (history : list call) : memory := fold_left record_call history empty.

(** What the driver has stored for the move function of a parameter
    bundle. *)
Definition stored (m : memory) (s : struct_decl) : option args :=
  m (Shape.move_function_name s).

(** Modelled from the spec: an [AxmMoveGet*Param] accessor returns, like
    every function, "a DWORD status code from the AXT_FUNC_RESULT
    enumeration" and writes its results through its output pointers; what
    it writes on success are the stored arguments of its move function (the
    comment above the accessors: they return the parameter values entered
    into each move function).  Nothing is said for the case that nothing
    has been stored yet, nor about the values after a failure. *)
Definition AxmMoveGetParam (m : memory) (s : struct_decl) (status : Z) (values : args) : Prop :=
  (In ("AXT_RT_SUCCESS", status) AXHS.AXT_FUNC_RESULT /\
   forall v, stored m s = Some v -> values = v) \/
  (exists name, In (name, status) ResultCode.failure_codes).

(** The arguments of the latest call of [f] in a history, and those of the
    latest call of [f] that succeeded. *)
Definition most_recent (f : string) (history : list call) : option args :=
  option_map c_args (find (fun c => String.eqb f (c_function c)) (rev history)).

Definition most_recent_successful (f : string) (history : list call) : option args :=
  option_map c_args
    (find (fun c => String.eqb f (c_function c) && succeeded c) (rev history)).

End Memory.

Arguments Call {args} c_function c_args c_status.
Arguments c_function {args} _.
Arguments c_args {args} _.
Arguments c_status {args} _.
Arguments succeeded {args} c.
Arguments empty {args} _.
Arguments record_call {args} m c.
Arguments after {args} history.
Arguments stored {args} m s.
Arguments AxmMoveGetParam {args} m s status values.
Arguments most_recent {args} f history.
Arguments most_recent_successful {args} f history.

End MoveParam.

(** ** Enumerations with implicit values *)

Module CEnum.

(** An enumerator is written with or without an explicit value. *)
Record enum_decl : Type := Enum {
  e_tag : string;
  e_typedef : string;
  e_items : list (string * option Z)
}.

(** The C rule: an enumerator without a value is one more than its
    predecessor, and the first one is 0. *)
Fixpoint enum_values_from (next : Z) (items : list (string * option Z)) : list (string * Z) :=
  match items with
  | [] => []
  | (n, o) :: r =>
      let v := match o with Some x => x | None => next end in
      (n, v) :: enum_values_from (v + 1) r
  end.

Definition enum_values (e : enum_decl) : list (string * Z) :=
  enum_values_from 0 (e_items e).

Definition enum_names (e : enum_decl) : list string := map fst (e_items e).

Definition explicit (vals : list (string * Z)) : list (string * option Z) :=
  map (fun e => (fst e, Some (snd e))) vals.

Definition is_implicit (it : string * option Z) : bool :=
  match snd it with
  | None => true
  | Some _ => false
  end.

(** Duplicate-freeness, decided. *)
Fixpoint distinct_strings (l : list string) : bool :=
  match l with
  | [] => true
  | x :: r => negb (existsb (String.eqb x) r) && distinct_strings r
  end.

Fixpoint distinct_values (l : list Z) : bool :=
  match l with
  | [] => true
  | x :: r => negb (existsb (Z.eqb x) r) && distinct_values r
  end.

Fixpoint ends_with_from (n : nat) (p s : string) : bool :=
  match n with
  | O => String.eqb p s
  | S k =>
      match s with
      | EmptyString => String.eqb p s
      | String _ r => ends_with_from k p r
      end
  end.

(** [ends_with p s]: [p] is a suffix of [s]. *)
Definition ends_with (p s : string) : bool :=
  ends_with_from (String.length s - String.length p) p s.

(** [s] without its last [k] characters. *)
Definition drop_last (k : nat) (s : string) : string :=
  substring 0 (String.length s - k) s.

(** [s] without its first [k] characters. *)
Definition drop_first (k : nat) (s : string) : string :=
  substring k (String.length s - k) s.

End CEnum.

Import CEnum.

(** ** AXHS.h: the remaining enumerations *)

Module AXHSEnum.

(** AXHS.h, lines 55-117. *)
Definition AXT_BASE_BOARD : enum_decl :=
  Enum "_AXT_BASE_BOARD" "AXT_BASE_BOARD"
    [ ("AXT_UNKNOWN", Some 0x00);
      ("AXT_BIHR", Some 0x01);
      ("AXT_BIFR", Some 0x02);
      ("AXT_BPHR", Some 0x03);
      ("AXT_BPFR", Some 0x04);
      ("AXT_BV3R", Some 0x05);
      ("AXT_BV6R", Some 0x06);
      ("AXT_BC3R", Some 0x07);
      ("AXT_BC6R", Some 0x08);
      ("AXT_BEHR", Some 0x09);
      ("AXT_BEFR", Some 0x0A);
      ("AXT_BEHD", Some 0x0B);
      ("AXT_FMNSH4D", Some 0x52);
      ("AXT_PCI_DI64R", Some 0x43);
      ("AXT_PCIE_DI64R", Some 0x44);
      ("AXT_PCI_DO64R", Some 0x53);
      ("AXT_PCIE_DO64R", Some 0x54);
      ("AXT_PCI_DB64R", Some 0x63);
      ("AXT_PCIE_DB64R", Some 0x64);
      ("AXT_BPFR_COM", Some 0x70);
      ("AXT_PCIN204", Some 0x82);
      ("AXT_BPHD", Some 0x83);
      ("AXT_PCIN404", Some 0x84);
      ("AXT_PCIN804", Some 0x85);
      ("AXT_PCIEN804", Some 0x86);
      ("AXT_PCIEN404", Some 0x87);
      ("AXT_PCI_AIO1602HR", Some 0x93);
      ("AXT_PCI_Rxx04RTEX_B0", Some 0xC0);
      ("AXT_PCI_R1604", Some 0xC1);
      ("AXT_PCI_R3204", Some 0xC2);
      ("AXT_PCI_R32IO", Some 0xC3);
      ("AXT_PCI_REV2", Some 0xC4);
      ("AXT_PCI_R1604MLII", Some 0xC5);
      ("AXT_PCI_R0804MLII", Some 0xC6);
      ("AXT_PCI_Rxx00MLIII", Some 0xC7);
      ("AXT_PCIE_Rxx00MLIII", Some 0xC8);
      ("AXT_PCP2_Rxx00MLIII", Some 0xC9);
      ("AXT_PCI_R1604SIIIH", Some 0xCA);
      ("AXT_PCI_R32IOEV", Some 0xCB);
      ("AXT_PCIE_R0804RTEX", Some 0xCC);
      ("AXT_PCIE_R1604RTEX", Some 0xCD);
      ("AXT_PCIE_R2404RTEX", Some 0xCE);
      ("AXT_PCIE_R3204RTEX", Some 0xCF);
      ("AXT_PCIE_Rxx04SIIIH", Some 0xD0);
      ("AXT_PCIE_Rxx00SIIIH", Some 0xD1);
      ("AXT_ETHERCAT_RTOSV5", Some 0xD2);
      ("AXT_PCI_Nx04_A", Some 0xD3);
      ("AXT_PCI_R3200MLIII_IO", Some 0xD4);
      ("AXT_PCIE_Rxx05MLIII", Some 0xD5);
      ("AXT_PCIE_Rxx05SIIIH", Some 0xD6);
      ("AXT_PCIE_Rxx05RTEX", Some 0xD7);
      ("AXT_PCIE_Rxx05ECAT", Some 0xD8);
      ("AXT_PCI_Rxx05MLIII", Some 0xD9);
      ("AXT_PCI_Rxx05SIIIH", Some 0xDA);
      ("AXT_PCI_Rxx05RTEX", Some 0xDB);
      ("AXT_PCI_Rxx05ECAT", Some 0xDC);
      ("AXT_VIRTUAL_BOARD", Some 0xDD);
      ("AXT_PCIE_Rxx05ECAT_E", Some 0xDE);
      ("AXT_EXDEV_BOARD", Some 0xDF) ].

(** AXHS.h, lines 123-286. *)
Definition AXT_FUNC_MODULE : enum_decl :=
  Enum "_AXT_FUNC_MODULE" "AXT_FUNC_MODULE"
    [ ("AXT_SMC_2V01", Some 0x01);
      ("AXT_SMC_2V02", Some 0x02);
      ("AXT_SMC_1V01", Some 0x03);
      ("AXT_SMC_1V02", Some 0x04);
      ("AXT_SMC_2V03", Some 0x05);
      ("AXT_SMC_4V04", Some 0x06);
      ("AXT_SMC_R1V04A4", Some 0x07);
      ("AXT_SMC_1V03", Some 0x08);
      ("AXT_SMC_R1V04", Some 0x09);
      ("AXT_SMC_R1V04MLIISV", Some 0x0A);
      ("AXT_SMC_R1V04MLIIPM", Some 0x0B);
      ("AXT_SMC_2V04", Some 0x0C);
      ("AXT_SMC_R1V04A5", Some 0x0D);
      ("AXT_SMC_R1V04MLIICL", Some 0x0E);
      ("AXT_SMC_R1V04MLIICR", Some 0x0F);
      ("AXT_SMC_R1V04PM2Q", Some 0x10);
      ("AXT_SMC_R1V04PM2QE", Some 0x11);
      ("AXT_SMC_R1V04MLIIORI", Some 0x12);
      ("AXT_SMC_R1V04A6", Some 0x13);
      ("AXT_SMC_R1V04SIIIHMIV", Some 0x14);
      ("AXT_SMC_R1V04SIIIHMIV_R", Some 0x15);
      ("AXT_SMC_R1V04SIIIHME", Some 0x16);
      ("AXT_SMC_R1V04SIIIHME_R", Some 0x17);
      ("AXT_SMC_R1V04MLIIS7", Some 0x1D);
      ("AXT_SMC_R1V04MLIIISV", Some 0x20);
      ("AXT_SMC_R1V04MLIIIPM", Some 0x21);
      ("AXT_SMC_R1V04MLIIISV_MD", Some 0x22);
      ("AXT_SMC_R1V04MLIIIS7S", Some 0x23);
      ("AXT_SMC_R1V04MLIIIS7W", Some 0x24);
      ("AXT_SMC_R1V04MLIIIRS2", Some 0x25);
      ("AXT_SMC_R1V04MLIIIS7_MD", Some 0x26);
      ("AXT_SMC_R1V04MLIIIAZ", Some 0x27);
      ("AXT_SMC_R1V04MLIIIPCON", Some 0x28);
      ("AXT_SMC_R1V04MLIIIVPH_HE", Some 0x29);
      ("AXT_SMC_R1V04PM2QSIIIH", Some 0x60);
      ("AXT_SMC_R1V04PM4QSIIIH", Some 0x61);
      ("AXT_SIO_RCNT2SIIIH", Some 0x62);
      ("AXT_SIO_RDI32SIIIH", Some 0x63);
      ("AXT_SIO_RDO32SIIIH", Some 0x64);
      ("AXT_SIO_RDB32SIIIH", Some 0x65);
      ("AXT_SIO_RAI16SIIIH", Some 0x66);
      ("AXT_SIO_RAO08SIIIH", Some 0x67);
      ("AXT_SMC_R1V04PM2QSIIIH_R", Some 0x68);
      ("AXT_SMC_R1V04PM4QSIIIH_R", Some 0x69);
      ("AXT_SIO_RCNT2SIIIH_R", Some 0x6A);
      ("AXT_SIO_RDI32SIIIH_R", Some 0x6B);
      ("AXT_SIO_RDO32SIIIH_R", Some 0x6C);
      ("AXT_SIO_RDB32SIIIH_R", Some 0x6D);
      ("AXT_SIO_RAI16SIIIH_R", Some 0x6E);
      ("AXT_SIO_RAO08SIIIH_R", Some 0x6F);
      ("AXT_SIO_RDI32MLIII", Some 0x70);
      ("AXT_SIO_RDO32MLIII", Some 0x71);
      ("AXT_SIO_RDB32MLIII", Some 0x72);
      ("AXT_SIO_RDI32MSMLIII", Some 0x73);
      ("AXT_SIO_RDO32AMSMLIII", Some 0x74);
      ("AXT_SIO_RDI32PMLIII", Some 0x75);
      ("AXT_SIO_RDO32PMLIII", Some 0x76);
      ("AXT_SIO_RDB32PMLIII", Some 0x77);
      ("AXT_SIO_RDI16MLIII", Some 0x78);
      ("AXT_SIO_UNDEFINEMLIII", Some 0x79);
      ("AXT_SIO_RDI32MLIIISFA", Some 0x7A);
      ("AXT_SIO_RDO32MLIIISFA", Some 0x7B);
      ("AXT_SIO_RDB32MLIIISFA", Some 0x7C);
      ("AXT_SIO_RDB128MLIIIAI", Some 0x7D);
      ("AXT_SIO_RSIMPLEIOMLII", Some 0x7E);
      ("AXT_SIO_RDO16AMLIII", Some 0x7F);
      ("AXT_SIO_RDI16MLII", Some 0x80);
      ("AXT_SIO_RDO16AMLII", Some 0x81);
      ("AXT_SIO_RDO16BMLII", Some 0x82);
      ("AXT_SIO_RDB96MLII", Some 0x83);
      ("AXT_SIO_RDO32RTEX", Some 0x84);
      ("AXT_SIO_RDI32RTEX", Some 0x85);
      ("AXT_SIO_RDB32RTEX", Some 0x86);
      ("AXT_SIO_RDO32RTEXNT1_D1", Some 0x87);
      ("AXT_SIO_RDI32RTEXNT1_D1", Some 0x88);
      ("AXT_SIO_RDB32RTEXNT1_D1", Some 0x89);
      ("AXT_SIO_RDO16BMLIII", Some 0x8A);
      ("AXT_SIO_RDB32ML2NT1", Some 0x8B);
      ("AXT_SIO_RDB128YSMLIII", Some 0x8C);
      ("AXT_SIO_DI32_P", Some 0x92);
      ("AXT_SIO_DO32T_P", Some 0x93);
      ("AXT_SIO_RDB128MLII", Some 0x94);
      ("AXT_SIO_RDI32", Some 0x95);
      ("AXT_SIO_RDO32", Some 0x96);
      ("AXT_SIO_DI32", Some 0x97);
      ("AXT_SIO_DO32P", Some 0x98);
      ("AXT_SIO_DB32P", Some 0x99);
      ("AXT_SIO_RDB32T", Some 0x9A);
      ("AXT_SIO_DO32T", Some 0x9E);
      ("AXT_SIO_DB32T", Some 0x9F);
      ("AXT_SIO_RAI16RB", Some 0xA0);
      ("AXT_SIO_AI4RB", Some 0xA1);
      ("AXT_SIO_AO4RB", Some 0xA2);
      ("AXT_SIO_AI16H", Some 0xA3);
      ("AXT_SIO_AO8H", Some 0xA4);
      ("AXT_SIO_AI16HB", Some 0xA5);
      ("AXT_SIO_AO2HB", Some 0xA6);
      ("AXT_SIO_RAI8RB", Some 0xA7);
      ("AXT_SIO_RAO4RB", Some 0xA8);
      ("AXT_SIO_RAI4MLII", Some 0xA9);
      ("AXT_SIO_RAO2MLII", Some 0xAA);
      ("AXT_SIO_RAVCI4MLII", Some 0xAB);
      ("AXT_SIO_RAVO2MLII", Some 0xAC);
      ("AXT_SIO_RACO2MLII", Some 0xAD);
      ("AXT_SIO_RATI4MLII", Some 0xAE);
      ("AXT_SIO_RARTDI4MLII", Some 0xAF);
      ("AXT_SIO_RCNT2MLII", Some 0xB0);
      ("AXT_SIO_CN2CH", Some 0xB1);
      ("AXT_SIO_RCNT2RTEX", Some 0xB2);
      ("AXT_SIO_RCNT2MLIII", Some 0xB3);
      ("AXT_SIO_RHPC4MLIII", Some 0xB4);
      ("AXT_SIO_RDO32RTEX_N4", Some 0xB5);
      ("AXT_SIO_RDI32RTEX_N4", Some 0xB6);
      ("AXT_SIO_RDB32RTEX_N4", Some 0xB7);
      ("AXT_SIO_RDO16RTEX_N4", Some 0xB8);
      ("AXT_SIO_RDI16RTEX_N4", Some 0xB9);
      ("AXT_SIO_RDB16RTEX_N4", Some 0xBA);
      ("AXT_SIO_RAI08RTEX_N4", Some 0xBB);
      ("AXT_SIO_RAO04RTEX_N4", Some 0xBC);
      ("AXT_SIO_RAI16RTEX", Some 0xC0);
      ("AXT_SIO_RAO08RTEX", Some 0xC1);
      ("AXT_SIO_RAI8MLIII", Some 0xC2);
      ("AXT_SIO_RAI16MLIII", Some 0xC3);
      ("AXT_SIO_RAO4MLIII", Some 0xC4);
      ("AXT_SIO_RAO8MLIII", Some 0xC5);
      ("AXT_SIO_RAVO4MLII", Some 0xC6);
      ("AXT_SIO_RAV04MLIII", Some 0xC7);
      ("AXT_SIO_RAVI4MLIII", Some 0xC8);
      ("AXT_SIO_RAI16MLIIISFA", Some 0xC9);
      ("AXT_SIO_RDB32MSMLIII", Some 0xCA);
      ("AXT_SIO_RAVI4MLII", Some 0xCB);
      ("AXT_SIO_RMEMORY_MLIII", Some 0xCC);
      ("AXT_SIO_RAVCI8MLII", Some 0xCE);
      ("AXT_SIO_RDB64MSMLIII", Some 0xD0);
      ("AXT_SIO_RDI16MSMLIII", Some 0xD1);
      ("AXT_COM_234R", Some 0xD3);
      ("AXT_COM_484R", Some 0xD4);
      ("AXT_COM_234IDS", Some 0xD5);
      ("AXT_COM_484IDS", Some 0xD6);
      ("AXT_SIO_AO4F", Some 0xD7);
      ("AXT_SIO_AI8F", Some 0xD8);
      ("AXT_SIO_AI8AO4F", Some 0xD9);
      ("AXT_SIO_HPC4", Some 0xDA);
      ("AXT_SIO_LCM4", Some 0xDB);
      ("AXT_ECAT_MOTION", Some 0xE1);
      ("AXT_ECAT_DIO", Some 0xE2);
      ("AXT_ECAT_AIO", Some 0xE3);
      ("AXT_ECAT_SERIAL", Some 0xE4);
      ("AXT_ECAT_COUPLER", Some 0xE5);
      ("AXT_ECAT_CNT", Some 0xE6);
      ("AXT_ECAT_UNKNOWN", Some 0xE7);
      ("AXT_ECAT_ETC", Some 0xE8);
      ("AXT_SMC_4V04_A", Some 0xEA);
      ("AXT_VIRTUAL_MOTION", Some 0xEB);
      ("AXT_VIRTUAL_DIO", Some 0xEC);
      ("AXT_VIRTUAL_AIO", Some 0xED);
      ("AXT_EXDEV_DIO", Some 0xF5);
      ("AXT_EXDEV_AIO", Some 0xF6);
      ("AXT_SMC_UNI60B_RTEX", Some 0xF7) ].

(** AXHS.h, lines 823-829. *)
Definition AXT_LOG_LEVEL : enum_decl :=
  Enum "_AXT_LOG_LEVEL" "AXT_LOG_LEVEL"
    [ ("LEVEL_NONE", None);
      ("LEVEL_ERROR", None);
      ("LEVEL_RUNSTOP", None);
      ("LEVEL_FUNCTION", None) ].

(** AXHS.h, lines 834-838. *)
Definition AXT_EXISTENCE : enum_decl :=
  Enum "_AXT_EXISTENCE" "AXT_EXISTENCE"
    [ ("STATUS_NOTEXIST", None);
      ("STATUS_EXIST", None) ].

(** AXHS.h, lines 843-847. *)
Definition AXT_USE : enum_decl :=
  Enum "_AXT_USE" "AXT_USE"
    [ ("DISABLE", None);
      ("ENABLE", None) ].

(** AXHS.h, lines 853-859. *)
Definition AXT_AIO_TRIGGER_MODE : enum_decl :=
  Enum "_AXT_AIO_TRIGGER_MODE" "AXT_AIO_TRIGGER_MODE"
    [ ("DISABLE_MODE", Some 0);
      ("NORMAL_MODE", Some 1);
      ("TIMER_MODE", None);
      ("EXTERNAL_MODE", None) ].

(** AXHS.h, lines 864-868. *)
Definition AXT_AIO_FULL_MODE : enum_decl :=
  Enum "_AXT_AIO_FULL_MODE" "AXT_AIO_FULL_MODE"
    [ ("NEW_DATA_KEEP", None);
      ("CURR_DATA_KEEP", None) ].

(** AXHS.h, lines 873-879. *)
Definition AXT_AIO_EVENT_MASK : enum_decl :=
  Enum "_AXT_AIO_EVENT_MASK" "AXT_AIO_EVENT_MASK"
    [ ("DATA_EMPTY", Some 0x01);
      ("DATA_MANY", Some 0x02);
      ("DATA_SMALL", Some 0x04);
      ("DATA_FULL", Some 0x08) ].

(** AXHS.h, lines 884-890. *)
Definition AXT_AIO_INTERRUPT_MASK : enum_decl :=
  Enum "_AXT_AIO_INTERRUPT_MASK" "AXT_AIO_INTERRUPT_MASK"
    [ ("ADC_DONE", Some 0x00);
      ("SCAN_END", Some 0x01);
      ("FIFO_HALF_FULL", Some 0x02);
      ("NO_SIGNAL", Some 0x03) ].

(** AXHS.h, lines 894-901. *)
Definition AXT_AIO_EVENT_MODE : enum_decl :=
  Enum "_AXT_AIO_EVENT_MODE" "AXT_AIO_EVENT_MODE"
    [ ("AIO_EVENT_DATA_RESET", Some 0x00);
      ("AIO_EVENT_DATA_UPPER", None);
      ("AIO_EVENT_DATA_LOWER", None);
      ("AIO_EVENT_DATA_FULL", None);
      ("AIO_EVENT_DATA_EMPTY", None) ].

(** AXHS.h, lines 906-912. *)
Definition AXT_AIO_FIFO_STATUS : enum_decl :=
  Enum "_AXT_AIO_FIFO_STATUS" "AXT_AIO_FIFO_STATUS"
    [ ("FIFO_DATA_EXIST", Some 0);
      ("FIFO_DATA_EMPTY", Some 1);
      ("FIFO_DATA_HALF", Some 2);
      ("FIFO_DATA_FULL", Some 6) ].

(** AXHS.h, lines 917-924. *)
Definition AXT_AIO_EXTERNAL_STATUS : enum_decl :=
  Enum "_AXT_AIO_EXTERNAL_STATUS" "AXT_AIO_EXTERNAL_STATUS"
    [ ("EXTERNAL_DATA_DONE", Some 0);
      ("EXTERNAL_DATA_FINE", Some 1);
      ("EXTERNAL_DATA_HALF", Some 2);
      ("EXTERNAL_DATA_FULL", Some 3);
      ("EXTERNAL_COMPLETE", Some 4) ].

(** AXHS.h, lines 930-934. *)
Definition AXT_DIO_EDGE : enum_decl :=
  Enum "_AXT_DIO_EDGE" "AXT_DIO_EDGE"
    [ ("DOWN_EDGE", None);
      ("UP_EDGE", None) ].

(** AXHS.h, lines 939-943. *)
Definition AXT_DIO_STATE : enum_decl :=
  Enum "_AXT_DIO_STATE" "AXT_DIO_STATE"
    [ ("OFF_STATE", None);
      ("ON_STATE", None) ].

(** AXHS.h, lines 948-952. *)
Definition AXT_DIO_PORT_TYPE : enum_decl :=
  Enum "_AXT_DIO_PORT_TYPE" "AXT_DIO_PORT_TYPE"
    [ ("DIO_PORT_OUTPUT", None);
      ("DIO_PORT_INPORT", None) ].

(** AXHS.h, lines 958-962. *)
Definition AXT_MOTION_STOPMODE : enum_decl :=
  Enum "_AXT_MOTION_STOPMODE" "AXT_MOTION_STOPMODE"
    [ ("EMERGENCY_STOP", None);
      ("SLOWDOWN_STOP", None) ].

(** AXHS.h, lines 967-973. *)
Definition AXT_MOTION_EDGE : enum_decl :=
  Enum "_AXT_MOTION_EDGE" "AXT_MOTION_EDGE"
    [ ("SIGNAL_DOWN_EDGE", None);
      ("SIGNAL_UP_EDGE", None);
      ("SIGNAL_LOW_LEVEL", None);
      ("SIGNAL_HIGH_LEVEL", None) ].

(** AXHS.h, lines 978-982. *)
Definition AXT_MOTION_SELECTION : enum_decl :=
  Enum "_AXT_MOTION_SELECTION" "AXT_MOTION_SELECTION"
    [ ("COMMAND", None);
      ("ACTUAL", None) ].

(** AXHS.h, lines 987-991. *)
Definition AXT_MOTION_TRIGGER_MODE : enum_decl :=
  Enum "_AXT_MOTION_TRIGGER_MODE" "AXT_MOTION_TRIGGER_MODE"
    [ ("PERIOD_MODE", None);
      ("ABS_POS_MODE", None) ].

(** AXHS.h, lines 996-1002. *)
Definition AXT_MOTION_LEVEL_MODE : enum_decl :=
  Enum "_AXT_MOTION_LEVEL_MODE" "AXT_MOTION_LEVEL_MODE"
    [ ("LOW", None);
      ("HIGH", None);
      ("UNUSED", None);
      ("USED", None) ].

(** AXHS.h, lines 1007-1013. *)
Definition AXT_MOTION_ABSREL_MODE : enum_decl :=
  Enum "_AXT_MOTION_ABSREL_MODE" "AXT_MOTION_ABSREL_MODE"
    [ ("POS_ABS_MODE", None);
      ("POS_REL_MODE", None);
      ("POS_ABS_LONG_MODE", None);
      ("POS_ABS_SHORT_MODE", None) ].

(** AXHS.h, lines 1018-1023. *)
Definition AXT_MOTION_ENCODER_TYPE : enum_decl :=
  Enum "_AXT_MOTION_ENCODER_TYPE" "AXT_MOTION_ENCODER_TYPE"
    [ ("ENCODER_TYPE_INCREMENTAL", None);
      ("ENCODER_TYPE_ABSOLUTE", None);
      ("ENCODER_TYPE_NONE", None) ].

(** AXHS.h, lines 1028-1039. *)
Definition AXT_MOTION_PROFILE_MODE : enum_decl :=
  Enum "_AXT_MOTION_PROFILE_MODE" "AXT_MOTION_PROFILE_MODE"
    [ ("SYM_TRAPEZOIDE_MODE", None);
      ("ASYM_TRAPEZOIDE_MODE", None);
      ("QUASI_S_CURVE_MODE", None);
      ("SYM_S_CURVE_MODE", None);
      ("ASYM_S_CURVE_MODE", None);
      ("SYM_TRAP_M3_SW_MODE", None);
      ("ASYM_TRAP_M3_SW_MODE", None);
      ("SYM_S_M3_SW_MODE", None);
      ("ASYM_S_M3_SW_MODE", None) ].

(** AXHS.h, lines 1044-1048. *)
Definition AXT_MOTION_SIGNAL_LEVEL : enum_decl :=
  Enum "_AXT_MOTION_SIGNAL_LEVEL" "AXT_MOTION_SIGNAL_LEVEL"
    [ ("INACTIVE", None);
      ("ACTIVE", None) ].

(** AXHS.h, lines 1053-1075. *)
Definition AXT_MOTION_HOME_RESULT : enum_decl :=
  Enum "AXT_MOTION_HOME_RESULT" "AXT_MOTION_HOME_RESULT"
    [ ("HOME_RESERVED", Some 0x00);
      ("HOME_SUCCESS", Some 0x01);
      ("HOME_SEARCHING", Some 0x02);
      ("HOME_ERR_GNT_RANGE", Some 0x10);
      ("HOME_ERR_USER_BREAK", Some 0x11);
      ("HOME_ERR_VELOCITY", Some 0x12);
      ("HOME_ERR_AMP_FAULT", Some 0x13);
      ("HOME_ERR_NEG_LIMIT", Some 0x14);
      ("HOME_ERR_POS_LIMIT", Some 0x15);
      ("HOME_ERR_NOT_DETECT", Some 0x16);
      ("HOME_ERR_SETTING", Some 0x17);
      ("HOME_ERR_SERVO_OFF", Some 0x18);
      ("HOME_ERR_INTERLOCK", Some 0x19);
      ("HOME_ERR_TIMEOUT", Some 0x20);
      ("HOME_ERR_POS_CLEAR", Some 0x21);
      ("HOME_ERR_FUNCALL", Some 0x30);
      ("HOME_ERR_HOME_METHOD", Some 0x31);
      ("HOME_ERR_COUPLING", Some 0x40);
      ("HOME_ERR_ESTOP", Some 0x41);
      ("HOME_ERR_UNKNOWN", Some 0xFF) ].

(** AXHS.h, lines 1080-1088. *)
Definition AXT_MOTION_UNIV_INPUT : enum_decl :=
  Enum "_AXT_MOTION_UNIV_INPUT" "AXT_MOTION_UNIV_INPUT"
    [ ("UIO_INP0", None);
      ("UIO_INP1", None);
      ("UIO_INP2", None);
      ("UIO_INP3", None);
      ("UIO_INP4", None);
      ("UIO_INP5", None) ].

(** AXHS.h, lines 1093-1101. *)
Definition AXT_MOTION_UNIV_OUTPUT : enum_decl :=
  Enum "_AXT_MOTION_UNIV_OUTPUT" "AXT_MOTION_UNIV_OUTPUT"
    [ ("UIO_OUT0", None);
      ("UIO_OUT1", None);
      ("UIO_OUT2", None);
      ("UIO_OUT3", None);
      ("UIO_OUT4", None);
      ("UIO_OUT5", None) ].

(** AXHS.h, lines 1107-1111. *)
Definition AXT_MOTION_DETECT_DOWN_START_POINT : enum_decl :=
  Enum "_AXT_MOTION_DETECT_DOWN_START_POINT" "AXT_MOTION_DETECT_DOWN_START_POINT"
    [ ("AutoDetect", None);
      ("RestPulse", None) ].

(** AXHS.h, lines 1117-1129. *)
Definition AXT_MOTION_PULSE_OUTPUT : enum_decl :=
  Enum "_AXT_MOTION__PULSE_OUTPUT" "AXT_MOTION_PULSE_OUTPUT"
    [ ("OneHighLowHigh", Some 0x0);
      ("OneHighHighLow", Some 0x1);
      ("OneLowLowHigh", Some 0x2);
      ("OneLowHighLow", Some 0x3);
      ("TwoCcwCwHigh", Some 0x4);
      ("TwoCcwCwLow", Some 0x5);
      ("TwoCwCcwHigh", Some 0x6);
      ("TwoCwCcwLow", Some 0x7);
      ("TwoPhase", Some 0x8);
      ("TwoPhaseReverse", Some 0x9) ].

(** AXHS.h, lines 1135-1145. *)
Definition AXT_MOTION_EXTERNAL_COUNTER_INPUT : enum_decl :=
  Enum "_AXT_MOTION__EXTERNAL_COUNTER_INPUT" "AXT_MOTION_EXTERNAL_COUNTER_INPUT"
    [ ("ObverseUpDownMode", Some 0x0);
      ("ObverseSqr1Mode", Some 0x1);
      ("ObverseSqr2Mode", Some 0x2);
      ("ObverseSqr4Mode", Some 0x3);
      ("ReverseUpDownMode", Some 0x4);
      ("ReverseSqr1Mode", Some 0x5);
      ("ReverseSqr2Mode", Some 0x6);
      ("ReverseSqr4Mode", Some 0x7) ].

(** AXHS.h, lines 1150-1154. *)
Definition AXT_MOTION_ACC_UNIT : enum_decl :=
  Enum "_AXT_MOTION_ACC_UNIT" "AXT_MOTION_ACC_UNIT"
    [ ("UNIT_SEC2", Some 0x0);
      ("SEC", Some 0x1) ].

(** AXHS.h, lines 1159-1163. *)
Definition AXT_MOTION_MOVE_DIR : enum_decl :=
  Enum "_AXT_MOTION_MOVE_DIR" "AXT_MOTION_MOVE_DIR"
    [ ("DIR_CCW", Some 0x0);
      ("DIR_CW", Some 0x1) ].

(** AXHS.h, lines 1168-1172. *)
Definition AXT_MOTION_RADIUS_DISTANCE : enum_decl :=
  Enum "_AXT_MOTION_RADIUS_DISTANCE" "AXT_MOTION_RADIUS_DISTANCE"
    [ ("SHORT_DISTANCE", Some 0x0);
      ("LONG_DISTANCE", Some 0x1) ].

(** AXHS.h, lines 1177-1181. *)
Definition AXT_MOTION_POS_TYPE : enum_decl :=
  Enum "_AXT_MOTION_POS_TYPE_DEF" "AXT_MOTION_POS_TYPE"
    [ ("POSITION_LIMIT", Some 0x0);
      ("POSITION_BOUND", Some 0x1) ].

(** AXHS.h, lines 1186-1191. *)
Definition AXT_MOTION_INTERPOLATION_AXIS : enum_decl :=
  Enum "_AXT_MOTION_INTERPOLATION_AXIS" "AXT_MOTION_INTERPOLATION_AXIS"
    [ ("INTERPOLATION_AXIS2", Some 0x2);
      ("INTERPOLATION_AXIS3", Some 0x3);
      ("INTERPOLATION_AXIS4", Some 0x4) ].

(** AXHS.h, lines 1196-1201. *)
Definition AXT_MOTION_CONTISTART_NODE : enum_decl :=
  Enum "_AXT_MOTION_CONTISTART_NODE" "AXT_MOTION_CONTISTART_NODE"
    [ ("CONTI_NODE_VELOCITY", Some 0x0);
      ("CONTI_NODE_MANUAL", Some 0x1);
      ("CONTI_NODE_AUTO", Some 0x2) ].

(** AXHS.h, lines 1206-1211. *)
Definition AXT_MOTION_LINE_MOVE_VEL_MODE : enum_decl :=
  Enum "_AXT_MOTION_LINE_MOVE_VEL_MODE" "AXT_MOTION_LINE_MOVE_VEL_MODE"
    [ ("LINE_MOVE_VEL_MODE_VECTOR", Some 0x0);
      ("LINE_MOVE_VEL_MODE_MASTER", Some 0x1);
      ("LINE_MOVE_VEL_MODE_LONG_DISTANCE", Some 0x2) ].

(** AXHS.h, lines 1216-1234. *)
Definition AXT_MOTION_HOME_DETECT_SIGNAL : enum_decl :=
  Enum "_AXT_MOTION_HOME_DETECT_SIGNAL" "AXT_MOTION_HOME_DETECT_SIGNAL"
    [ ("PosEndLimit", Some 0x0);
      ("NegEndLimit", Some 0x1);
      ("PosSloLimit", Some 0x2);
      ("NegSloLimit", Some 0x3);
      ("HomeSensor", Some 0x4);
      ("EncodZPhase", Some 0x5);
      ("UniInput02", Some 0x6);
      ("UniInput03", Some 0x7);
      ("UniInput04", Some 0x8);
      ("UniInput05", Some 0x9);
      ("HomeDetectSignalTorqueLimit", Some 0x10);
      ("HomingMethod", Some 0x64);
      ("HomingMethod_01", Some 0x65);
      ("HomingMethod_37", Some 0x89);
      ("Manufacture", Some 0xFF) ].

(** AXHS.h, lines 1239-1244. *)
Definition AXT_MOTION_HOME_INTERLOCK_MODE : enum_decl :=
  Enum "_AXT_MOTION_HOME_INTERLOCK_MODE" "AXT_MOTION_HOME_INTERLOCK_MODE"
    [ ("HOME_INTERLOCK_UNUSED", Some 0x0);
      ("HOME_INTERLOCK_SENSOR_CHECK", Some 0x1);
      ("HOME_INTERLOCK_DISTANCE", Some 0x2) ].

(** AXHS.h, lines 1250-1256. *)
Definition AXT_MOTION_INPUT_FILTER_SIGNAL : enum_decl :=
  Enum "_AXT_MOTION_INPUT_FILTER_SIGNAL" "AXT_MOTION_INPUT_FILTER_SIGNAL"
    [ ("END_LIMIT", Some 0x10);
      ("INP_ALARM", Some 0x11);
      ("UIN_00_01", Some 0x12);
      ("UIN_02_04", Some 0x13) ].

(** AXHS.h, lines 1261-1271. *)
Definition AXT_MOTION_MPG_INPUT_METHOD : enum_decl :=
  Enum "_AXT_MOTION_MPG_INPUT_METHOD" "AXT_MOTION_MPG_INPUT_METHOD"
    [ ("MPG_DIFF_ONE_PHASE", Some 0x0);
      ("MPG_DIFF_TWO_PHASE_1X", Some 0x1);
      ("MPG_DIFF_TWO_PHASE_2X", Some 0x2);
      ("MPG_DIFF_TWO_PHASE_4X", Some 0x3);
      ("MPG_LEVEL_ONE_PHASE", Some 0x4);
      ("MPG_LEVEL_TWO_PHASE_1X", Some 0x5);
      ("MPG_LEVEL_TWO_PHASE_2X", Some 0x6);
      ("MPG_LEVEL_TWO_PHASE_4X", Some 0x7) ].

(** AXHS.h, lines 1276-1281. *)
Definition AXT_MOTION_SENSOR_INPUT_METHOD : enum_decl :=
  Enum "_AXT_MOTION_SENSOR_INPUT_METHOD" "AXT_MOTION_SENSOR_INPUT_METHOD"
    [ ("SENSOR_METHOD1", Some 0x0);
      ("SENSOR_METHOD2", Some 0x1);
      ("SENSOR_METHOD3", Some 0x2) ].

(** AXHS.h, lines 1286-1292. *)
Definition AXT_MOTION_HOME_CRC_SELECT : enum_decl :=
  Enum "_AXT_MOTION_HOME_CRC_SELECT" "AXT_MOTION_HOME_CRC_SELECT"
    [ ("CRC_SELECT1", Some 0x0);
      ("CRC_SELECT2", Some 0x1);
      ("CRC_SELECT3", Some 0x2);
      ("CRC_SELECT4", Some 0x3) ].

(** AXHS.h, lines 1298-1316. *)
Definition AXT_MOTION_IPDETECT_DESTINATION_SIGNAL : enum_decl :=
  Enum "_AXT_MOTION_IPDETECT_DESTINATION_SIGNAL" "AXT_MOTION_IPDETECT_DESTINATION_SIGNAL"
    [ ("PElmNegativeEdge", Some 0x0);
      ("NElmNegativeEdge", Some 0x1);
      ("PSlmNegativeEdge", Some 0x2);
      ("NSlmNegativeEdge", Some 0x3);
      ("In0DownEdge", Some 0x4);
      ("In1DownEdge", Some 0x5);
      ("In2DownEdge", Some 0x6);
      ("In3DownEdge", Some 0x7);
      ("PElmPositiveEdge", Some 0x8);
      ("NElmPositiveEdge", Some 0x9);
      ("PSlmPositiveEdge", Some 0xa);
      ("NSlmPositiveEdge", Some 0xb);
      ("In0UpEdge", Some 0xc);
      ("In1UpEdge", Some 0xd);
      ("In2UpEdge", Some 0xe);
      ("In3UpEdge", Some 0xf) ].

(** AXHS.h, lines 1322-1340. *)
Definition AXT_MOTION_IPEND_STATUS : enum_decl :=
  Enum "_AXT_MOTION_IPEND_STATUS" "AXT_MOTION_IPEND_STATUS"
    [ ("IPEND_STATUS_SLM", Some 0x0001);
      ("IPEND_STATUS_ELM", Some 0x0002);
      ("IPEND_STATUS_SSTOP_SIGNAL", Some 0x0004);
      ("IPEND_STATUS_ESTOP_SIGNAL", Some 0x0008);
      ("IPEND_STATUS_SSTOP_COMMAND", Some 0x0010);
      ("IPEND_STATUS_ESTOP_COMMAND", Some 0x0020);
      ("IPEND_STATUS_ALARM_SIGNAL", Some 0x0040);
      ("IPEND_STATUS_DATA_ERROR", Some 0x0080);
      ("IPEND_STATUS_DEVIATION_ERROR", Some 0x0100);
      ("IPEND_STATUS_ORIGIN_DETECT", Some 0x0200);
      ("IPEND_STATUS_SIGNAL_DETECT", Some 0x0400);
      ("IPEND_STATUS_PRESET_PULSE_DRIVE", Some 0x0800);
      ("IPEND_STATUS_SENSOR_PULSE_DRIVE", Some 0x1000);
      ("IPEND_STATUS_LIMIT", Some 0x2000);
      ("IPEND_STATUS_SOFTLIMIT", Some 0x4000);
      ("IPEND_STATUS_INTERPOLATION_DRIVE", Some 0x8000) ].

(** AXHS.h, lines 1346-1368. *)
Definition AXT_MOTION_IPDRIVE_STATUS : enum_decl :=
  Enum "_AXT_MOTION_IPDRIVE_STATUS" "AXT_MOTION_IPDRIVE_STATUS"
    [ ("IPDRIVE_STATUS_BUSY", Some 0x00001);
      ("IPDRIVE_STATUS_DOWN", Some 0x00002);
      ("IPDRIVE_STATUS_CONST", Some 0x00004);
      ("IPDRIVE_STATUS_UP", Some 0x00008);
      ("IPDRIVE_STATUS_ICL", Some 0x00010);
      ("IPDRIVE_STATUS_ICG", Some 0x00020);
      ("IPDRIVE_STATUS_ECL", Some 0x00040);
      ("IPDRIVE_STATUS_ECG", Some 0x00080);
      ("IPDRIVE_STATUS_DRIVE_DIRECTION", Some 0x00100);
      ("IPDRIVE_STATUS_COMMAND_BUSY", Some 0x00200);
      ("IPDRIVE_STATUS_PRESET_DRIVING", Some 0x00400);
      ("IPDRIVE_STATUS_CONTINUOUS_DRIVING", Some 0x00800);
      ("IPDRIVE_STATUS_SIGNAL_SEARCH_DRIVING", Some 0x01000);
      ("IPDRIVE_STATUS_ORG_SEARCH_DRIVING", Some 0x02000);
      ("IPDRIVE_STATUS_MPG_DRIVING", Some 0x04000);
      ("IPDRIVE_STATUS_SENSOR_DRIVING", Some 0x08000);
      ("IPDRIVE_STATUS_L_C_INTERPOLATION", Some 0x10000);
      ("IPDRIVE_STATUS_PATTERN_INTERPOLATION", Some 0x20000);
      ("IPDRIVE_STATUS_INTERRUPT_BANK1", Some 0x40000);
      ("IPDRIVE_STATUS_INTERRUPT_BANK2", Some 0x80000) ].

(** AXHS.h, lines 1374-1409. *)
Definition AXT_MOTION_IPINTERRUPT_BANK1 : enum_decl :=
  Enum "_AXT_MOTION_IPINTERRUPT_BANK1" "AXT_MOTION_IPINTERRUPT_BANK1"
    [ ("IPINTBANK1_DONTUSE", Some 0x00000000);
      ("IPINTBANK1_DRIVE_END", Some 0x00000001);
      ("IPINTBANK1_ICG", Some 0x00000002);
      ("IPINTBANK1_ICE", Some 0x00000004);
      ("IPINTBANK1_ICL", Some 0x00000008);
      ("IPINTBANK1_ECG", Some 0x00000010);
      ("IPINTBANK1_ECE", Some 0x00000020);
      ("IPINTBANK1_ECL", Some 0x00000040);
      ("IPINTBANK1_SCRQEMPTY", Some 0x00000080);
      ("IPINTBANK1_CAPRQEMPTY", Some 0x00000100);
      ("IPINTBANK1_SCRREG1EXE", Some 0x00000200);
      ("IPINTBANK1_SCRREG2EXE", Some 0x00000400);
      ("IPINTBANK1_SCRREG3EXE", Some 0x00000800);
      ("IPINTBANK1_CAPREG1EXE", Some 0x00001000);
      ("IPINTBANK1_CAPREG2EXE", Some 0x00002000);
      ("IPINTBANK1_CAPREG3EXE", Some 0x00004000);
      ("IPINTBANK1_INTGGENCMD", Some 0x00008000);
      ("IPINTBANK1_DOWN", Some 0x00010000);
      ("IPINTBANK1_CONT", Some 0x00020000);
      ("IPINTBANK1_UP", Some 0x00040000);
      ("IPINTBANK1_SIGNALDETECTED", Some 0x00080000);
      ("IPINTBANK1_SP23E", Some 0x00100000);
      ("IPINTBANK1_SP12E", Some 0x00200000);
      ("IPINTBANK1_SPE", Some 0x00400000);
      ("IPINTBANK1_INCEICM", Some 0x00800000);
      ("IPINTBANK1_SCRQEXE", Some 0x01000000);
      ("IPINTBANK1_CAPQEXE", Some 0x02000000);
      ("IPINTBANK1_SLM", Some 0x04000000);
      ("IPINTBANK1_ELM", Some 0x08000000);
      ("IPINTBANK1_USERDEFINE1", Some 0x10000000);
      ("IPINTBANK1_USERDEFINE2", Some 0x20000000);
      ("IPINTBANK1_USERDEFINE3", Some 0x40000000);
      ("IPINTBANK1_USERDEFINE4", Some 0x80000000) ].

(** AXHS.h, lines 1414-1449. *)
Definition AXT_MOTION_IPINTERRUPT_BANK2 : enum_decl :=
  Enum "_AXT_MOTION_IPINTERRUPT_BANK2" "AXT_MOTION_IPINTERRUPT_BANK2"
    [ ("IPINTBANK2_DONTUSE", Some 0x00000000);
      ("IPINTBANK2_L_C_INP_Q_EMPTY", Some 0x00000001);
      ("IPINTBANK2_P_INP_Q_EMPTY", Some 0x00000002);
      ("IPINTBANK2_ALARM_ERROR", Some 0x00000004);
      ("IPINTBANK2_INPOSITION", Some 0x00000008);
      ("IPINTBANK2_MARK_SIGNAL_HIGH", Some 0x00000010);
      ("IPINTBANK2_SSTOP_SIGNAL", Some 0x00000020);
      ("IPINTBANK2_ESTOP_SIGNAL", Some 0x00000040);
      ("IPINTBANK2_SYNC_ACTIVATED", Some 0x00000080);
      ("IPINTBANK2_TRIGGER_ENABLE", Some 0x00000100);
      ("IPINTBANK2_EXCNTCLR", Some 0x00000200);
      ("IPINTBANK2_FSTCOMPARE_RESULT_BIT0", Some 0x00000400);
      ("IPINTBANK2_FSTCOMPARE_RESULT_BIT1", Some 0x00000800);
      ("IPINTBANK2_FSTCOMPARE_RESULT_BIT2", Some 0x00001000);
      ("IPINTBANK2_FSTCOMPARE_RESULT_BIT3", Some 0x00002000);
      ("IPINTBANK2_FSTCOMPARE_RESULT_BIT4", Some 0x00004000);
      ("IPINTBANK2_SNDCOMPARE_RESULT_BIT0", Some 0x00008000);
      ("IPINTBANK2_SNDCOMPARE_RESULT_BIT1", Some 0x00010000);
      ("IPINTBANK2_SNDCOMPARE_RESULT_BIT2", Some 0x00020000);
      ("IPINTBANK2_SNDCOMPARE_RESULT_BIT3", Some 0x00040000);
      ("IPINTBANK2_SNDCOMPARE_RESULT_BIT4", Some 0x00080000);
      ("IPINTBANK2_L_C_INP_Q_LESS_4", Some 0x00100000);
      ("IPINTBANK2_P_INP_Q_LESS_4", Some 0x00200000);
      ("IPINTBANK2_XSYNC_ACTIVATED", Some 0x00400000);
      ("IPINTBANK2_YSYNC_ACTIVATED", Some 0x00800000);
      ("IPINTBANK2_P_INP_END_BY_END_PATTERN", Some 0x01000000) ].

(** AXHS.h, lines 1456-1475. *)
Definition AXT_MOTION_IPMECHANICAL_SIGNAL : enum_decl :=
  Enum "_AXT_MOTION_IPMECHANICAL_SIGNAL" "AXT_MOTION_IPMECHANICAL_SIGNAL"
    [ ("IPMECHANICAL_PELM_LEVEL", Some 0x0001);
      ("IPMECHANICAL_NELM_LEVEL", Some 0x0002);
      ("IPMECHANICAL_PSLM_LEVEL", Some 0x0004);
      ("IPMECHANICAL_NSLM_LEVEL", Some 0x0008);
      ("IPMECHANICAL_ALARM_LEVEL", Some 0x0010);
      ("IPMECHANICAL_INP_LEVEL", Some 0x0020);
      ("IPMECHANICAL_ENC_DOWN_LEVEL", Some 0x0040);
      ("IPMECHANICAL_ENC_UP_LEVEL", Some 0x0080);
      ("IPMECHANICAL_EXMP_LEVEL", Some 0x0100);
      ("IPMECHANICAL_EXPP_LEVEL", Some 0x0200);
      ("IPMECHANICAL_MARK_LEVEL", Some 0x0400);
      ("IPMECHANICAL_SSTOP_LEVEL", Some 0x0800);
      ("IPMECHANICAL_ESTOP_LEVEL", Some 0x1000);
      ("IPMECHANICAL_SYNC_LEVEL", Some 0x2000);
      ("IPMECHANICAL_MODE8_16_LEVEL", Some 0x4000) ].

(** AXHS.h, lines 1481-1491. *)
Definition AXT_MOTION_QIDETECT_DESTINATION_SIGNAL : enum_decl :=
  Enum "_AXT_MOTION_QIDETECT_DESTINATION_SIGNAL" "AXT_MOTION_QIDETECT_DESTINATION_SIGNAL"
    [ ("Signal_PosEndLimit", Some 0x0);
      ("Signal_NegEndLimit", Some 0x1);
      ("Signal_PosSloLimit", Some 0x2);
      ("Signal_NegSloLimit", Some 0x3);
      ("Signal_HomeSensor", Some 0x4);
      ("Signal_EncodZPhase", Some 0x5);
      ("Signal_UniInput02", Some 0x6);
      ("Signal_UniInput03", Some 0x7) ].

(** AXHS.h, lines 1497-1517. *)
Definition AXT_MOTION_QIMECHANICAL_SIGNAL : enum_decl :=
  Enum "_AXT_MOTION_QIMECHANICAL_SIGNAL" "AXT_MOTION_QIMECHANICAL_SIGNAL"
    [ ("QIMECHANICAL_PELM_LEVEL", Some 0x00001);
      ("QIMECHANICAL_NELM_LEVEL", Some 0x00002);
      ("QIMECHANICAL_PSLM_LEVEL", Some 0x00004);
      ("QIMECHANICAL_NSLM_LEVEL", Some 0x00008);
      ("QIMECHANICAL_ALARM_LEVEL", Some 0x00010);
      ("QIMECHANICAL_INP_LEVEL", Some 0x00020);
      ("QIMECHANICAL_ESTOP_LEVEL", Some 0x00040);
      ("QIMECHANICAL_ORG_LEVEL", Some 0x00080);
      ("QIMECHANICAL_ZPHASE_LEVEL", Some 0x00100);
      ("QIMECHANICAL_ECUP_LEVEL", Some 0x00200);
      ("QIMECHANICAL_ECDN_LEVEL", Some 0x00400);
      ("QIMECHANICAL_EXPP_LEVEL", Some 0x00800);
      ("QIMECHANICAL_EXMP_LEVEL", Some 0x01000);
      ("QIMECHANICAL_SQSTR1_LEVEL", Some 0x02000);
      ("QIMECHANICAL_SQSTR2_LEVEL", Some 0x04000);
      ("QIMECHANICAL_SQSTP1_LEVEL", Some 0x08000);
      ("QIMECHANICAL_SQSTP2_LEVEL", Some 0x10000);
      ("QIMECHANICAL_MODE_LEVEL", Some 0x20000) ].

(** AXHS.h, lines 1523-1558. *)
Definition AXT_MOTION_QIEND_STATUS : enum_decl :=
  Enum "_AXT_MOTION_QIEND_STATUS" "AXT_MOTION_QIEND_STATUS"
    [ ("QIEND_STATUS_0", Some 0x00000001);
      ("QIEND_STATUS_1", Some 0x00000002);
      ("QIEND_STATUS_2", Some 0x00000004);
      ("QIEND_STATUS_3", Some 0x00000008);
      ("QIEND_STATUS_4", Some 0x00000010);
      ("QIEND_STATUS_5", Some 0x00000020);
      ("QIEND_STATUS_6", Some 0x00000040);
      ("QIEND_STATUS_7", Some 0x00000080);
      ("QIEND_STATUS_8", Some 0x00000100);
      ("QIEND_STATUS_9", Some 0x00000200);
      ("QIEND_STATUS_10", Some 0x00000400);
      ("QIEND_STATUS_11", Some 0x00000800);
      ("QIEND_STATUS_12", Some 0x00001000);
      ("QIEND_STATUS_13", Some 0x00002000);
      ("QIEND_STATUS_14", Some 0x00004000);
      ("QIEND_STATUS_15", Some 0x00008000);
      ("QIEND_STATUS_16", Some 0x00010000);
      ("QIEND_STATUS_17", Some 0x00020000);
      ("QIEND_STATUS_18", Some 0x00040000);
      ("QIEND_STATUS_19", Some 0x00080000);
      ("QIEND_STATUS_20", Some 0x00100000);
      ("QIEND_STATUS_21", Some 0x00200000);
      ("QIEND_STATUS_22", Some 0x00400000);
      ("QIEND_STATUS_23", Some 0x00800000);
      ("QIEND_STATUS_24", Some 0x01000000);
      ("QIEND_STATUS_25", Some 0x02000000);
      ("QIEND_STATUS_26", Some 0x04000000);
      ("QIEND_STATUS_27", Some 0x08000000);
      ("QIEND_STATUS_28", Some 0x10000000);
      ("QIEND_STATUS_29", Some 0x20000000);
      ("QIEND_STATUS_30", Some 0x40000000);
      ("QIEND_STATUS_31", Some 0x80000000) ].

(** AXHS.h, lines 1564-1593. *)
Definition AXT_MOTION_QIDRIVE_STATUS : enum_decl :=
  Enum "_AXT_MOTION_QIDRIVE_STATUS" "AXT_MOTION_QIDRIVE_STATUS"
    [ ("QIDRIVE_STATUS_0", Some 0x0000001);
      ("QIDRIVE_STATUS_1", Some 0x0000002);
      ("QIDRIVE_STATUS_2", Some 0x0000004);
      ("QIDRIVE_STATUS_3", Some 0x0000008);
      ("QIDRIVE_STATUS_4", Some 0x0000010);
      ("QIDRIVE_STATUS_5", Some 0x0000020);
      ("QIDRIVE_STATUS_6", Some 0x0000040);
      ("QIDRIVE_STATUS_7", Some 0x0000080);
      ("QIDRIVE_STATUS_8", Some 0x0000100);
      ("QIDRIVE_STATUS_9", Some 0x0000200);
      ("QIDRIVE_STATUS_10", Some 0x0000400);
      ("QIDRIVE_STATUS_11", Some 0x0000800);
      ("QIDRIVE_STATUS_12", Some 0x0001000);
      ("QIDRIVE_STATUS_13", Some 0x0002000);
      ("QIDRIVE_STATUS_14", Some 0x0004000);
      ("QIDRIVE_STATUS_15", Some 0x0008000);
      ("QIDRIVE_STATUS_16", Some 0x0010000);
      ("QIDRIVE_STATUS_17", Some 0x0020000);
      ("QIDRIVE_STATUS_18", Some 0x0040000);
      ("QIDRIVE_STATUS_19", Some 0x0080000);
      ("QIDRIVE_STATUS_20", Some 0x0100000);
      ("QIDRIVE_STATUS_21", Some 0x0200000);
      ("QIDRIVE_STATUS_22", Some 0x0400000);
      ("QIDRIVE_STATUS_23", Some 0x0800000);
      ("QIDRIVE_STATUS_24", Some 0x1000000);
      ("QIDRIVE_STATUS_25", Some 0x2000000);
      ("QIDRIVE_STATUS_26", Some 0x4000000) ].

(** AXHS.h, lines 1599-1634. *)
Definition AXT_MOTION_QIINTERRUPT_BANK1 : enum_decl :=
  Enum "_AXT_MOTION_QIINTERRUPT_BANK1" "AXT_MOTION_QIINTERRUPT_BANK1"
    [ ("QIINTBANK1_DISABLE", Some 0x00000000);
      ("QIINTBANK1_0", Some 0x00000001);
      ("QIINTBANK1_1", Some 0x00000002);
      ("QIINTBANK1_2", Some 0x00000004);
      ("QIINTBANK1_3", Some 0x00000008);
      ("QIINTBANK1_4", Some 0x00000010);
      ("QIINTBANK1_5", Some 0x00000020);
      ("QIINTBANK1_6", Some 0x00000040);
      ("QIINTBANK1_7", Some 0x00000080);
      ("QIINTBANK1_8", Some 0x00000100);
      ("QIINTBANK1_9", Some 0x00000200);
      ("QIINTBANK1_10", Some 0x00000400);
      ("QIINTBANK1_11", Some 0x00000800);
      ("QIINTBANK1_12", Some 0x00001000);
      ("QIINTBANK1_13", Some 0x00002000);
      ("QIINTBANK1_14", Some 0x00004000);
      ("QIINTBANK1_15", Some 0x00008000);
      ("QIINTBANK1_16", Some 0x00010000);
      ("QIINTBANK1_17", Some 0x00020000);
      ("QIINTBANK1_18", Some 0x00040000);
      ("QIINTBANK1_19", Some 0x00080000);
      ("QIINTBANK1_20", Some 0x00100000);
      ("QIINTBANK1_21", Some 0x00200000);
      ("QIINTBANK1_22", Some 0x00400000);
      ("QIINTBANK1_23", Some 0x00800000);
      ("QIINTBANK1_24", Some 0x01000000);
      ("QIINTBANK1_25", Some 0x02000000);
      ("QIINTBANK1_26", Some 0x04000000);
      ("QIINTBANK1_27", Some 0x08000000);
      ("QIINTBANK1_28", Some 0x10000000);
      ("QIINTBANK1_29", Some 0x20000000);
      ("QIINTBANK1_30", Some 0x40000000);
      ("QIINTBANK1_31", Some 0x80000000) ].

(** AXHS.h, lines 1639-1674. *)
Definition AXT_MOTION_QIINTERRUPT_BANK2 : enum_decl :=
  Enum "_AXT_MOTION_QIINTERRUPT_BANK2" "AXT_MOTION_QIINTERRUPT_BANK2"
    [ ("QIINTBANK2_DISABLE", Some 0x00000000);
      ("QIINTBANK2_0", Some 0x00000001);
      ("QIINTBANK2_1", Some 0x00000002);
      ("QIINTBANK2_2", Some 0x00000004);
      ("QIINTBANK2_3", Some 0x00000008);
      ("QIINTBANK2_4", Some 0x00000010);
      ("QIINTBANK2_5", Some 0x00000020);
      ("QIINTBANK2_6", Some 0x00000040);
      ("QIINTBANK2_7", Some 0x00000080);
      ("QIINTBANK2_8", Some 0x00000100);
      ("QIINTBANK2_9", Some 0x00000200);
      ("QIINTBANK2_10", Some 0x00000400);
      ("QIINTBANK2_11", Some 0x00000800);
      ("QIINTBANK2_12", Some 0x00001000);
      ("QIINTBANK2_13", Some 0x00002000);
      ("QIINTBANK2_14", Some 0x00004000);
      ("QIINTBANK2_15", Some 0x00008000);
      ("QIINTBANK2_16", Some 0x00010000);
      ("QIINTBANK2_17", Some 0x00020000);
      ("QIINTBANK2_18", Some 0x00040000);
      ("QIINTBANK2_19", Some 0x00080000);
      ("QIINTBANK2_20", Some 0x00100000);
      ("QIINTBANK2_21", Some 0x00200000);
      ("QIINTBANK2_22", Some 0x00400000);
      ("QIINTBANK2_23", Some 0x00800000);
      ("QIINTBANK2_24", Some 0x01000000);
      ("QIINTBANK2_25", Some 0x02000000);
      ("QIINTBANK2_26", Some 0x04000000);
      ("QIINTBANK2_27", Some 0x08000000);
      ("QIINTBANK2_28", Some 0x10000000);
      ("QIINTBANK2_29", Some 0x20000000);
      ("QIINTBANK2_30", Some 0x40000000);
      ("QIINTBANK2_31", Some 0x80000000) ].

(** AXHS.h, lines 1679-1684. *)
Definition AXT_NETWORK_STATUS : enum_decl :=
  Enum "_AXT_NETWORK_STATUS" "AXT_NETWORK_STATUS"
    [ ("NET_STATUS_DISCONNECTED", Some 1);
      ("NET_STATUS_LOCK_MISMATCH", Some 5);
      ("NET_STATUS_CONNECTED", Some 6) ].

(** AXHS.h, lines 1719-1724. *)
Definition AXT_MOTION_OVERRIDE_MODE : enum_decl :=
  Enum "_AXT_MOTION_OVERRIDE_MODE" "AXT_MOTION_OVERRIDE_MODE"
    [ ("OVERRIDE_POS_START", Some 0);
      ("OVERRIDE_POS_END", Some 1);
      ("OVERRIDE_POS_AUTO", Some 2) ].

(** AXHS.h, lines 1729-1733. *)
Definition AXT_MOTION_PROFILE_PRIORITY : enum_decl :=
  Enum "_AXT_MOTION_PROFILE_PRIORITY" "AXT_MOTION_PROFILE_PRIORITY"
    [ ("PRIORITY_VELOCITY", Some 0);
      ("PRIORITY_ACCELTIME", Some 1) ].

(** AXHS.h, lines 1749-1754. *)
Definition AXT_MOTION_BACKLASH_DIR : enum_decl :=
  Enum "_AXT_MOTION_BACKLASH_DIR" "AXT_MOTION_BACKLASH_DIR"
    [ ("BACKLASH_DIR_P", Some 0);
      ("BACKLASH_DIR_N", Some 1);
      ("BACKLASH_DIR_U", Some 2) ].

(** AXHS.h, lines 1762-1766. *)
Definition unnamed_enum_COM_CONNECT : enum_decl :=
  Enum "" ""
    [ ("COM_CONNECT", None);
      ("COM_DISCONNECT", None);
      ("COM_OFFLINE", None) ].

(** AXHS.h, lines 1768-1786. *)
Definition MONITOR_SELECT_INFORMATION : enum_decl :=
  Enum "MONITOR_SELECT_INFORMATION" ""
    [ ("_MONI_APOS_", Some 0);
      ("_MONI_CPOS_", None);
      ("_MONI_PERR_", None);
      ("_MONI_LPOS1_", None);
      ("_MONI_LPOS2_", None);
      ("_MONI_FSPD_", None);
      ("_MONI_CSPD_", None);
      ("_MONI_TRQ_", None);
      ("_MONI_ALARM_", None);
      ("_MONI_MPOS_", None);
      ("_MONI_RES1_", None);
      ("_MONI_RES2_", None);
      ("_MONI_CMN1_", None);
      ("_MONI_CMN2_", None);
      ("_MONI_OMN1_", None);
      ("_MONI_OMN2_", None) ].

(** AXHS.h, lines 1795-1804. *)
Definition CNTPORT_DATA : enum_decl :=
  Enum "_CNTPORT_DATA_WRITE" "CNTPORT_DATA"
    [ ("CnCommand", Some 0x10);
      ("CnData1", Some 0x12);
      ("CnData2", Some 0x14);
      ("CnData3", Some 0x16);
      ("CnData4", Some 0x18);
      ("CnData12", Some 0x44);
      ("CnData34", Some 0x46) ].

(** AXHS.h, lines 1806-1813. *)
Definition CNTRAM_DATA : enum_decl :=
  Enum "_CNTRAM_DATA" "CNTRAM_DATA"
    [ ("CnRamAddr1", Some 0x28);
      ("CnRamAddr2", Some 0x2A);
      ("CnRamAddr3", Some 0x2C);
      ("CnRamAddrx1", Some 0x48);
      ("CnRamAddr23", Some 0x4A) ].

(** AXHS.h, lines 1815-1819. *)
Definition PHASE_SEL : enum_decl :=
  Enum "_PHASE_SEL" "PHASE_SEL"
    [ ("CnAbPhase", Some 0x0);
      ("CnZPhase", Some 0x1) ].

(** AXHS.h, lines 1821-1827. *)
Definition COUNTER_INPUT : enum_decl :=
  Enum "_COUNTER_INPUT" "COUNTER_INPUT"
    [ ("CnUpDownMode", Some 0x0);
      ("CnSqr1Mode", Some 0x1);
      ("CnSqr2Mode", Some 0x2);
      ("CnSqr4Mode", Some 0x3) ].

(** AXHS.h, lines 1830-1889. *)
Definition CNTCOMMAND : enum_decl :=
  Enum "_CNTCOMMAND" "CNTCOMMAND"
    [ ("CnCh1CounterRead", Some 0x10);
      ("CnCh1CounterWrite", Some 0x90);
      ("CnCh1CounterModeRead", Some 0x11);
      ("CnCh1CounterModeWrite", Some 0x91);
      ("CnCh1TriggerRegionLowerDataRead", Some 0x12);
      ("CnCh1TriggerRegionLowerDataWrite", Some 0x92);
      ("CnCh1TriggerRegionUpperDataRead", Some 0x13);
      ("CnCh1TriggerRegionUpperDataWrite", Some 0x93);
      ("CnCh1TriggerPeriodRead", Some 0x14);
      ("CnCh1TriggerPeriodWrite", Some 0x94);
      ("CnCh1TriggerPulseWidthRead", Some 0x15);
      ("CnCh1TriggerPulseWidthWrite", Some 0x95);
      ("CnCh1TriggerModeRead", Some 0x16);
      ("CnCh1TriggerModeWrite", Some 0x96);
      ("CnCh1TriggerStatusRead", Some 0x17);
      ("CnCh1NoOperation_97", Some 0x97);
      ("CnCh1TriggerEnable", Some 0x98);
      ("CnCh1TriggerDisable", Some 0x99);
      ("CnCh1TimeTriggerFrequencyRead", Some 0x1A);
      ("CnCh1TimeTriggerFrequencyWrite", Some 0x9A);
      ("CnCh1ComparatorValueRead", Some 0x1B);
      ("CnCh1ComparatorValueWrite", Some 0x9B);
      ("CnCh1CompareatorConditionRead", Some 0x1D);
      ("CnCh1CompareatorConditionWrite", Some 0x9D);
      ("CnCh2CounterRead", Some 0x20);
      ("CnCh2CounterWrite", Some 0xA1);
      ("CnCh2CounterModeRead", Some 0x21);
      ("CnCh2CounterModeWrite", Some 0xA1);
      ("CnCh2TriggerRegionLowerDataRead", Some 0x22);
      ("CnCh2TriggerRegionLowerDataWrite", Some 0xA2);
      ("CnCh2TriggerRegionUpperDataRead", Some 0x23);
      ("CnCh2TriggerRegionUpperDataWrite", Some 0xA3);
      ("CnCh2TriggerPeriodRead", Some 0x24);
      ("CnCh2TriggerPeriodWrite", Some 0xA4);
      ("CnCh2TriggerPulseWidthRead", Some 0x25);
      ("CnCh2TriggerPulseWidthWrite", Some 0xA5);
      ("CnCh2TriggerModeRead", Some 0x26);
      ("CnCh2TriggerModeWrite", Some 0xA6);
      ("CnCh2TriggerStatusRead", Some 0x27);
      ("CnCh2NoOperation_A7", Some 0xA7);
      ("CnCh2TriggerEnable", Some 0xA8);
      ("CnCh2TriggerDisable", Some 0xA9);
      ("CnCh2TimeTriggerFrequencyRead", Some 0x2A);
      ("CnCh2TimeTriggerFrequencyWrite", Some 0xAA);
      ("CnCh2ComparatorValueRead", Some 0x2B);
      ("CnCh2ComparatorValueWrite", Some 0xAB);
      ("CnCh2CompareatorConditionRead", Some 0x2D);
      ("CnCh2CompareatorConditionWrite", Some 0xAD);
      ("CnRamDataWithRamAddress", Some 0x30);
      ("CnRamDataWrite", Some 0xB0);
      ("CnRamDataRead", Some 0x31) ].

(** AXHS.h, lines 1894-1899. *)
Definition AXT_MOTION_JOINT_MODE : enum_decl :=
  Enum "_AXT_MOTION_JOINT_MODE" "AXT_MOTION_JOINT_MODE"
    [ ("AxisMode", Some 0x0);
      ("JointMode", Some 0x1);
      ("ToolMode", Some 0x2) ].

(** AXHS.h, lines 1904-1908. *)
Definition AXT_MOTION_COMPENSATION_USE_REVERSE : enum_decl :=
  Enum "_AXT_MOTION_COMPENSATION_USE_REVERSE" "AXT_MOTION_COMPENSATION_USE_REVERSE"
    [ ("COMPENSATION_REVERSE_UNUSE", Some 0);
      ("COMPENSATION_REVERSE_USE", Some 1) ].

(** AXHS.h, lines 1913-1917. *)
Definition AXT_MOTION_COMPENSATION_INTERPOLATION_METHOD : enum_decl :=
  Enum "_AXT_MOTION_COMPENSATION_INTERPOLATION_METHOD" "AXT_MOTION_COMPENSATION_INTERPOLATION_METHOD"
    [ ("INTERPOLATION_LINEAR", Some 0);
      ("INTERPOLATION_CUBIC_SPLINE", Some 1) ].

(** AXHS.h, lines 1922-1950. *)
Definition MonitorSignalType : enum_decl :=
  Enum "" "MonitorSignalType"
    [ ("eMonitorSignalType_CmdPos", Some 0);
      ("eMonitorSignalType_ActPos", None);
      ("eMonitorSignalType_CmdVel", None);
      ("eMonitorSignalType_ActVel", None);
      ("eMonitorSignalType_CmdAccDec", None);
      ("eMonitorSignalType_ActAccDec", None);
      ("eMonitorSignalType_PosErr", None);
      ("eMonitorSignalType_InMotion", None);
      ("eMonitorSignalType_ActTorque", None);
      ("eMonitorSignalType_PositionDemand", None);
      ("eMonitorSignalType_VelocityDemand", None);
      ("eMonitorSignalType_TorqueDemand", None);
      ("eMonitorSignalType_MotionAiValue", None);
      ("eMonitorSignalType_MotionDiValue", None);
      ("eMonitorSignalType_MotionDoValue", None);
      ("eMonitorSignalType_Event_ContiEndNode", None);
      ("eMonitorSignalType_DiValue", None);
      ("eMonitorSignalType_DoValue", None);
      ("eMonitorSignalType_AiValue", None);
      ("eMonitorSignalType_AoValue", None);
      ("MAX_eMonitorSignalType", None) ].

(** AXHS.h, lines 1955-1962. *)
Definition MonitorOperationType : enum_decl :=
  Enum "" "MonitorOperationType"
    [ ("eMonitorOperationType_Grater", Some 0);
      ("eMonitorOperationType_Smaller", None);
      ("eMonitorOperationType_RisingEdge", None);
      ("eMonitorOperationType_FallingEdge", None);
      ("MAX_eMonitorOperationType", None) ].

(** AXHS.h, lines 1967-1972. *)
Definition MonitorStartOption : enum_decl :=
  Enum "" "MonitorStartOption"
    [ ("eMonitorStartOption_Immediately", Some 0);
      ("eMonitorStartOption_Trigger", None);
      ("MAX_eMonitorStartOption", None) ].

(** AXHS.h, lines 1977-1982. *)
Definition MonitorOverflowOption : enum_decl :=
  Enum "" "MonitorOverflowOption"
    [ ("eMonitorOverflowOption_IgnoreQueueFull", Some 0);
      ("eMonitorOverflowOption_WaitQueueFull", None);
      ("MAX_eMonitorOverflowOption", None) ].

(** AXHS.h, lines 1989-1996. *)
Definition HPCPORT_DATA_WRITE : enum_decl :=
  Enum "_HPCPORT_DATA_WRITE" "HPCPORT_DATA_WRITE"
    [ ("HpcReset", Some 0x06);
      ("HpcCommand", Some 0x10);
      ("HpcData12", Some 0x12);
      ("HpcData34", Some 0x14);
      ("HpcCmStatus", Some 0x1C) ].

(** AXHS.h, lines 1998-2008. *)
Definition HPCPORT_CH_STAUTS : enum_decl :=
  Enum "_HPCPORT_CH_STAUTS" "HPCPORT_CH_STAUTS"
    [ ("HpcCh1Mech", Some 0x20);
      ("HpcCh1Status", Some 0x22);
      ("HpcCh2Mech", Some 0x30);
      ("HpcCh2Status", Some 0x32);
      ("HpcCh3Mech", Some 0x40);
      ("HpcCh3Status", Some 0x42);
      ("HpcCh4Mech", Some 0x50);
      ("HpcCh4Status", Some 0x52) ].

(** AXHS.h, lines 2010-2019. *)
Definition HPCPORT_ETC : enum_decl :=
  Enum "_HPCPORT_ETC" "HPCPORT_ETC"
    [ ("HpcDiIntFlag", Some 0x60);
      ("HpcDiIntRiseMask", Some 0x62);
      ("HpcDiIntFallMask", Some 0x64);
      ("HpcCompIntFlag", Some 0x66);
      ("HpcCompIntMask", Some 0x68);
      ("HpcDinData", Some 0x6A);
      ("HpcDoutData", Some 0x6C) ].

(** AXHS.h, lines 2022-2026. *)
Definition HPCRAM_DATA : enum_decl :=
  Enum "_HPCRAM_DATA" "HPCRAM_DATA"
    [ ("HpcRamAddr1", Some 0x70);
      ("HpcRamAddr2", Some 0x72) ].

(** AXHS.h, lines 2057-2242. *)
Definition HPCCOMMAND : enum_decl :=
  Enum "_HPCCOMMAND" "HPCCOMMAND"
    [ ("HpcCh1CounterRead", Some 0x10);
      ("HpcCh1CounterWrite", Some 0x90);
      ("HpcCh1CounterModeRead", Some 0x11);
      ("HpcCh1CounterModeWrite", Some 0x91);
      ("HpcCh1TriggerRegionLowerDataRead", Some 0x12);
      ("HpcCh1TriggerRegionLowerDataWrite", Some 0x92);
      ("HpcCh1TriggerRegionUpperDataRead", Some 0x13);
      ("HpcCh1TriggerRegionUpperDataWrite", Some 0x93);
      ("HpcCh1TriggerPeriodRead", Some 0x14);
      ("HpcCh1TriggerPeriodWrite", Some 0x94);
      ("HpcCh1TriggerPulseWidthRead", Some 0x15);
      ("HpcCh1TriggerPulseWidthWrite", Some 0x95);
      ("HpcCh1TriggerModeRead", Some 0x16);
      ("HpcCh1TriggerModeWrite", Some 0x96);
      ("HpcCh1TriggerStatusRead", Some 0x17);
      ("HpcCh1NoOperation_97", Some 0x97);
      ("HpcCh1NoOperation_18", Some 0x17);
      ("HpcCh1TriggerEnable", Some 0x98);
      ("HpcCh1NoOperation_19", Some 0x19);
      ("HpcCh1TriggerDisable", Some 0x99);
      ("HpcCh1TimeTriggerFrequencyRead", Some 0x1A);
      ("HpcCh1TimeTriggerFrequencyWrite", Some 0x9A);
      ("HpcCh1Comparator1ValueRead", Some 0x1B);
      ("HpcCh1Comparator1ValueWrite", Some 0x9B);
      ("HpcCh1Comparator2ValueRead", Some 0x1C);
      ("HpcCh1Comparator2ValueWrite", Some 0x9C);
      ("HpcCh1CompareatorConditionRead", Some 0x1D);
      ("HpcCh1CompareatorConditionWrite", Some 0x9D);
      ("HpcCh1AbsTriggerTopPositionRead", Some 0x1E);
      ("HpcCh1AbsTriggerPositionWrite", Some 0x9E);
      ("HpcCh1AbsTriggerFifoStatusRead", Some 0x1F);
      ("HpcCh1AbsTriggerPositionClear", Some 0x9F);
      ("HpcCh2CounterRead", Some 0x20);
      ("HpcCh2CounterWrite", Some 0xA0);
      ("HpcCh2CounterModeRead", Some 0x21);
      ("HpcCh2CounterModeWrite", Some 0xA1);
      ("HpcCh2TriggerRegionLowerDataRead", Some 0x22);
      ("HpcCh2TriggerRegionLowerDataWrite", Some 0xA2);
      ("HpcCh2TriggerRegionUpperDataRead", Some 0x23);
      ("HpcCh2TriggerRegionUpperDataWrite", Some 0xA3);
      ("HpcCh2TriggerPeriodRead", Some 0x24);
      ("HpcCh2TriggerPeriodWrite", Some 0xA4);
      ("HpcCh2TriggerPulseWidthRead", Some 0x25);
      ("HpcCh2TriggerPulseWidthWrite", Some 0xA5);
      ("HpcCh2TriggerModeRead", Some 0x26);
      ("HpcCh2TriggerModeWrite", Some 0xA6);
      ("HpcCh2TriggerStatusRead", Some 0x27);
      ("HpcCh2NoOperation_97", Some 0xA7);
      ("HpcCh2NoOperation_18", Some 0x27);
      ("HpcCh2TriggerEnable", Some 0xA8);
      ("HpcCh2NoOperation_19", Some 0x29);
      ("HpcCh2TriggerDisable", Some 0xA9);
      ("HpcCh2TimeTriggerFrequencyRead", Some 0x2A);
      ("HpcCh2TimeTriggerFrequencyWrite", Some 0xAA);
      ("HpcCh2Comparator1ValueRead", Some 0x2B);
      ("HpcCh2Comparator1ValueWrite", Some 0xAB);
      ("HpcCh2Comparator2ValueRead", Some 0x2C);
      ("HpcCh2Comparator2ValueWrite", Some 0xAC);
      ("HpcCh2CompareatorConditionRead", Some 0x2D);
      ("HpcCh2CompareatorConditionWrite", Some 0xAD);
      ("HpcCh2AbsTriggerTopPositionRead", Some 0x2E);
      ("HpcCh2AbsTriggerPositionWrite", Some 0xAE);
      ("HpcCh2AbsTriggerFifoStatusRead", Some 0x2F);
      ("HpcCh2AbsTriggerPositionClear", Some 0xAF);
      ("HpcCh3CounterRead", Some 0x30);
      ("HpcCh3CounterWrite", Some 0xB0);
      ("HpcCh3CounterModeRead", Some 0x31);
      ("HpcCh3CounterModeWrite", Some 0xB1);
      ("HpcCh3TriggerRegionLowerDataRead", Some 0x32);
      ("HpcCh3TriggerRegionLowerDataWrite", Some 0xB2);
      ("HpcCh3TriggerRegionUpperDataRead", Some 0x33);
      ("HpcCh3TriggerRegionUpperDataWrite", Some 0xB3);
      ("HpcCh3TriggerPeriodRead", Some 0x34);
      ("HpcCh3TriggerPeriodWrite", Some 0xB4);
      ("HpcCh3TriggerPulseWidthRead", Some 0x35);
      ("HpcCh3TriggerPulseWidthWrite", Some 0xB5);
      ("HpcCh3TriggerModeRead", Some 0x36);
      ("HpcCh3TriggerModeWrite", Some 0xB6);
      ("HpcCh3TriggerStatusRead", Some 0x37);
      ("HpcCh3NoOperation_97", Some 0xB7);
      ("HpcCh3NoOperation_18", Some 0x37);
      ("HpcCh3TriggerEnable", Some 0xB8);
      ("HpcCh3NoOperation_19", Some 0x39);
      ("HpcCh3TriggerDisable", Some 0xB9);
      ("HpcCh3TimeTriggerFrequencyRead", Some 0x3A);
      ("HpcCh3TimeTriggerFrequencyWrite", Some 0xBA);
      ("HpcCh3Comparator1ValueRead", Some 0x3B);
      ("HpcCh3Comparator1ValueWrite", Some 0xBB);
      ("HpcCh3Comparator2ValueRead", Some 0x3C);
      ("HpcCh3Comparator2ValueWrite", Some 0xBC);
      ("HpcCh3CompareatorConditionRead", Some 0x3D);
      ("HpcCh3CompareatorConditionWrite", Some 0xBD);
      ("HpcCh3AbsTriggerTopPositionRead", Some 0x3E);
      ("HpcCh3AbsTriggerPositionWrite", Some 0xBE);
      ("HpcCh3AbsTriggerFifoStatusRead", Some 0x3F);
      ("HpcCh3AbsTriggerPositionClear", Some 0xBF);
      ("HpcCh4CounterRead", Some 0x40);
      ("HpcCh4CounterWrite", Some 0xC0);
      ("HpcCh4CounterModeRead", Some 0x41);
      ("HpcCh4CounterModeWrite", Some 0xC1);
      ("HpcCh4TriggerRegionLowerDataRead", Some 0x42);
      ("HpcCh4TriggerRegionLowerDataWrite", Some 0xC2);
      ("HpcCh4TriggerRegionUpperDataRead", Some 0x43);
      ("HpcCh4TriggerRegionUpperDataWrite", Some 0xC3);
      ("HpcCh4TriggerPeriodRead", Some 0x44);
      ("HpcCh4TriggerPeriodWrite", Some 0xC4);
      ("HpcCh4TriggerPulseWidthRead", Some 0x45);
      ("HpcCh4TriggerPulseWidthWrite", Some 0xC5);
      ("HpcCh4TriggerModeRead", Some 0x46);
      ("HpcCh4TriggerModeWrite", Some 0xC6);
      ("HpcCh4TriggerStatusRead", Some 0x47);
      ("HpcCh4NoOperation_97", Some 0xC7);
      ("HpcCh4NoOperation_18", Some 0x47);
      ("HpcCh4TriggerEnable", Some 0xC8);
      ("HpcCh4NoOperation_19", Some 0x49);
      ("HpcCh4TriggerDisable", Some 0xC9);
      ("HpcCh4TimeTriggerFrequencyRead", Some 0x4A);
      ("HpcCh4TimeTriggerFrequencyWrite", Some 0xCA);
      ("HpcCh4Comparator1ValueRead", Some 0x4B);
      ("HpcCh4Comparator1ValueWrite", Some 0xCB);
      ("HpcCh4Comparator2ValueRead", Some 0x4C);
      ("HpcCh4Comparator2ValueWrite", Some 0xCC);
      ("HpcCh4CompareatorConditionRead", Some 0x4D);
      ("HpcCh4CompareatorConditionWrite", Some 0xCD);
      ("HpcCh4AbsTriggerTopPositionRead", Some 0x4E);
      ("HpcCh4AbsTriggerPositionWrite", Some 0xCE);
      ("HpcCh4AbsTriggerFifoStatusRead", Some 0x4F);
      ("HpcCh4AbsTriggerPositionClear", Some 0xCF);
      ("HpcRamDataWithRamAddress", Some 0x51);
      ("HpcRamDataWrite", Some 0xD0);
      ("HpcRamDataRead", Some 0x50);
      ("HpcCh1TrigPosIndexRead", Some 0x60);
      ("HpcCh1TrigBackwardDataRead", Some 0x61);
      ("HpcCh1TrigCurrentDataRead", Some 0x62);
      ("HpcCh1TrigForwardDataRead", Some 0x63);
      ("HpcCh1TrigRamAddressRead", Some 0x64);
      ("HpcCh2TrigPosIndexRead", Some 0x65);
      ("HpcCh2TrigBackwardDataRead", Some 0x66);
      ("HpcCh2TrigCurrentDataRead", Some 0x67);
      ("HpcCh2TrigForwardDataRead", Some 0x68);
      ("HpcCh2TrigRamAddressRead", Some 0x69);
      ("HpcCh3TrigPosIndexRead", Some 0x70);
      ("HpcCh3TrigBackwardDataRead", Some 0x71);
      ("HpcCh3TrigCurrentDataRead", Some 0x72);
      ("HpcCh3TrigForwardDataRead", Some 0x73);
      ("HpcCh3TrigRamAddressRead", Some 0x74);
      ("HpcCh4TrigPosIndexRead", Some 0x75);
      ("HpcCh4TrigBackwardDataRead", Some 0x76);
      ("HpcCh4TrigCurrentDataRead", Some 0x77);
      ("HpcCh4TrigForwardDataRead", Some 0x78);
      ("HpcCh4TrigRamAddressRead", Some 0x79);
      ("HpcCh1TestEnable", Some 0x81);
      ("HpcCh2TestEnable", Some 0x82);
      ("HpcCh3TestEnable", Some 0x83);
      ("HpcCh4TestEnable", Some 0x84);
      ("HpcTestFrequency", Some 0x8C);
      ("HpcTestCountStart", Some 0x8D);
      ("HpcTestCountEnd", Some 0x8E);
      ("HpcCh1TrigVectorTopDataOfFifo", Some 0x54);
      ("HpcCh1TrigVectorFifoStatus", Some 0x55);
      ("HpcCh2TrigVectorTopDataOfFifo", Some 0x56);
      ("HpcCh2TrigVectorFifoStatus", Some 0x57);
      ("HpcCh1TrigVectorFifoPush", Some 0xD2);
      ("HpcCh2TrigVectorFifoPush", Some 0xD3);
      ("HpcCh1MaskingTime", Some 0xF8);
      ("HpcCh2MaskingTime", Some 0xF9) ].

(** AXHS.h, lines 2249-2256. *)
Definition HPC30PORT_DATA_WRITE : enum_decl :=
  Enum "_HPC30PORT_DATA_WRITE" "HPC30PORT_DATA_WRITE"
    [ ("Hpc30Reset", Some 0x06);
      ("Hpc30Command", Some 0x10);
      ("Hpc30Data12", Some 0x12);
      ("Hpc30Data34", Some 0x14);
      ("Hpc30CmStatus", Some 0x1C) ].

(** AXHS.h, lines 2258-2268. *)
Definition HPC30PORT_CH_STAUTS : enum_decl :=
  Enum "_HPC30PORT_CH_STAUTS" "HPC30PORT_CH_STAUTS"
    [ ("Hpc30Ch1Mech", Some 0x20);
      ("Hpc30Ch1Status", Some 0x22);
      ("Hpc30Ch2Mech", Some 0x30);
      ("Hpc30Ch2Status", Some 0x32);
      ("Hpc30Ch3Mech", Some 0x40);
      ("Hpc30Ch3Status", Some 0x42);
      ("Hpc30Ch4Mech", Some 0x50);
      ("Hpc30Ch4Status", Some 0x52) ].

(** AXHS.h, lines 2270-2279. *)
Definition HPC30PORT_ETC : enum_decl :=
  Enum "_HPC30PORT_ETC" "HPC30PORT_ETC"
    [ ("Hpc30DiIntFlag", Some 0x60);
      ("Hpc30DiIntRiseMask", Some 0x62);
      ("Hpc30DiIntFallMask", Some 0x64);
      ("Hpc30CompIntFlag", Some 0x66);
      ("Hpc30CompIntMask", Some 0x68);
      ("Hpc30DinData", Some 0x6A);
      ("Hpc30DoutData", Some 0x6C) ].

(** AXHS.h, lines 2282-2286. *)
Definition HPC30RAM_DATA : enum_decl :=
  Enum "_HPC30RAM_DATA" "HPC30RAM_DATA"
    [ ("Hpc30RamAddr1", Some 0x70);
      ("Hpc30RamAddr2", Some 0x72) ].

(** AXHS.h, lines 2289-2490. *)
Definition HPC30COMMAND : enum_decl :=
  Enum "_HPC30COMMAND" "HPC30COMMAND"
    [ ("Hpc30Ch1CounterRead", Some 0x00);
      ("Hpc30Ch1CounterWrite", Some 0x80);
      ("Hpc30Ch1CounterModeRead", Some 0x01);
      ("Hpc30Ch1CounterModeWrite", Some 0x81);
      ("Hpc30Table1FifoDataXRead", Some 0x02);
      ("Hpc30Table1FifoDataClear", Some 0x82);
      ("Hpc30Table1FifoDataYRead", Some 0x03);
      ("Hpc30Table1HoldTimeWrite", Some 0x83);
      ("Hpc30Table1FifoStatusRead", Some 0x04);
      ("Hpc30Table1OutputCountRead", Some 0x05);
      ("Hpc30Table1OutputCountClear", Some 0x85);
      ("Hpc30Table1FifoDatauXRead", Some 0x06);
      ("Hpc30Table1FifoDatauXWrite", Some 0x86);
      ("Hpc30Table1FifoDatauYRead", Some 0x07);
      ("Hpc30Table1FifoDatauYWrite", Some 0x87);
      ("Hpc30Table1FifoStatusuXuYRead", Some 0x08);
      ("Hpc30Table1FifoDataExeXRead", Some 0x09);
      ("Hpc30Table1FifoDataExeYRead", Some 0x0A);
      ("Hpc30Table1FifoStatusExeXYRead", Some 0x0B);
      ("Hpc30Table1FifoPopExeXY", Some 0x0C);
      ("Hpc30Table1HoldTimeRead", Some 0x0D);
      ("Hpc30Table1ActiveLevelRead", Some 0x10);
      ("Hpc30Table1ActiveLevelWrite", Some 0x90);
      ("Hpc30Table1PulseWidthRead", Some 0x11);
      ("Hpc30Table1PulseWidthWrite", Some 0x91);
      ("Hpc30Table1EncoderInputChannelRead", Some 0x12);
      ("Hpc30Table1EncoderInputChannelWrite", Some 0x92);
      ("Hpc30Table1ErrorRangeRead", Some 0x13);
      ("Hpc30Table1ErrorRangeWrite", Some 0x93);
      ("Hpc30Table1OutPortRead", Some 0x14);
      ("Hpc30Table1OutPortWrite", Some 0x94);
      ("Hpc30Table1PatternTimeRead", Some 0x15);
      ("Hpc30Table1PatternTimeWrite", Some 0x95);
      ("Hpc30Table1PatternCountRead", Some 0x16);
      ("Hpc30Table1PatternCountWrite", Some 0x96);
      ("Hpc30Table1TriggerModeRead", Some 0x17);
      ("Hpc30Table1TriggerModeWrite", Some 0x97);
      ("Hpc30Table1CaptureTimeRead", Some 0x18);
      ("Hpc30Table1CaptureTimeWrite", Some 0x98);
      ("Hpc30Table1OneShot", Some 0x99);
      ("Hpc30Table1GetEnable", Some 0x1A);
      ("Hpc30Table1Enable", Some 0x9A);
      ("Hpc30Table1Disable", Some 0x9B);
      ("Hpc30Table1FifoDataXWrite", Some 0x9C);
      ("Hpc30Table1FifoDataYWrite", Some 0x9D);
      ("Hpc30Table1FifoRepeatTimeRead", Some 0x1E);
      ("Hpc30Table1FifoRepeatTimeWrite", Some 0x9E);
      ("Hpc30Table1FifoRepeatCountRead", Some 0x1F);
      ("Hpc30Table1FifoRepeatCountWrite", Some 0x9F);
      ("Hpc30Ch2CounterRead", Some 0x20);
      ("Hpc30Ch2CounterWrite", Some 0xA0);
      ("Hpc30Ch2CounterModeRead", Some 0x21);
      ("Hpc30Ch2CounterModeWrite", Some 0xA1);
      ("Hpc30Table2FifoDataXRead", Some 0x22);
      ("Hpc30Table2FifoDataClear", Some 0xA2);
      ("Hpc30Table2FifoDataYRead", Some 0x23);
      ("Hpc30Table2HoldTimeWrite", Some 0xA3);
      ("Hpc30Table2FifoStatusRead", Some 0x24);
      ("Hpc30Table2OutputCountRead", Some 0x25);
      ("Hpc30Table2OutputCountClear", Some 0xA5);
      ("Hpc30Table2FifoDatauXRead", Some 0x26);
      ("Hpc30Table2FifoDatauXWrite", Some 0xA6);
      ("Hpc30Table2FifoDatauYRead", Some 0x27);
      ("Hpc30Table2FifoDatauYWrite", Some 0xA7);
      ("Hpc30Table2FifoStatusuXuYRead", Some 0x28);
      ("Hpc30Table2FifoDataExeXRead", Some 0x29);
      ("Hpc30Table2FifoDataExeYRead", Some 0x2A);
      ("Hpc30Table2FifoStatusExeXYRead", Some 0x2B);
      ("Hpc30Table2FifoPopExeXY", Some 0x2C);
      ("Hpc30Table2HoldTimeRead", Some 0x2D);
      ("Hpc30Table2ActiveLevelRead", Some 0x30);
      ("Hpc30Table2ActiveLevelWrite", Some 0xB0);
      ("Hpc30Table2PulseWidthRead", Some 0x31);
      ("Hpc30Table2PulseWidthWrite", Some 0xB1);
      ("Hpc30Table2EncoderInputChannelRead", Some 0x32);
      ("Hpc30Table2EncoderInputChannelWrite", Some 0xB2);
      ("Hpc30Table2ErrorRangeRead", Some 0x33);
      ("Hpc30Table2ErrorRangeWrite", Some 0xB3);
      ("Hpc30Table2OutPortRead", Some 0x34);
      ("Hpc30Table2OutPortWrite", Some 0xB4);
      ("Hpc30Table2PatternTimeRead", Some 0x35);
      ("Hpc30Table2PatternTimeWrite", Some 0xB5);
      ("Hpc30Table2PatternCountRead", Some 0x36);
      ("Hpc30Table2PatternCountWrite", Some 0xB6);
      ("Hpc30Table2TriggerModeRead", Some 0x37);
      ("Hpc30Table2TriggerModeWrite", Some 0xB7);
      ("Hpc30Table2CaptureTimeRead", Some 0x38);
      ("Hpc30Table2CaptureTimeWrite", Some 0xB8);
      ("Hpc30Table2GetEnable", Some 0x3A);
      ("Hpc30Table2OneShot", Some 0xB9);
      ("Hpc30Table2Enable", Some 0xBA);
      ("Hpc30Table2Disable", Some 0xBB);
      ("Hpc30Table2FifoDataXWrite", Some 0xBC);
      ("Hpc30Table2FifoDataYWrite", Some 0xBD);
      ("Hpc30Table2FifoRepeatTimeRead", Some 0x3E);
      ("Hpc30Table2FifoRepeatTimeWrite", Some 0xBE);
      ("Hpc30Table2FifoRepeatCountRead", Some 0x3F);
      ("Hpc30Table2FifoRepeatCountWrite", Some 0xBF);
      ("Hpc30Ch3CounterRead", Some 0x40);
      ("Hpc30Ch3CounterWrite", Some 0xC0);
      ("Hpc30Ch3CounterModeRead", Some 0x41);
      ("Hpc30Ch3CounterModeWrite", Some 0xC1);
      ("Hpc30Table3FifoDataXRead", Some 0x42);
      ("Hpc30Table3FifoDataClear", Some 0xC2);
      ("Hpc30Table3FifoDataYRead", Some 0x43);
      ("Hpc30Table3HoldTimeWrite", Some 0xC3);
      ("Hpc30Table3FifoStatusRead", Some 0x44);
      ("Hpc30Table3OutputCountRead", Some 0x45);
      ("Hpc30Table3OutputCountClear", Some 0xC5);
      ("Hpc30Table3FifoDatauXRead", Some 0x46);
      ("Hpc30Table3FifoDatauXWrite", Some 0xC6);
      ("Hpc30Table3FifoDatauYRead", Some 0x47);
      ("Hpc30Table3FifoDatauYWrite", Some 0xC7);
      ("Hpc30Table3FifoStatusuXuYRead", Some 0x48);
      ("Hpc30Table3FifoDataExeXRead", Some 0x49);
      ("Hpc30Table3FifoDataExeYRead", Some 0x4A);
      ("Hpc30Table3FifoStatusExeXYRead", Some 0x4B);
      ("Hpc30Table3FifoPopExeXY", Some 0x4C);
      ("Hpc30Table3HoldTimeRead", Some 0x4D);
      ("Hpc30Table3ActiveLevelRead", Some 0x50);
      ("Hpc30Table3ActiveLevelWrite", Some 0xD0);
      ("Hpc30Table3PulseWidthRead", Some 0x51);
      ("Hpc30Table3PulseWidthWrite", Some 0xD1);
      ("Hpc30Table3EncoderInputChannelRead", Some 0x52);
      ("Hpc30Table3EncoderInputChannelWrite", Some 0xD2);
      ("Hpc30Table3ErrorRangeRead", Some 0x53);
      ("Hpc30Table3ErrorRangeWrite", Some 0xD3);
      ("Hpc30Table3OutPortRead", Some 0x54);
      ("Hpc30Table3OutPortWrite", Some 0xD4);
      ("Hpc30Table3PatternTimeRead", Some 0x55);
      ("Hpc30Table3PatternTimeWrite", Some 0xD5);
      ("Hpc30Table3PatternCountRead", Some 0x56);
      ("Hpc30Table3PatternCountWrite", Some 0xD6);
      ("Hpc30Table3TriggerModeRead", Some 0x57);
      ("Hpc30Table3TriggerModeWrite", Some 0xD7);
      ("Hpc30Table3CaptureTimeRead", Some 0x58);
      ("Hpc30Table3CaptureTimeWrite", Some 0xD8);
      ("Hpc30Table3OneShot", Some 0xD9);
      ("Hpc30Table3GetEnable", Some 0x5A);
      ("Hpc30Table3Enable", Some 0xDA);
      ("Hpc30Table3Disable", Some 0xDB);
      ("Hpc30Table3FifoDataXWrite", Some 0xDC);
      ("Hpc30Table3FifoDataYWrite", Some 0xDD);
      ("Hpc30Table3FifoRepeatTimeRead", Some 0x5E);
      ("Hpc30Table3FifoRepeatTimeWrite", Some 0xDE);
      ("Hpc30Table3FifoRepeatCountRead", Some 0x5F);
      ("Hpc30Table3FifoRepeatCountWrite", Some 0xDF);
      ("Hpc30Ch4CounterRead", Some 0x60);
      ("Hpc30Ch4CounterWrite", Some 0xE0);
      ("Hpc30Ch4CounterModeRead", Some 0x61);
      ("Hpc30Ch4CounterModeWrite", Some 0xE1);
      ("Hpc30Table4FifoDataXRead", Some 0x62);
      ("Hpc30Table4FifoDataClear", Some 0xE2);
      ("Hpc30Table4FifoDataYRead", Some 0x63);
      ("Hpc30Table4HoldTimeWrite", Some 0xE3);
      ("Hpc30Table4FifoStatusRead", Some 0x64);
      ("Hpc30Table4OutputCountRead", Some 0x65);
      ("Hpc30Table4OutputCountClear", Some 0xE5);
      ("Hpc30Table4FifoDatauXRead", Some 0x66);
      ("Hpc30Table4FifoDatauXWrite", Some 0xE6);
      ("Hpc30Table4FifoDatauYRead", Some 0x67);
      ("Hpc30Table4FifoDatauYWrite", Some 0xE7);
      ("Hpc30Table4FifoStatusuXuYRead", Some 0x68);
      ("Hpc30Table4FifoDataExeXRead", Some 0x69);
      ("Hpc30Table4FifoDataExeYRead", Some 0x6A);
      ("Hpc30Table4FifoStatusExeXYRead", Some 0x6B);
      ("Hpc30Table4FifoPopExeXY", Some 0x6C);
      ("Hpc30Table4HoldTimeRead", Some 0x6D);
      ("Hpc30Table4ActiveLevelRead", Some 0x70);
      ("Hpc30Table4ActiveLevelWrite", Some 0xF0);
      ("Hpc30Table4PulseWidthRead", Some 0x71);
      ("Hpc30Table4PulseWidthWrite", Some 0xF1);
      ("Hpc30Table4EncoderInputChannelRead", Some 0x72);
      ("Hpc30Table4EncoderInputChannelWrite", Some 0xF2);
      ("Hpc30Table4ErrorRangeRead", Some 0x73);
      ("Hpc30Table4ErrorRangeWrite", Some 0xF3);
      ("Hpc30Table4OutPortRead", Some 0x74);
      ("Hpc30Table4OutPortWrite", Some 0xF4);
      ("Hpc30Table4PatternTimeRead", Some 0x75);
      ("Hpc30Table4PatternTimeWrite", Some 0xF5);
      ("Hpc30Table4PatternCountRead", Some 0x76);
      ("Hpc30Table4PatternCountWrite", Some 0xF6);
      ("Hpc30Table4TriggerModeRead", Some 0x77);
      ("Hpc30Table4TriggerModeWrite", Some 0xF7);
      ("Hpc30Table4CaptureTimeRead", Some 0x78);
      ("Hpc30Table4CaptureTimeWrite", Some 0xF8);
      ("Hpc30Table4OneShot", Some 0xF9);
      ("Hpc30Table4GetEnable", Some 0x7A);
      ("Hpc30Table4Enable", Some 0xFA);
      ("Hpc30Table4Disable", Some 0xFB);
      ("Hpc30Table4FifoDataXWrite", Some 0xFC);
      ("Hpc30Table4FifoDataYWrite", Some 0xFD);
      ("Hpc30Table4FifoRepeatTimeRead", Some 0x7E);
      ("Hpc30Table4FifoRepeatTimeWrite", Some 0xFE);
      ("Hpc30Table4FifoRepeatCountRead", Some 0x7F);
      ("Hpc30Table4FifoRepeatCountWrite", Some 0xFF) ].

(** AXHS.h, lines 2495-2502. *)
Definition LCM10PORT_DATA_WRITE : enum_decl :=
  Enum "_LCM10PORT_DATA_WRITE" "LCM10PORT_DATA_WRITE"
    [ ("Lcm10Reset", Some 0x06);
      ("Lcm10Command", Some 0x10);
      ("Lcm10Data12", Some 0x12);
      ("Lcm10Data34", Some 0x14);
      ("Lcm10CmStatus", Some 0x1C) ].

(** AXHS.h, lines 2504-2514. *)
Definition LCM10PORT_CH_STAUTS : enum_decl :=
  Enum "_LCM10PORT_CH_STAUTS" "LCM10PORT_CH_STAUTS"
    [ ("Lcm10Ch1Mech", Some 0x20);
      ("Lcm10Ch1Status", Some 0x22);
      ("Lcm10Ch2Mech", Some 0x30);
      ("Lcm10Ch2Status", Some 0x32);
      ("Lcm10Ch3Mech", Some 0x40);
      ("Lcm10Ch3Status", Some 0x42);
      ("Lcm10Ch4Mech", Some 0x50);
      ("Lcm10Ch4Status", Some 0x52) ].

(** AXHS.h, lines 2516-2525. *)
Definition LCM10PORT_ETC : enum_decl :=
  Enum "_LCM10PORT_ETC" "LCM10PORT_ETC"
    [ ("Lcm10DiIntFlag", Some 0x60);
      ("Lcm10DiIntRiseMask", Some 0x62);
      ("Lcm10DiIntFallMask", Some 0x64);
      ("Lcm10CompIntFlag", Some 0x66);
      ("Lcm10CompIntMask", Some 0x68);
      ("Lcm10DinData", Some 0x6A);
      ("Lcm10DoutData", Some 0x6C) ].

(** AXHS.h, lines 2528-2576. *)
Definition LCM10COMMAND : enum_decl :=
  Enum "_LCM10COMMAND" "LCM10COMMAND"
    [ ("Lcm10Ch1CounterRead", Some 0x00);
      ("Lcm10Ch1CounterClearWrite", Some 0xC5);
      ("Lcm10Ch1CounterModeWrite", Some 0x81);
      ("Lcm10Ch1CounterModeRead", Some 0x01);
      ("Lcm10Ch1FrequencyAddressWrite", Some 0x82);
      ("Lcm10Ch1DutaRatioAddressWrite", Some 0x83);
      ("Lcm10Ch1FrequencyWrite", Some 0x84);
      ("Lcm10Ch1FrequencyRead", Some 0x08);
      ("Lcm10Ch1DutyRatioWrite", Some 0x85);
      ("Lcm10Ch1DutyRatioRead", Some 0x09);
      ("Lcm10Ch1ManualFrequencyWrite", Some 0x86);
      ("Lcm10Ch1ManualFrequencyRead", Some 0x0C);
      ("Lcm10Ch1ManualDutyRatioWrite", Some 0x87);
      ("Lcm10Ch1ManualDutyRatioRead", Some 0x0D);
      ("Lcm10Ch1PulseWidthWrite", Some 0xC7);
      ("Lcm10Ch1PulseWidthRead", Some 0x4B);
      ("Lcm10Ch1ManualPulseWidthWrite", Some 0xC8);
      ("Lcm10Ch1ManualPulseWidthRead", Some 0x4C);
      ("Lcm10Ch1PWMOutModeWrite", Some 0x88);
      ("Lcm10Ch1PWMOutModeRead", Some 0x06);
      ("Lcm10Ch1PWMRamDataClearWrite", Some 0x89);
      ("Lcm10Ch1PWMEnableWrite", Some 0x8A);
      ("Lcm10Ch1PWMEnableRead", Some 0x07);
      ("Lcm10Ch1MaxVelWrite", Some 0x8C);
      ("Lcm10Ch1MaxVelRead", Some 0x04);
      ("Lcm10Ch1MinVelWrite", Some 0xC6);
      ("Lcm10Ch1MinVelRead", Some 0x4A);
      ("Lcm10Ch1PWMPulseControlModeWrite", Some 0xC9);
      ("Lcm10Ch1PWMPulseControlModeRead", Some 0x4D);
      ("Lcm10Ch1PWMVelIntervalWrite", Some 0x8D);
      ("Lcm10Ch1PWMVelIntervalRead", Some 0x49);
      ("Lcm10Ch1RamWriteEnableWrite", Some 0xC2);
      ("Lcm10Ch1RamWriteEnableRead", Some 0x44);
      ("Lcm10Ch1RamWriteDoneRead", Some 0x0E);
      ("Lcm10Ch1ActualVelocityRead", Some 0x45);
      ("Lcm10RamAddressDataCheckWrite", Some 0xC0);
      ("Lcm10RamDataCheckWrite", Some 0xC1);
      ("Lm10Ch1OperationModeWrite", Some 0xC3);
      ("Lm10Ch1OperationModeRead", Some 0x40) ].

(** AXHS.h, lines 2582-2587. *)
Definition AXT_COUNTER_HPC4_TRRIGER_MODE : enum_decl :=
  Enum "_AXT_COUNTER_HPC4_TRRIGER_MODE" "AXT_COUNTER_HPC4_TRRIGER_MODE"
    [ ("HPC4_RANGE_TRIGGER", Some 0);
      ("HPC4_VECTOR_TRIGGER", Some 1);
      ("HPC4_PATTERN_TRIGGER", Some 3) ].

(** The two enumerations already recorded above, in the same form. *)
Definition AXT_FUNC_RESULT : enum_decl :=
  Enum "_AXT_FUNC_RESULT" "AXT_FUNC_RESULT" (explicit AXHS.AXT_FUNC_RESULT).

Definition AXT_MOTION_FUNC_RETURN_MODE : enum_decl :=
  Enum "_AXT_MOTION_FUNC_RETURN_MODE" "AXT_MOTION_FUNC_RETURN_MODE"
    (explicit AXHS.AXT_MOTION_FUNC_RETURN_MODE).

(** Every enumeration of the header, in file order. *)
Definition enums : list enum_decl :=
  [ AXT_BASE_BOARD; AXT_FUNC_MODULE; AXT_FUNC_RESULT; AXT_LOG_LEVEL; AXT_EXISTENCE;
    AXT_USE; AXT_AIO_TRIGGER_MODE; AXT_AIO_FULL_MODE; AXT_AIO_EVENT_MASK;
    AXT_AIO_INTERRUPT_MASK; AXT_AIO_EVENT_MODE; AXT_AIO_FIFO_STATUS;
    AXT_AIO_EXTERNAL_STATUS; AXT_DIO_EDGE; AXT_DIO_STATE; AXT_DIO_PORT_TYPE;
    AXT_MOTION_STOPMODE; AXT_MOTION_EDGE; AXT_MOTION_SELECTION; AXT_MOTION_TRIGGER_MODE;
    AXT_MOTION_LEVEL_MODE; AXT_MOTION_ABSREL_MODE; AXT_MOTION_ENCODER_TYPE;
    AXT_MOTION_PROFILE_MODE; AXT_MOTION_SIGNAL_LEVEL; AXT_MOTION_HOME_RESULT;
    AXT_MOTION_UNIV_INPUT; AXT_MOTION_UNIV_OUTPUT; AXT_MOTION_DETECT_DOWN_START_POINT;
    AXT_MOTION_PULSE_OUTPUT; AXT_MOTION_EXTERNAL_COUNTER_INPUT; AXT_MOTION_ACC_UNIT;
    AXT_MOTION_MOVE_DIR; AXT_MOTION_RADIUS_DISTANCE; AXT_MOTION_POS_TYPE;
    AXT_MOTION_INTERPOLATION_AXIS; AXT_MOTION_CONTISTART_NODE;
    AXT_MOTION_LINE_MOVE_VEL_MODE; AXT_MOTION_HOME_DETECT_SIGNAL;
    AXT_MOTION_HOME_INTERLOCK_MODE; AXT_MOTION_INPUT_FILTER_SIGNAL;
    AXT_MOTION_MPG_INPUT_METHOD; AXT_MOTION_SENSOR_INPUT_METHOD;
    AXT_MOTION_HOME_CRC_SELECT; AXT_MOTION_IPDETECT_DESTINATION_SIGNAL;
    AXT_MOTION_IPEND_STATUS; AXT_MOTION_IPDRIVE_STATUS; AXT_MOTION_IPINTERRUPT_BANK1;
    AXT_MOTION_IPINTERRUPT_BANK2; AXT_MOTION_IPMECHANICAL_SIGNAL;
    AXT_MOTION_QIDETECT_DESTINATION_SIGNAL; AXT_MOTION_QIMECHANICAL_SIGNAL;
    AXT_MOTION_QIEND_STATUS; AXT_MOTION_QIDRIVE_STATUS; AXT_MOTION_QIINTERRUPT_BANK1;
    AXT_MOTION_QIINTERRUPT_BANK2; AXT_NETWORK_STATUS; AXT_MOTION_OVERRIDE_MODE;
    AXT_MOTION_PROFILE_PRIORITY; AXT_MOTION_FUNC_RETURN_MODE; AXT_MOTION_BACKLASH_DIR;
    unnamed_enum_COM_CONNECT; MONITOR_SELECT_INFORMATION; CNTPORT_DATA; CNTRAM_DATA;
    PHASE_SEL; COUNTER_INPUT; CNTCOMMAND; AXT_MOTION_JOINT_MODE;
    AXT_MOTION_COMPENSATION_USE_REVERSE; AXT_MOTION_COMPENSATION_INTERPOLATION_METHOD;
    MonitorSignalType; MonitorOperationType; MonitorStartOption; MonitorOverflowOption;
    HPCPORT_DATA_WRITE; HPCPORT_CH_STAUTS; HPCPORT_ETC; HPCRAM_DATA; HPCCOMMAND;
    HPC30PORT_DATA_WRITE; HPC30PORT_CH_STAUTS; HPC30PORT_ETC; HPC30RAM_DATA;
    HPC30COMMAND; LCM10PORT_DATA_WRITE; LCM10PORT_CH_STAUTS; LCM10PORT_ETC; LCM10COMMAND;
    AXT_COUNTER_HPC4_TRRIGER_MODE ].

End AXHSEnum.

(** ** Status words and flag enumerations *)

Module Flags.

(** The first [n] single-bit masks, lowest bit first. *)
Definition pow2_flags (n : nat) : list Z := map (fun k => 2 ^ Z.of_nat k) (seq 0 n).

(** The flags of an enumeration: its values other than the "none" value 0. *)
Definition flags_of (e : enum_decl) : list Z :=
  filter (fun v => negb (v =? 0)) (map snd (enum_values e)).

(** The flags raised in a status word, and the word that raises a set of
    flags. *)
Definition decode (w : Z) (flags : list Z) : list Z :=
  filter (fun f => negb (Z.land w f =? 0)) flags.

Definition encode (l : list Z) : Z := fold_right Z.lor 0 l.

(** The end-status, drive-status, interrupt-bank, mechanical-signal and
    AIO event enumerations. *)
Definition flag_enums : list enum_decl :=
  [ AXHSEnum.AXT_AIO_EVENT_MASK;
    AXHSEnum.AXT_MOTION_IPEND_STATUS;
    AXHSEnum.AXT_MOTION_IPDRIVE_STATUS;
    AXHSEnum.AXT_MOTION_IPINTERRUPT_BANK1;
    AXHSEnum.AXT_MOTION_IPINTERRUPT_BANK2;
    AXHSEnum.AXT_MOTION_IPMECHANICAL_SIGNAL;
    AXHSEnum.AXT_MOTION_QIMECHANICAL_SIGNAL;
    AXHSEnum.AXT_MOTION_QIEND_STATUS;
    AXHSEnum.AXT_MOTION_QIDRIVE_STATUS;
    AXHSEnum.AXT_MOTION_QIINTERRUPT_BANK1;
    AXHSEnum.AXT_MOTION_QIINTERRUPT_BANK2 ].

Definition width (e : enum_decl) : nat := List.length (flags_of e).

End Flags.

(** ** Command tables of the counter modules *)

Module Command.

Definition command_enums : list enum_decl :=
  [ AXHSEnum.CNTCOMMAND; AXHSEnum.HPCCOMMAND; AXHSEnum.HPC30COMMAND; AXHSEnum.LCM10COMMAND ].

Definition is_read (name : string) : bool := ends_with "Read" name.
Definition is_write (name : string) : bool := ends_with "Write" name.

(** The code of the [...Write] command that belongs to a [...Read] one. *)
Definition write_of_read (e : enum_decl) (read_name : string) : option Z :=
  lookup (drop_last 4 read_name ++ "Write") (enum_values e).

(** The [...Read] commands of a table that have a [...Write] partner, with
    both codes. *)
Definition read_write_pairs (e : enum_decl) : list (string * Z * Z) :=
  flat_map
    (fun it =>
       if is_read (fst it) then
         match write_of_read e (fst it) with
         | Some w => [ (fst it, snd it, w) ]
         | None => []
         end
       else [])
    (enum_values e).

(** A register map with the family prefix ([Hpc], [Hpc30], [Lcm10]) taken
    off the names. *)
Definition unprefixed (k : nat) (e : enum_decl) : list (string * Z) :=
  map (fun it => (drop_first k (fst it), snd it)) (enum_values e).

End Command.

(** ** Homing results *)

Module Home.

Definition is_error_name (name : string) : bool := starts_with "HOME_ERR_" name.

End Home.

(** ** Setters and their getters *)

Module Pairing.

Definition cexpr_eqb (a b : cexpr) : bool :=
  match a, b with
  | Elit x, Elit y => x =? y
  | Emacro x, Emacro y => String.eqb x y
  | _, _ => false
  end.

Definition callconv_eqb (a b : callconv) : bool :=
  match a, b with
  | Cdefault, Cdefault | Stdcall, Stdcall => true
  | _, _ => false
  end.

Fixpoint ctype_eqb (a b : ctype) : bool :=
  match a, b with
  | Tvoid, Tvoid | Tchar, Tchar | Tint, Tint | Tlong, Tlong
  | Tdouble, Tdouble | Tuchar, Tuchar | Tushort, Tushort | Tulong, Tulong => true
  | Tnamed x, Tnamed y => String.eqb x y
  | Tstruct x, Tstruct y => String.eqb x y
  | Tptr x, Tptr y => ctype_eqb x y
  | Tarray x n, Tarray y m => ctype_eqb x y && cexpr_eqb n m
  | Tfunction r c l, Tfunction r' c' l' =>
      ctype_eqb r r' && callconv_eqb c c' &&
      (fix all2 (l m : list ctype) : bool :=
         match l, m with
         | [], [] => true
         | x :: l0, y :: m0 => ctype_eqb x y && all2 l0 m0
         | _, _ => false
         end) l l'
  | _, _ => false
  end.

(** [replace_first a b s]: [s] with its first occurrence of [a] replaced by
    [b], if there is one. *)
Fixpoint replace_first (a b s : string) : option string :=
  if starts_with a s then Some (b ++ drop_first (String.length a) s)
  else
    match s with
    | EmptyString => None
    | String c r => option_map (String c) (replace_first a b r)
    end.

Definition getter_name (setter : string) : option string :=
  replace_first "Set" "Get" setter.

(** The pairs (setter, getter) of AXM.h: a prototype with [Set] in its name
    and the prototype named alike with [Get] in its place. *)
Definition set_get_pairs : list (prototype * prototype) :=
  flat_map
    (fun s =>
       match getter_name (f_name s) with
       | Some gn =>
           match find_proto gn AXM.AXM_prototypes with
           | Some g => [ (s, g) ]
           | None => []
           end
       | None => []
       end)
    AXM.AXM_prototypes.

(** A getter parameter mirrors a setter parameter when it has the same type
    (a selector, or an array passed by pointer either way) or is a pointer
    to it (the value read back). *)
Definition mirrors (a b : param) : bool :=
  ctype_eqb (p_type b) (p_type a) || ctype_eqb (p_type b) (Tptr (p_type a)).

Fixpoint forall2b {A B : Type} (r : A -> B -> bool) (l : list A) (m : list B) : bool :=
  match l, m with
  | [], [] => true
  | x :: l', y :: m' => r x y && forall2b r l' m'
  | _, _ => false
  end.

(** A type with its type names replaced by what they stand for, as far as
    the header defines them. *)
Fixpoint canon (fuel : nat) (t : ctype) : ctype :=
  match fuel with
  | O => t
  | S k =>
      match t with
      | Tnamed n =>
          match lookup n AXHS.typedefs with
          | Some u => canon k u
          | None => t
          end
      | Tptr u => Tptr (canon k u)
      | Tarray u len => Tarray (canon k u) len
      | Tfunction r c l => Tfunction (canon k r) c (map (canon k) l)
      | _ => t
      end
  end.

(** The types in which AXM.h passes parameters, type names resolved. *)
Definition abi_types : list ctype :=
  [ Tlong; Tdouble; Tulong; Tushort; Tuchar;
    Tptr Tlong; Tptr Tdouble; Tptr Tulong; Tptr Tushort; Tptr Tuchar;
    Tptr Tchar; Tptr Tvoid; Tptr (Tptr Tvoid);
    Tptr (Tstruct "_MOTION_INFO");
    Tptr (Tfunction Tvoid Stdcall [Tlong; Tulong]) ].

End Pairing.

(** ** Facts about lists used below *)

Lemma increasing_from_bounds (l : list Z) :
  forall lo, increasing_from lo l = true -> Forall (fun x => lo < x) l.
Proof.
  induction l as [|x r IH]; intros lo H; constructor.
  - simpl in H. apply andb_prop in H. destruct H as [H _].
    now apply Z.ltb_lt.
  - simpl in H. apply andb_prop in H. destruct H as [Hx Hr].
    apply Z.ltb_lt in Hx. apply IH in Hr.
    eapply Forall_impl; [|exact Hr]. intros y Hy. simpl in Hy. lia.
Qed.

Lemma increasing_from_NoDup (l : list Z) :
  forall lo, increasing_from lo l = true -> NoDup l.
Proof.
  induction l as [|x r IH]; intros lo H; constructor.
  - simpl in H. apply andb_prop in H. destruct H as [_ Hr].
    apply increasing_from_bounds in Hr. intro Hin.
    rewrite Forall_forall in Hr. specialize (Hr x Hin). lia.
  - simpl in H. apply andb_prop in H. destruct H as [_ Hr]. now apply IH in Hr.
Qed.

Lemma increasing_NoDup (l : list Z) : increasing l = true -> NoDup l.
Proof.
  destruct l as [|x r]; intro H; constructor.
  - apply increasing_from_bounds in H. intro Hin.
    rewrite Forall_forall in H. specialize (H x Hin). lia.
  - now apply increasing_from_NoDup in H.
Qed.

Lemma NoDup_map_Some (l : list Z) : NoDup l -> NoDup (map Some l).
Proof.
  induction 1 as [|x r Hx Hr IH]; simpl; constructor; [|exact IH].
  intro Hin. apply in_map_iff in Hin. destruct Hin as [y [Hy Hin]].
  inversion Hy; subst. contradiction.
Qed.


Lemma land_pow2_eqb (w k : Z) :
  0 <= k -> (Z.land w (2 ^ k) =? 0) = negb (Z.testbit w k).
Proof.
  intro Hk. destruct (Z.testbit w k) eqn:E; simpl.
  - apply Z.eqb_neq. intro H0.
    assert (Hb : Z.testbit (Z.land w (2 ^ k)) k = true)
      by (rewrite Z.land_spec, E, Z.pow2_bits_true; auto).
    rewrite H0, Z.testbit_0_l in Hb. discriminate.
  - apply Z.eqb_eq. apply Z.bits_inj'. intros i Hi.
    rewrite Z.land_spec, Z.testbit_0_l, Z.pow2_bits_eqb by exact Hk.
    destruct (Z.eqb_spec k i) as [->|Hne]; [now rewrite E|apply andb_false_r].
Qed.

Lemma name_of_unique (l : list (string * Z)) (n : string) (v : Z) :
  NoDup (map snd l) -> In (n, v) l ->
  option_map fst (find (fun e => snd e =? v) l) = Some n.
Proof.
  induction l as [|[m w] r IH]; intros Hnd Hin; [contradiction|].
  simpl in Hnd. inversion Hnd as [|x t Hx Hr]; subst.
  simpl. destruct Hin as [Heq|Hin].
  - inversion Heq; subst. now rewrite Z.eqb_refl.
  - destruct (Z.eqb_spec w v) as [->|Hne].
    + exfalso. apply Hx. change v with (snd (n, v)). now apply in_map.
    + now apply IH.
Qed.

Lemma result_code_scan (n : string) (v : Z) :
  In (n, v) AXHS.AXT_FUNC_RESULT ->
  (v = 0 <-> n = "AXT_RT_SUCCESS") /\ 0 <= v < 2 ^ 32.
Proof.
  intro Hin.
  assert (Hscan : forallb (fun e => Bool.eqb (snd e =? 0) (String.eqb (fst e) "AXT_RT_SUCCESS")
                                    && (0 <=? snd e) && (snd e <? 2 ^ 32))
                    AXHS.AXT_FUNC_RESULT = true) by (vm_compute; reflexivity).
  rewrite forallb_forall in Hscan. specialize (Hscan (n, v) Hin). simpl in Hscan.
  apply andb_prop in Hscan. destruct Hscan as [Hscan Hhi].
  apply andb_prop in Hscan. destruct Hscan as [Hiff Hlo].
  apply Bool.eqb_prop in Hiff. apply Z.leb_le in Hlo. apply Z.ltb_lt in Hhi.
  split; [|lia].
  rewrite <- Z.eqb_eq, <- String.eqb_eq, Hiff. reflexivity.
Qed.

Lemma failure_codes_unfold :
  ResultCode.failure_codes =
  filter (fun e => negb (ResultCode.is_success e)) AXHS.AXT_FUNC_RESULT.
Proof. unfold ResultCode.failure_codes. reflexivity. Qed.

Lemma failure_code_In (name : string) (v : Z) :
  In (name, v) ResultCode.failure_codes ->
  In (name, v) AXHS.AXT_FUNC_RESULT /\ name <> "AXT_RT_SUCCESS".
Proof.
  rewrite failure_codes_unfold. intro H. apply filter_In in H.
  destruct H as [Hin Hns]. split; [exact Hin|].
  unfold ResultCode.is_success in Hns. simpl in Hns.
  apply negb_true_iff in Hns. now apply String.eqb_neq.
Qed.

Lemma success_is_a_code : In ("AXT_RT_SUCCESS", 0) AXHS.AXT_FUNC_RESULT.
Proof. left. reflexivity. Qed.



Ltac conj_compute :=
  repeat match goal with |- _ /\ _ => split end;
  try match goal with |- _ = _ => vm_compute; reflexivity end.

(** ** The ABI surface *)

(** C1. Every prototype of AXM.h sits inside the header's [extern "C"]
    block, is named [Axm...], is declared [__stdcall] and returns [DWORD]
    (an [unsigned long int]); and the result enumeration [AXT_FUNC_RESULT]
    gives success the value 0.  The status a call returns under the
    documented contract is a value of that enumeration: it stands for
    exactly one enumerator, is 0 exactly when that enumerator is
    [AXT_RT_SUCCESS], and fits the return type; every function can meet the
    contract; and the return values that the header itself documents (0 and
    4303) are values of the enumeration. *)
Theorem C1_prototypes_uniform :
  List.length (declared AXM.header) = 391%nat /\
  (forall f, In f (declared AXM.header) ->
     In f (declared_extern_C AXM.header) /\
     starts_with "Axm" (f_name f) = true /\
     f_cc f = Stdcall /\
     f_ret f = Tnamed "DWORD") /\
  resolve AXHS.typedefs (Tnamed "DWORD") = Tulong /\
  lookup "AXT_RT_SUCCESS" AXHS.AXT_FUNC_RESULT = Some 0 /\
  (forall f o, In f (declared AXM.header) -> Contract.returns f o ->
     exists name,
       In (name, Contract.status o) AXHS.AXT_FUNC_RESULT /\
       ResultCode.name_of (Contract.status o) = Some name /\
       (Contract.status o = 0 <-> name = "AXT_RT_SUCCESS") /\
       0 <= Contract.status o < 2 ^ 32) /\
  (forall f, In f (declared AXM.header) ->
     exists o, Contract.returns f o /\ Contract.status o = 0) /\
  map (fun d => (fst d,
                 existsb (fun f => String.eqb (fst d) (f_name f)) AXM.AXM_prototypes,
                 map ResultCode.name_of (snd d)))
      AXM.documented_return_values =
    [ ("AxmCompensationSetBacklash", true, [Some "AXT_RT_SUCCESS"]);
      ("AxmCompensationEnableBacklash", true,
       [Some "AXT_RT_SUCCESS"; Some "AXT_RT_COMPENSATION_BACKLASH_NOT_INIT"]);
      ("AxmCompensationSetLocating", true,
       [Some "AXT_RT_SUCCESS"; Some "AXT_RT_COMPENSATION_BACKLASH_NOT_INIT"]) ].
Proof.
  conj_compute.
  - intros f Hin. split; [exact Hin|].
    assert (Hscan : forallb (fun f => starts_with "Axm" (f_name f)
                                      && Shape.is_stdcall f && Shape.returns_DWORD f)
                      (declared AXM.header) = true) by (vm_compute; reflexivity).
    rewrite forallb_forall in Hscan.
    specialize (Hscan f Hin).
    apply andb_prop in Hscan. destruct Hscan as [Hscan Hret].
    apply andb_prop in Hscan. destruct Hscan as [Hname Hcc].
    split; [exact Hname|]. split.
    + unfold Shape.is_stdcall in Hcc. destruct (f_cc f); [discriminate|reflexivity].
    + unfold Shape.returns_DWORD in Hret.
      destruct (f_ret f); try discriminate.
      apply String.eqb_eq in Hret. now subst.
  - intros f o _ [[name Hin] _]. exists name.
    split; [exact Hin|]. split.
    + unfold ResultCode.name_of. apply name_of_unique; [|exact Hin].
      apply increasing_NoDup. vm_compute. reflexivity.
    + now apply result_code_scan.
  - intros f _. exists (Contract.Outcome 0 (Contract.pointer_params f)).
    split; [|reflexivity]. split; [|split].
    + exists "AXT_RT_SUCCESS". exact success_is_a_code.
    + apply incl_refl.
    + intros _ _ H. exact H.
Qed.

Lemma C1_witness :
  f_cc (Prototype (Tnamed "DWORD") Stdcall "AxmInfoGetAxis"
          [Param Tlong "lAxisNo"; Param (Tptr Tlong) "lpBoardNo";
           Param (Tptr Tlong) "lpModulePos"; Param (Tptr (Tnamed "DWORD")) "upModuleID"])
  = Stdcall.
Proof.
  apply (proj1 (proj2 C1_prototypes_uniform)).
  left. reflexivity.
Defined.

(** ** The result enumeration *)

(** C2, as the headers have it.  Beside success the enumeration holds 456
    failure codes, all distinct.  The bands of the AIO, DIO, counter, COM
    port, motion and macro prefixes are pairwise disjoint; the queue codes
    and the MLIII code [AXT_RT_M3_COMMUNICATION_FAILED] lie inside the
    motion band. *)
Theorem C2_failure_code_bands :
  List.length ResultCode.failure_codes = 456%nat /\
  NoDup (map snd ResultCode.failure_codes) /\
  map ResultCode.band ResultCode.subsystem_prefixes =
    [ Some (2001, 2110); Some (3001, 3109); Some (3201, 3313); Some (3401, 3508);
      Some (4001, 6002); Some (6700, 6722); Some (5010, 5017); Some (4500, 4500) ] /\
  ResultCode.pairwise ResultCode.bands_disjoint
    (map ResultCode.band
       [ ResultCode.AIO; ResultCode.DIO; ResultCode.CNT; ResultCode.COM;
         ResultCode.MOTION; ResultCode.MACRO ]) = true /\
  ResultCode.band_inside (ResultCode.band ResultCode.QUEUE)
    (ResultCode.band ResultCode.MOTION) = true /\
  ResultCode.band_inside (ResultCode.band ResultCode.M3)
    (ResultCode.band ResultCode.MOTION) = true.
Proof.
  conj_compute.
  apply increasing_NoDup. vm_compute. reflexivity.
Qed.

(** C2 as first stated fails: the queue band 5010..5017 lies between the
    motion codes 4001 and 6002, so the bands of the listed subsystem
    prefixes are not pairwise disjoint (and the failure codes number 456). *)
Lemma C2_queue_band_inside_motion_band :
  lookup "AXT_RT_MOTION_OPEN_ERROR" AXHS.AXT_FUNC_RESULT = Some 4001 /\
  lookup "AXT_RT_QUEUE_CMD_ERROR" AXHS.AXT_FUNC_RESULT = Some 5010 /\
  lookup "AXT_RT_MOTION_INVALD_ENABLE" AXHS.AXT_FUNC_RESULT = Some 6002 /\
  ResultCode.bands_disjoint (ResultCode.band ResultCode.MOTION)
    (ResultCode.band ResultCode.QUEUE) = false /\
  ~ ResultCode.bands_pairwise_disjoint ResultCode.subsystem_prefixes /\
  List.length ResultCode.failure_codes = 456%nat.
Proof.
  conj_compute.
  intro H.
  specialize (H ResultCode.MOTION ResultCode.QUEUE).
  assert (Hf : ResultCode.bands_disjoint (ResultCode.band ResultCode.MOTION)
                 (ResultCode.band ResultCode.QUEUE) = false)
    by (vm_compute; reflexivity).
  rewrite H in Hf; [discriminate| | |].
  - do 4 right. left. reflexivity.
  - do 6 right. left. reflexivity.
  - discriminate.
Qed.

(** C8. For each argument position 1..11 the enumeration has one code for
    "below minimum" and one for "above maximum": 1160/1161 for the first
    argument, ten apart up to 1250/1251 for the tenth, and 1252/1253 for the
    eleventh; the 22 codes are all different. *)
Theorem C8_argument_range_codes :
  map (fun k => (ResultCode.arg_below_min k, ResultCode.arg_above_max k)) (seq 1 11) =
    [ (Some 1160, Some 1161); (Some 1170, Some 1171); (Some 1180, Some 1181);
      (Some 1190, Some 1191); (Some 1200, Some 1201); (Some 1210, Some 1211);
      (Some 1220, Some 1221); (Some 1230, Some 1231); (Some 1240, Some 1241);
      (Some 1250, Some 1251); (Some 1252, Some 1253) ] /\
  lookup "AXT_RT_1ST_BELOW_MIN_VALUE" AXHS.AXT_FUNC_RESULT = Some 1160 /\
  lookup "AXT_RT_1ST_ABOVE_MAX_VALUE" AXHS.AXT_FUNC_RESULT = Some 1161 /\
  lookup "AXT_RT_11TH_BELOW_MIN_VALUE" AXHS.AXT_FUNC_RESULT = Some 1252 /\
  lookup "AXT_RT_11TH_ABOVE_MAX_VALUE" AXHS.AXT_FUNC_RESULT = Some 1253 /\
  List.length ResultCode.arg_range_codes = 22%nat /\
  NoDup ResultCode.arg_range_codes.
Proof.
  conj_compute.
  assert (Hcodes : ResultCode.arg_range_codes =
    map Some [1160; 1161; 1170; 1171; 1180; 1181; 1190; 1191; 1200; 1201; 1210;
              1211; 1220; 1221; 1230; 1231; 1240; 1241; 1250; 1251; 1252; 1253])
    by (vm_compute; reflexivity).
  rewrite Hcodes.
  apply NoDup_map_Some, increasing_NoDup. vm_compute. reflexivity.
Qed.

(** C9. The values of [AXT_FUNC_RESULT] are pairwise distinct, every
    enumerator other than [AXT_RT_SUCCESS] is at least 1001, and therefore
    a code of the enumeration is 0 exactly when it is the success code. *)
Theorem C9_result_codes_distinct :
  NoDup ResultCode.values /\
  (forall n v, In (n, v) AXHS.AXT_FUNC_RESULT -> n <> "AXT_RT_SUCCESS" -> 1001 <= v) /\
  (forall n v, In (n, v) AXHS.AXT_FUNC_RESULT -> (v = 0 <-> n = "AXT_RT_SUCCESS")).
Proof.
  split; [apply increasing_NoDup; vm_compute; reflexivity|].
  assert (Hscan : forallb (fun e => if ResultCode.is_success e then snd e =? 0
                                    else 1001 <=? snd e)
                    AXHS.AXT_FUNC_RESULT = true) by (vm_compute; reflexivity).
  rewrite forallb_forall in Hscan.
  split; intros n v Hin; specialize (Hscan (n, v) Hin);
    unfold ResultCode.is_success in Hscan; simpl in Hscan;
    destruct (String.eqb_spec n "AXT_RT_SUCCESS") as [Heq|Hne].
  - intro Hn. contradiction.
  - intros _. now apply Z.leb_le.
  - apply Z.eqb_eq in Hscan. tauto.
  - apply Z.leb_le in Hscan. split; [lia|contradiction].
Qed.

Lemma C9_witness : 1001 <= 1001.
Proof.
  apply (proj1 (proj2 C9_result_codes_distinct) "AXT_RT_OPEN_ERROR" 1001).
  - right. left. reflexivity.
  - discriminate.
Defined.

(** ** Query functions and output pointers *)




(** ** Return modes *)

(** C4, as the headers have it.  [AXT_MOTION_FUNC_RETURN_MODE] defines
    immediate = 0, blocking = 1 and non-blocking = 2.  The prototypes that
    take an explicit return-mode parameter are [AxmStatusReadServoAlarm] and
    [AxmStatusReadServoAlarmHistory], both as [DWORD uReturnMode]; no
    [AxmMove*] prototype takes one. *)
Theorem C4_return_mode_parameter :
  AXHS.AXT_MOTION_FUNC_RETURN_MODE =
    [ ("FUNC_RETURN_IMMEDIATE", 0); ("FUNC_RETURN_BLOCKING", 1);
      ("FUNC_RETURN_NON_BLOCKING", 2) ] /\
  map f_name (filter Shape.takes_return_mode AXM.AXM_prototypes) =
    [ "AxmStatusReadServoAlarm"; "AxmStatusReadServoAlarmHistory" ] /\
  flat_map (fun f => filter Shape.is_return_mode_param (f_params f)) AXM.AXM_prototypes =
    [ Param (Tnamed "DWORD") "uReturnMode"; Param (Tnamed "DWORD") "uReturnMode" ] /\
  filter (fun f => Shape.is_move f && Shape.takes_return_mode f) AXM.AXM_prototypes = [].
Proof.
  conj_compute.
Qed.

(** C4 as first stated fails: among the 37 [AxmMove*] prototypes none has a
    return-mode parameter, and the only parameter whose name mentions a mode
    is the synchronous-stop mode of [AxmMoveStartMultiVelEx]. *)
Lemma C4_no_move_function_takes_return_mode :
  List.length (filter Shape.is_move AXM.AXM_prototypes) = 37%nat /\
  existsb (fun f => Shape.is_move f && Shape.takes_return_mode f) AXM.AXM_prototypes = false /\
  map (fun f => (f_name f, filter (fun p => contains "Mode" (p_name p)) (f_params f)))
      (filter (fun f => Shape.is_move f
                        && existsb (fun p => contains "Mode" (p_name p)) (f_params f))
         AXM.AXM_prototypes) =
    [ ("AxmMoveStartMultiVelEx", [Param (Tnamed "DWORD") "dwSyncMode"]) ] /\
  ~ (exists f, In f AXM.AXM_prototypes /\ Shape.is_move f = true /\
               Shape.takes_return_mode f = true).
Proof.
  conj_compute.
  intros [f [Hin [Hm Hr]]].
  assert (Hscan : existsb (fun f => Shape.is_move f && Shape.takes_return_mode f)
                    AXM.AXM_prototypes = false) by (vm_compute; reflexivity).
  assert (Hex : existsb (fun f => Shape.is_move f && Shape.takes_return_mode f)
                  AXM.AXM_prototypes = true).
  { apply existsb_exists. exists f. rewrite Hm, Hr. now split. }
  rewrite Hscan in Hex. discriminate.
Qed.

(** ** Plain records *)

Lemma selected_bit (fld : string) (k : Z) (mask : Z) :
  0 <= k ->
  lookup fld AXHS.MOTION_INFO_mask_bits = Some (2 ^ k) ->
  MotionInfo.selected mask fld = Z.testbit mask k.
Proof.
  intros Hk Hb. unfold MotionInfo.selected. rewrite Hb.
  rewrite land_pow2_eqb by exact Hk. apply negb_involutive.
Qed.

Lemma selected_all (mask : Z) :
  map (MotionInfo.selected mask) MotionInfo.data_fields =
    [ Z.testbit mask 0; Z.testbit mask 1; Z.testbit mask 2; Z.testbit mask 3;
      Z.testbit mask 4; Z.testbit mask 4 ].
Proof.
  change MotionInfo.data_fields
    with [ "dCmdPos"; "dActPos"; "dwMechSig"; "dwDrvStat"; "dwInput"; "dwOutput" ].
  cbn [map].
  rewrite (selected_bit "dCmdPos" 0), (selected_bit "dActPos" 1),
    (selected_bit "dwMechSig" 2), (selected_bit "dwDrvStat" 3),
    (selected_bit "dwInput" 4), (selected_bit "dwOutput" 4);
    try reflexivity; lia.
Qed.

Lemma populated_fill (double : Type) (mask : Z) (axis other : MotionInfo.MOTION_INFO double) :
  MotionInfo.populated mask axis (MotionInfo.fill mask axis other).
Proof.
  unfold MotionInfo.populated, MotionInfo.fill. cbn.
  repeat split; intro H; rewrite H; reflexivity.
Qed.

Lemma read_success_inv (double : Type) (drv : MotionInfo.driver double) (lAxisNo : Z)
  (pMI out : MotionInfo.MOTION_INFO double) :
  MotionInfo.AxmStatusReadMotionInfo drv lAxisNo pMI 0 out ->
  exists axis, drv lAxisNo = Some axis /\ MotionInfo.populated (MotionInfo.dwMask pMI) axis out.
Proof.
  intros [[_ H]|[name Hf]]; [exact H|].
  apply failure_code_In in Hf. destruct Hf as [Hin Hns].
  destruct (result_code_scan name 0 Hin) as [[Hname _] _].
  exfalso. apply Hns. now apply Hname.
Qed.

(** C5. [MOTION_INFO] holds the command and actual positions as doubles,
    the mechanical-signal, driver-status and universal input and output
    bitmasks as [DWORD]s, and the read mask [dwMask]; it is what
    [AxmStatusReadMotionInfo] receives by pointer.  [dwMask] selects the
    fields to populate bit by bit (bits 0, 1, 2, 3 for the first four
    fields, bit 4 for both universal signals): a read returns a status of
    [AXT_FUNC_RESULT], and when it succeeds every field whose bit is set
    holds the axis's value, whatever the mask, while the fields whose bit is
    clear are promised nothing.  With [dwMask = 0x1F] all six are
    populated. *)
Theorem C5_motion_info_record :
  map (fun fd => (fd_name fd, resolve AXHS.typedefs (fd_type fd)))
      (s_fields AXHS.MOTION_INFO_decl) =
    [ ("dCmdPos", Tdouble); ("dActPos", Tdouble); ("dwMechSig", Tulong);
      ("dwDrvStat", Tulong); ("dwInput", Tulong); ("dwOutput", Tulong);
      ("dwMask", Tulong) ] /\
  find_proto "AxmStatusReadMotionInfo" AXM.AXM_prototypes =
    Some (Prototype (Tnamed "DWORD") Stdcall "AxmStatusReadMotionInfo"
            [Param Tlong "lAxisNo"; Param (Tnamed "PMOTION_INFO") "pMI"]) /\
  resolve AXHS.typedefs (Tnamed "PMOTION_INFO") = Tptr (Tstruct (s_tag AXHS.MOTION_INFO_decl)) /\
  AXHS.MOTION_INFO_read_all = 0x1F /\
  MotionInfo.data_fields =
    [ "dCmdPos"; "dActPos"; "dwMechSig"; "dwDrvStat"; "dwInput"; "dwOutput" ] /\
  map (MotionInfo.selected 0x1F) MotionInfo.data_fields =
    [ true; true; true; true; true; true ] /\
  map (MotionInfo.selected 0x01) MotionInfo.data_fields =
    [ true; false; false; false; false; false ] /\
  (forall mask,
     map (MotionInfo.selected mask) MotionInfo.data_fields =
       [ Z.testbit mask 0; Z.testbit mask 1; Z.testbit mask 2; Z.testbit mask 3;
         Z.testbit mask 4; Z.testbit mask 4 ]) /\
  (forall (double : Type) (drv : MotionInfo.driver double) (lAxisNo status : Z)
          (pMI out : MotionInfo.MOTION_INFO double),
     MotionInfo.AxmStatusReadMotionInfo drv lAxisNo pMI status out ->
     (exists name, In (name, status) AXHS.AXT_FUNC_RESULT) /\
     (status = 0 ->
      exists axis, drv lAxisNo = Some axis /\
        (Z.testbit (MotionInfo.dwMask pMI) 0 = true ->
           MotionInfo.dCmdPos out = MotionInfo.dCmdPos axis) /\
        (Z.testbit (MotionInfo.dwMask pMI) 1 = true ->
           MotionInfo.dActPos out = MotionInfo.dActPos axis) /\
        (Z.testbit (MotionInfo.dwMask pMI) 2 = true ->
           MotionInfo.dwMechSig out = MotionInfo.dwMechSig axis) /\
        (Z.testbit (MotionInfo.dwMask pMI) 3 = true ->
           MotionInfo.dwDrvStat out = MotionInfo.dwDrvStat axis) /\
        (Z.testbit (MotionInfo.dwMask pMI) 4 = true ->
           MotionInfo.dwInput out = MotionInfo.dwInput axis /\
           MotionInfo.dwOutput out = MotionInfo.dwOutput axis))) /\
  (forall (double : Type) (drv : MotionInfo.driver double) (lAxisNo : Z)
          (pMI out : MotionInfo.MOTION_INFO double),
     MotionInfo.AxmStatusReadMotionInfo drv lAxisNo pMI 0 out ->
     MotionInfo.dwMask pMI = 0x1F ->
     exists axis, drv lAxisNo = Some axis /\
       MotionInfo.dCmdPos out = MotionInfo.dCmdPos axis /\
       MotionInfo.dActPos out = MotionInfo.dActPos axis /\
       MotionInfo.dwMechSig out = MotionInfo.dwMechSig axis /\
       MotionInfo.dwDrvStat out = MotionInfo.dwDrvStat axis /\
       MotionInfo.dwInput out = MotionInfo.dwInput axis /\
       MotionInfo.dwOutput out = MotionInfo.dwOutput axis) /\
  (forall (double : Type) (drv : MotionInfo.driver double) (lAxisNo : Z)
          (pMI axis other : MotionInfo.MOTION_INFO double),
     drv lAxisNo = Some axis ->
     MotionInfo.AxmStatusReadMotionInfo drv lAxisNo pMI 0
       (MotionInfo.fill (MotionInfo.dwMask pMI) axis other)) /\
  (forall (double : Type) (drv : MotionInfo.driver double) (lAxisNo status : Z)
          (pMI out : MotionInfo.MOTION_INFO double),
     drv lAxisNo = None ->
     MotionInfo.AxmStatusReadMotionInfo drv lAxisNo pMI status out ->
     status <> 0) /\
  (forall (double : Type) (drv : MotionInfo.driver double) (lAxisNo code : Z) (name : string)
          (pMI out : MotionInfo.MOTION_INFO double),
     In (name, code) ResultCode.failure_codes ->
     MotionInfo.AxmStatusReadMotionInfo drv lAxisNo pMI code out).
Proof.
  conj_compute.
  - exact selected_all.
  - intros double drv lAxisNo status pMI out Hread. split.
    + destruct Hread as [[Hok _]|[name Hf]].
      * now exists "AXT_RT_SUCCESS".
      * exists name. apply failure_code_In in Hf. tauto.
    + intros ->. apply read_success_inv in Hread.
      destruct Hread as [axis [Hdrv Hpop]]. exists axis. split; [exact Hdrv|].
      unfold MotionInfo.populated in Hpop.
      rewrite (selected_bit "dCmdPos" 0), (selected_bit "dActPos" 1),
        (selected_bit "dwMechSig" 2), (selected_bit "dwDrvStat" 3),
        (selected_bit "dwInput" 4), (selected_bit "dwOutput" 4) in Hpop;
        try reflexivity; try lia.
      tauto.
  - intros double drv lAxisNo pMI out Hread Hmask.
    apply read_success_inv in Hread.
    destruct Hread as [axis [Hdrv Hpop]]. exists axis. split; [exact Hdrv|].
    rewrite Hmask in Hpop. unfold MotionInfo.populated in Hpop.
    destruct Hpop as [H1 [H2 [H3 [H4 [H5 H6]]]]].
    repeat split; [apply H1|apply H2|apply H3|apply H4|apply H5|apply H6];
      vm_compute; reflexivity.
  - intros double drv lAxisNo pMI axis other Hdrv. left.
    split; [exact success_is_a_code|].
    exists axis. split; [exact Hdrv|apply populated_fill].
  - intros double drv lAxisNo status pMI out Hnone Hread ->.
    apply read_success_inv in Hread. destruct Hread as [axis [Hdrv _]].
    rewrite Hnone in Hdrv. discriminate.
  - intros double drv lAxisNo code name pMI out Hf. right. now exists name.
Qed.

Lemma C5_witness :
  exists axis,
    (fun n => if n =? 3 then Some (MotionInfo.Build_MOTION_INFO Z 100 99 5 1 3 2 0) else None) 3
      = Some axis /\
    MotionInfo.dCmdPos
      (MotionInfo.fill 0x1F (MotionInfo.Build_MOTION_INFO Z 100 99 5 1 3 2 0)
         (MotionInfo.Build_MOTION_INFO Z 0 0 0 0 0 0 0x1F)) = MotionInfo.dCmdPos axis /\
    MotionInfo.dActPos
      (MotionInfo.fill 0x1F (MotionInfo.Build_MOTION_INFO Z 100 99 5 1 3 2 0)
         (MotionInfo.Build_MOTION_INFO Z 0 0 0 0 0 0 0x1F)) = MotionInfo.dActPos axis /\
    MotionInfo.dwMechSig
      (MotionInfo.fill 0x1F (MotionInfo.Build_MOTION_INFO Z 100 99 5 1 3 2 0)
         (MotionInfo.Build_MOTION_INFO Z 0 0 0 0 0 0 0x1F)) = MotionInfo.dwMechSig axis /\
    MotionInfo.dwDrvStat
      (MotionInfo.fill 0x1F (MotionInfo.Build_MOTION_INFO Z 100 99 5 1 3 2 0)
         (MotionInfo.Build_MOTION_INFO Z 0 0 0 0 0 0 0x1F)) = MotionInfo.dwDrvStat axis /\
    MotionInfo.dwInput
      (MotionInfo.fill 0x1F (MotionInfo.Build_MOTION_INFO Z 100 99 5 1 3 2 0)
         (MotionInfo.Build_MOTION_INFO Z 0 0 0 0 0 0 0x1F)) = MotionInfo.dwInput axis /\
    MotionInfo.dwOutput
      (MotionInfo.fill 0x1F (MotionInfo.Build_MOTION_INFO Z 100 99 5 1 3 2 0)
         (MotionInfo.Build_MOTION_INFO Z 0 0 0 0 0 0 0x1F)) = MotionInfo.dwOutput axis.
Proof.
  refine (proj1 (proj2 (proj2 (proj2 (proj2 (proj2 (proj2 (proj2 (proj2 (proj2
            C5_motion_info_record)))))))))
            Z _ 3 (MotionInfo.Build_MOTION_INFO Z 0 0 0 0 0 0 0x1F) _ _ _).
  - left. split; [left; reflexivity|].
    exists (MotionInfo.Build_MOTION_INFO Z 100 99 5 1 3 2 0).
    split; [reflexivity|].
    unfold MotionInfo.populated. vm_compute. repeat split; reflexivity.
  - reflexivity.
Defined.

(** C6. [MAX_BOARD_COUNT] is 20.  [SCAN_RESULT] holds the total board
    count and an array [BoardInfo] of exactly [MAX_BOARD_COUNT] entries of
    [SIIIHBoardInfo], each a [BOOL] flag telling an SIIIH board and a [long]
    node count: 1 + 20 * 2 scalar members in all. *)
Theorem C6_scan_result_capacity :
  AXHS.MAX_BOARD_COUNT = 20 /\
  s_fields AXHS.SCAN_RESULT_decl =
    [ Field Tlong "lTotalBoardCount";
      Field (Tarray (Tnamed "SIIIHBoardInfo") (Emacro "MAX_BOARD_COUNT")) "BoardInfo" ] /\
  eval_cexpr AXHS.macros (Emacro "MAX_BOARD_COUNT") = Some 20 /\
  find_struct "SIIIHBoardInfo" AXHS.structs = Some AXHS.SIIIHBoardInfo_decl /\
  map (fun fd => (fd_name fd, resolve AXHS.typedefs (fd_type fd)))
      (s_fields AXHS.SIIIHBoardInfo_decl) =
    [ ("bIsSIIIHBoard", Tint); ("lNodeCount", Tlong) ] /\
  Shape.scalar_count AXHS.structs 4 (Tnamed "SIIIHBoardInfo") = Some 2 /\
  Shape.scalar_count AXHS.structs 4 (Tnamed "SCAN_RESULT") =
    Some (1 + AXHS.MAX_BOARD_COUNT * 2).
Proof.
  conj_compute.
Qed.

(** C10. The input and output snapshots of [MOTION_INFO] share the mask
    bit 0x10: the six data fields are governed by five distinct bits whose
    union is the read-all mask 0x1F; for every mask, [dwInput] is requested
    exactly when bit 4 of the mask is set, and so is [dwOutput], so no mask
    requests one without the other; and a successful read asked for either
    one hands back both. *)
Theorem C10_input_output_share_mask_bit :
  lookup "dwInput" AXHS.MOTION_INFO_mask_bits = Some 0x10 /\
  lookup "dwOutput" AXHS.MOTION_INFO_mask_bits = Some 0x10 /\
  MotionInfo.full_mask = 0x1F /\
  AXHS.MOTION_INFO_read_all = MotionInfo.full_mask /\
  MotionInfo.mask_bit_set = [ 0x01; 0x02; 0x04; 0x08; 0x10 ] /\
  List.length MotionInfo.data_fields = 6%nat /\
  (forall mask, MotionInfo.selected mask "dwInput" = MotionInfo.selected mask "dwOutput") /\
  (forall mask, MotionInfo.selected mask "dwInput" = Z.testbit mask 4) /\
  (forall mask, MotionInfo.selected mask "dwOutput" = Z.testbit mask 4) /\
  map (fun mask => (MotionInfo.selected mask "dwInput", MotionInfo.selected mask "dwOutput"))
      [ 0x00; 0x0F; 0x10; 0x1F ] =
    [ (false, false); (false, false); (true, true); (true, true) ] /\
  (forall (double : Type) (drv : MotionInfo.driver double) (lAxisNo : Z)
          (pMI out : MotionInfo.MOTION_INFO double),
     MotionInfo.AxmStatusReadMotionInfo drv lAxisNo pMI 0 out ->
     MotionInfo.selected (MotionInfo.dwMask pMI) "dwInput" = true \/
     MotionInfo.selected (MotionInfo.dwMask pMI) "dwOutput" = true ->
     exists axis, drv lAxisNo = Some axis /\
       MotionInfo.dwInput out = MotionInfo.dwInput axis /\
       MotionInfo.dwOutput out = MotionInfo.dwOutput axis).
Proof.
  conj_compute.
  - intro mask. reflexivity.
  - intro mask. apply (selected_bit "dwInput" 4); [lia|reflexivity].
  - intro mask. apply (selected_bit "dwOutput" 4); [lia|reflexivity].
  - intros double drv lAxisNo pMI out Hread Hreq.
    apply read_success_inv in Hread.
    destruct Hread as [axis [Hdrv Hpop]]. exists axis. split; [exact Hdrv|].
    unfold MotionInfo.populated in Hpop.
    destruct Hpop as [_ [_ [_ [_ [Hi Ho]]]]].
    assert (Hboth : MotionInfo.selected (MotionInfo.dwMask pMI) "dwInput" = true
                    /\ MotionInfo.selected (MotionInfo.dwMask pMI) "dwOutput" = true).
    { change (MotionInfo.selected (MotionInfo.dwMask pMI) "dwOutput")
        with (MotionInfo.selected (MotionInfo.dwMask pMI) "dwInput") in *.
      tauto. }
    destruct Hboth as [Hsi Hso]. split; [now apply Hi|now apply Ho].
Qed.

Lemma C10_witness :
  exists axis,
    (fun n => if n =? 3 then Some (MotionInfo.Build_MOTION_INFO Z 100 99 5 1 3 2 0) else None) 3
      = Some axis /\
    MotionInfo.dwInput
      (MotionInfo.fill 0x10 (MotionInfo.Build_MOTION_INFO Z 100 99 5 1 3 2 0)
         (MotionInfo.Build_MOTION_INFO Z 0 0 0 0 0 0 0x10)) = MotionInfo.dwInput axis /\
    MotionInfo.dwOutput
      (MotionInfo.fill 0x10 (MotionInfo.Build_MOTION_INFO Z 100 99 5 1 3 2 0)
         (MotionInfo.Build_MOTION_INFO Z 0 0 0 0 0 0 0x10)) = MotionInfo.dwOutput axis.
Proof.
  refine (proj2 (proj2 (proj2 (proj2 (proj2 (proj2 (proj2 (proj2 (proj2 (proj2
            C10_input_output_share_mask_bit)))))))))
            Z _ 3 (MotionInfo.Build_MOTION_INFO Z 0 0 0 0 0 0 0x10) _ _ _).
  - left. split; [left; reflexivity|].
    exists (MotionInfo.Build_MOTION_INFO Z 100 99 5 1 3 2 0).
    split; [reflexivity|].
    unfold MotionInfo.populated. vm_compute.
    repeat split; intro H; try discriminate H; reflexivity.
  - left. reflexivity.
Defined.

(** ** Parameter bundles of the move functions *)

Lemma after_most_recent_successful (args : Type) (history : list (MoveParam.call args)) :
  forall f, MoveParam.after history f = MoveParam.most_recent_successful f history.
Proof.
  induction history as [|c h IH] using rev_ind; intro f; [reflexivity|].
  unfold MoveParam.after, MoveParam.most_recent_successful in *.
  rewrite fold_left_app, rev_app_distr. cbn [fold_left rev app find].
  unfold MoveParam.record_call.
  destruct (MoveParam.succeeded c) eqn:Hok.
  - destruct (String.eqb f (MoveParam.c_function c)); [reflexivity|apply IH].
  - rewrite andb_false_r. apply IH.
Qed.

Lemma accessor_success_inv (args : Type) (m : MoveParam.memory args) (s : struct_decl)
  (values : args) :
  MoveParam.AxmMoveGetParam m s 0 values ->
  forall v, MoveParam.stored m s = Some v -> values = v.
Proof.
  intros [[_ H]|[name Hf]]; [exact H|].
  apply failure_code_In in Hf. destruct Hf as [Hin Hns].
  destruct (result_code_scan name 0 Hin) as [[Hname _] _].
  exfalso. apply Hns. now apply Hname.
Qed.

(** C7, as the headers have it.  Each of the five parameter-bundle structs
    has a move function whose parameters match the struct's fields one for
    one in order and type, and an [AxmMoveGet*Param] accessor with one
    pointer parameter per field.  The field names equal the parameter names
    for the four single-axis structs; the array fields of
    [AXT_MOVE_START_MULTI_POS_PARAM] carry names of their own.  What an
    accessor hands back when it succeeds is, after any history of calls, the
    arguments of the latest call of its move function that succeeded: a
    successful call is remembered, a failed one changes nothing. *)
Theorem C7_move_parameter_bundles :
  map (fun s => (s_typedef s, Shape.move_function_name s, Shape.accessor_name s))
      AXHS.move_param_structs =
    [ ("AXT_MOVE_START_POS_PARAM", "AxmMoveStartPos", "AxmMoveGetStartPosParam");
      ("AXT_MOVE_POS_PARAM", "AxmMovePos", "AxmMoveGetPosParam");
      ("AXT_MOVE_VEL_PARAM", "AxmMoveVel", "AxmMoveGetVelParam");
      ("AXT_MOVE_START_MULTI_POS_PARAM", "AxmMoveStartMultiPos",
       "AxmMoveGetStartMultiPosParam");
      ("AXT_MOVE_TO_ABS_POS_PARAM", "AxmMoveToAbsPos", "AxmMoveGetToAbsPosParam") ] /\
  Forall
    (fun s => exists f g,
       find_proto (Shape.move_function_name s) AXM.AXM_prototypes = Some f /\
       find_proto (Shape.accessor_name s) AXM.AXM_prototypes = Some g /\
       map p_type (f_params f) = map fd_type (s_fields s) /\
       map p_type (f_params g) = map (fun fd => Shape.out_type (fd_type fd)) (s_fields s) /\
       Forall (fun p => is_pointer AXHS.typedefs (p_type p) = true) (f_params g))
    AXHS.move_param_structs /\
  Forall
    (fun s => exists f,
       find_proto (Shape.move_function_name s) AXM.AXM_prototypes = Some f /\
       map p_name (f_params f) = map fd_name (s_fields s))
    [ AXHS.AXT_MOVE_START_POS_PARAM; AXHS.AXT_MOVE_POS_PARAM;
      AXHS.AXT_MOVE_VEL_PARAM; AXHS.AXT_MOVE_TO_ABS_POS_PARAM ] /\
  map fd_name (s_fields AXHS.AXT_MOVE_START_MULTI_POS_PARAM) =
    [ "lArraySize"; "lMultiAxesNo"; "dMultiPos"; "dMultiVel"; "dMultiAccel"; "dMultiDecel" ] /\
  option_map (fun f => map p_name (f_params f))
    (find_proto "AxmMoveStartMultiPos" AXM.AXM_prototypes) =
    Some [ "lArraySize"; "lpAxisNo"; "dpPos"; "dpVel"; "dpAccel"; "dpDecel" ] /\
  (forall (args : Type) (history : list (MoveParam.call args)) (s : struct_decl),
     MoveParam.stored (MoveParam.after history) s =
     MoveParam.most_recent_successful (Shape.move_function_name s) history) /\
  (forall (args : Type) (history : list (MoveParam.call args)) (s : struct_decl)
          (status : Z) (values v : args),
     MoveParam.AxmMoveGetParam (MoveParam.after history) s status values ->
     status = 0 ->
     MoveParam.most_recent_successful (Shape.move_function_name s) history = Some v ->
     values = v) /\
  (forall (args : Type) (history : list (MoveParam.call args)) (c : MoveParam.call args)
          (s : struct_decl) (values : args),
     MoveParam.succeeded c = true ->
     MoveParam.c_function c = Shape.move_function_name s ->
     MoveParam.AxmMoveGetParam (MoveParam.after (history ++ [c])) s 0 values ->
     values = MoveParam.c_args c) /\
  (forall (args : Type) (history : list (MoveParam.call args)) (c : MoveParam.call args),
     MoveParam.succeeded c = false ->
     MoveParam.after (history ++ [c]) = MoveParam.after history) /\
  (forall (args : Type) (history : list (MoveParam.call args)) (s : struct_decl) (v : args),
     MoveParam.stored (MoveParam.after history) s = Some v ->
     MoveParam.AxmMoveGetParam (MoveParam.after history) s 0 v).
Proof.
  conj_compute.
  - repeat constructor;
      (eexists; eexists;
       split; [vm_compute; reflexivity|];
       split; [vm_compute; reflexivity|];
       split; [vm_compute; reflexivity|];
       split; [vm_compute; reflexivity|];
       repeat constructor).
  - repeat constructor;
      (eexists; split; vm_compute; reflexivity).
  - intros args history s. apply after_most_recent_successful.
  - intros args history s status values v Hget -> Hlast.
    apply (accessor_success_inv _ _ _ _ Hget).
    unfold MoveParam.stored. now rewrite after_most_recent_successful.
  - intros args history c s values Hok Hf Hget.
    apply (accessor_success_inv _ _ _ _ Hget).
    unfold MoveParam.stored, MoveParam.after.
    rewrite fold_left_app. cbn [fold_left]. unfold MoveParam.record_call.
    rewrite Hok, Hf. now rewrite String.eqb_refl.
  - intros args history c Hfail.
    unfold MoveParam.after. rewrite fold_left_app. cbn [fold_left].
    unfold MoveParam.record_call. now rewrite Hfail.
  - intros args history s v Hst. left. split; [exact success_is_a_code|].
    intros w Hw. rewrite Hst in Hw. now inversion Hw.
Qed.

Lemma C7_witness :
  MoveParam.succeeded (MoveParam.Call "AxmMoveStartPos" [0; 20; 5; 1; 1] 0) = true /\
  (MoveParam.AxmMoveGetParam
     (MoveParam.after ([ MoveParam.Call "AxmMovePos" [0; 10; 5; 1; 1] 0 ]
                       ++ [ MoveParam.Call "AxmMoveStartPos" [0; 20; 5; 1; 1] 0 ]))
     AXHS.AXT_MOVE_START_POS_PARAM 0 [0; 20; 5; 1; 1] ->
   [0; 20; 5; 1; 1] = MoveParam.c_args (MoveParam.Call "AxmMoveStartPos" [0; 20; 5; 1; 1] 0)).
Proof.
  split; [reflexivity|].
  apply (proj1 (proj2 (proj2 (proj2 (proj2 (proj2 (proj2 (proj2
           C7_move_parameter_bundles)))))))
           (list Z) [ MoveParam.Call "AxmMovePos" [0; 10; 5; 1; 1] 0 ]
           (MoveParam.Call "AxmMoveStartPos" [0; 20; 5; 1; 1] 0)
           AXHS.AXT_MOVE_START_POS_PARAM [0; 20; 5; 1; 1]).
  - reflexivity.
  - reflexivity.
Defined.

(** C7 as first stated fails at [AXT_MOVE_START_MULTI_POS_PARAM]: its move
    function [AxmMoveStartMultiPos] names its array parameters [lpAxisNo],
    [dpPos], ... where the struct has [lMultiAxesNo], [dMultiPos], ..., and
    no prototype of AXM.h has a parameter called [lMultiAxesNo].  It also
    fails for the accessors when the latest move failed: after a successful
    [AxmMoveStartPos] and then a failed one, the accessor hands back the
    arguments of the first call, not those most recently passed. *)
Lemma C7_bundle_mirror_fails :
  map fd_name (s_fields AXHS.AXT_MOVE_START_MULTI_POS_PARAM) <>
    [ "lArraySize"; "lpAxisNo"; "dpPos"; "dpVel"; "dpAccel"; "dpDecel" ] /\
  find_proto "AxmMoveStartMultiPos" AXM.AXM_prototypes =
    Some (Prototype (Tnamed "DWORD") Stdcall "AxmMoveStartMultiPos"
            [ Param Tlong "lArraySize"; Param (Tptr Tlong) "lpAxisNo";
              Param (Tptr Tdouble) "dpPos"; Param (Tptr Tdouble) "dpVel";
              Param (Tptr Tdouble) "dpAccel"; Param (Tptr Tdouble) "dpDecel" ]) /\
  existsb (Shape.has_param_named "lMultiAxesNo") AXM.AXM_prototypes = false /\
  ~ (exists f, In f AXM.AXM_prototypes /\
               map p_name (f_params f) =
               map fd_name (s_fields AXHS.AXT_MOVE_START_MULTI_POS_PARAM)) /\
  MoveParam.stored
    (MoveParam.after [ MoveParam.Call "AxmMoveStartPos" [0; 10; 5; 1; 1] 0;
                       MoveParam.Call "AxmMoveStartPos" [0; 20; 5; 1; 1] 4152 ])
    AXHS.AXT_MOVE_START_POS_PARAM = Some [0; 10; 5; 1; 1] /\
  (forall values,
     MoveParam.AxmMoveGetParam
       (MoveParam.after [ MoveParam.Call "AxmMoveStartPos" [0; 10; 5; 1; 1] 0;
                          MoveParam.Call "AxmMoveStartPos" [0; 20; 5; 1; 1] 4152 ])
       AXHS.AXT_MOVE_START_POS_PARAM 0 values ->
     values = [0; 10; 5; 1; 1]) /\
  MoveParam.most_recent "AxmMoveStartPos"
    [ MoveParam.Call "AxmMoveStartPos" [0; 10; 5; 1; 1] 0;
      MoveParam.Call "AxmMoveStartPos" [0; 20; 5; 1; 1] 4152 ] = Some [0; 20; 5; 1; 1] /\
  ResultCode.name_of 4152 = Some "AXT_RT_MOTION_ERROR_IN_MOTION".
Proof.
  conj_compute.
  - discriminate.
  - intros [f [Hin Hnames]].
    assert (Hscan : existsb (Shape.has_param_named "lMultiAxesNo") AXM.AXM_prototypes = false)
      by (vm_compute; reflexivity).
    assert (Hex : existsb (Shape.has_param_named "lMultiAxesNo") AXM.AXM_prototypes = true).
    { apply existsb_exists. exists f. split; [exact Hin|].
      unfold Shape.has_param_named. apply existsb_exists.
      destruct (f_params f) as [|p0 [|p1 ps]]; try discriminate Hnames.
      exists p1. split; [right; left; reflexivity|].
      simpl in Hnames. injection Hnames as _ H1 _. rewrite H1. reflexivity. }
    rewrite Hscan in Hex. discriminate.
  - intros values Hget. apply (accessor_success_inv _ _ _ _ Hget).
    vm_compute. reflexivity.
Qed.

(** ** Enumerations: values and names *)

Lemma distinct_strings_NoDup (l : list string) : distinct_strings l = true -> NoDup l.
Proof.
  induction l as [|x r IH]; intro H; constructor;
    simpl in H; apply andb_prop in H; destruct H as [Hx Hr].
  - intro Hin. apply negb_true_iff in Hx.
    assert (Hex : existsb (String.eqb x) r = true).
    { apply existsb_exists. exists x. split; [exact Hin|apply String.eqb_refl]. }
    congruence.
  - now apply IH.
Qed.

Lemma distinct_values_NoDup (l : list Z) : distinct_values l = true <-> NoDup l.
Proof.
  induction l as [|x r IH]; simpl.
  - split; [constructor|reflexivity].
  - rewrite andb_true_iff, negb_true_iff, IH. split.
    + intros [Hx Hr]. constructor; [|exact Hr].
      intro Hin.
      assert (Hex : existsb (Z.eqb x) r = true).
      { apply existsb_exists. exists x. split; [exact Hin|apply Z.eqb_refl]. }
      congruence.
    + intro H. inversion H as [|y t Hnin Hr]; subst. split; [|exact Hr].
      destruct (existsb (Z.eqb x) r) eqn:E; [|reflexivity].
      apply existsb_exists in E. destruct E as [y [Hy Hxy]].
      apply Z.eqb_eq in Hxy. subst y. contradiction.
Qed.

Lemma enum_values_from_implicit (items : list (string * option Z)) :
  forall next, forallb is_implicit items = true ->
    map snd (enum_values_from next items) =
    map (fun k => next + Z.of_nat k) (seq 0 (List.length items)).
Proof.
  induction items as [|[n o] r IH]; intros next H; [reflexivity|].
  simpl in H. apply andb_prop in H. destruct H as [Ho Hr].
  unfold is_implicit in Ho. simpl in Ho. destruct o; [discriminate|].
  simpl. f_equal; [lia|].
  rewrite (IH (next + 1) Hr), <- seq_shift, map_map.
  apply map_ext. intro k. lia.
Qed.

(** X1. An enumeration written without any explicit value numbers its
    enumerators 0, 1, 2, ... in the order they are written; twenty
    enumerations of AXHS.h are written that way. *)
Theorem X1_implicit_enums_count_from_zero :
  (forall e : enum_decl, forallb is_implicit (e_items e) = true ->
     map snd (enum_values e) = map Z.of_nat (seq 0 (List.length (e_items e)))) /\
  List.length (filter (fun e => forallb is_implicit (e_items e)) AXHSEnum.enums) = 20%nat.
Proof.
  split; [|vm_compute; reflexivity].
  intros e H. unfold enum_values.
  rewrite (enum_values_from_implicit (e_items e) 0 H).
  apply map_ext. intro k. lia.
Qed.

Lemma X1_witness :
  map snd (enum_values AXHSEnum.AXT_MOTION_PROFILE_MODE) =
  map Z.of_nat (seq 0 (List.length (e_items AXHSEnum.AXT_MOTION_PROFILE_MODE))).
Proof.
  apply (proj1 X1_implicit_enums_count_from_zero).
  reflexivity.
Defined.

(** X2. No enumerator name is declared twice anywhere in AXHS.h: the 1741
    enumerators of its 90 enumerations all have different names. *)
Theorem X2_enumerator_names_unique :
  List.length AXHSEnum.enums = 90%nat /\
  List.length (flat_map enum_names AXHSEnum.enums) = 1741%nat /\
  NoDup (flat_map enum_names AXHSEnum.enums).
Proof.
  conj_compute.
  apply distinct_strings_NoDup. vm_compute. reflexivity.
Qed.

(** X3. Within every enumeration of AXHS.h other than the command tables
    [CNTCOMMAND] and [HPCCOMMAND], no two enumerators have the same value;
    those two tables do repeat a value ([CnCh2CounterWrite] and
    [CnCh2CounterModeWrite] are both 0xA1, [HpcCh1TriggerStatusRead] and
    [HpcCh1NoOperation_18] both 0x17). *)
Theorem X3_enum_values_unique :
  (forall e, In e AXHSEnum.enums ->
     e_typedef e <> "CNTCOMMAND" -> e_typedef e <> "HPCCOMMAND" ->
     NoDup (map snd (enum_values e))) /\
  ~ NoDup (map snd (enum_values AXHSEnum.CNTCOMMAND)) /\
  ~ NoDup (map snd (enum_values AXHSEnum.HPCCOMMAND)) /\
  lookup "CnCh2CounterWrite" (enum_values AXHSEnum.CNTCOMMAND) = Some 0xA1 /\
  lookup "CnCh2CounterModeWrite" (enum_values AXHSEnum.CNTCOMMAND) = Some 0xA1 /\
  lookup "HpcCh1TriggerStatusRead" (enum_values AXHSEnum.HPCCOMMAND) = Some 0x17 /\
  lookup "HpcCh1NoOperation_18" (enum_values AXHSEnum.HPCCOMMAND) = Some 0x17.
Proof.
  conj_compute.
  - assert (Hscan : forallb
              (fun e => String.eqb (e_typedef e) "CNTCOMMAND"
                        || String.eqb (e_typedef e) "HPCCOMMAND"
                        || distinct_values (map snd (enum_values e)))
              AXHSEnum.enums = true) by (vm_compute; reflexivity).
    rewrite forallb_forall in Hscan.
    intros e Hin Hn1 Hn2. specialize (Hscan e Hin).
    apply String.eqb_neq in Hn1, Hn2. rewrite Hn1, Hn2 in Hscan. simpl in Hscan.
    now apply distinct_values_NoDup.
  - intro H. apply distinct_values_NoDup in H.
    assert (Hf : distinct_values (map snd (enum_values AXHSEnum.CNTCOMMAND)) = false)
      by (vm_compute; reflexivity).
    congruence.
  - intro H. apply distinct_values_NoDup in H.
    assert (Hf : distinct_values (map snd (enum_values AXHSEnum.HPCCOMMAND)) = false)
      by (vm_compute; reflexivity).
    congruence.
Qed.

Lemma X3_witness : NoDup (map snd (enum_values AXHSEnum.AXT_BASE_BOARD)).
Proof.
  apply (proj1 X3_enum_values_unique).
  - left. reflexivity.
  - discriminate.
  - discriminate.
Defined.

(** ** Status words *)

Lemma testbit_encode (l : list Z) (i : Z) :
  0 <= i -> Z.testbit (Flags.encode l) i = existsb (fun f => Z.testbit f i) l.
Proof.
  intro Hi. induction l as [|x r IH]; simpl.
  - apply Z.testbit_0_l.
  - now rewrite Z.lor_spec, IH.
Qed.

Lemma testbit_above (n : nat) (w i : Z) :
  0 <= w < 2 ^ Z.of_nat n -> Z.of_nat n <= i -> Z.testbit w i = false.
Proof.
  intros [Hlo Hhi] Hi.
  destruct (Z.eq_dec w 0) as [->|Hnz]; [apply Z.testbit_0_l|].
  apply Z.bits_above_log2; [exact Hlo|].
  assert (Z.log2 w < Z.of_nat n) by (apply Z.log2_lt_pow2; lia).
  lia.
Qed.

Lemma in_pow2_flags (n : nat) (f : Z) :
  In f (Flags.pow2_flags n) <-> exists k, f = 2 ^ Z.of_nat k /\ (k < n)%nat.
Proof.
  unfold Flags.pow2_flags. rewrite in_map_iff. split.
  - intros [k [Hf Hk]]. exists k. apply in_seq in Hk. split; [now symmetry|lia].
  - intros [k [Hf Hk]]. exists k. split; [now symmetry|apply in_seq; lia].
Qed.

Lemma encode_decode_pow2 (n : nat) (w : Z) :
  0 <= w < 2 ^ Z.of_nat n ->
  Flags.encode (Flags.decode w (Flags.pow2_flags n)) = w.
Proof.
  intro Hw. apply Z.bits_inj'. intros i Hi.
  rewrite testbit_encode by exact Hi.
  apply Bool.eq_iff_eq_true. rewrite existsb_exists. split.
  - intros [f [Hin Hbit]]. unfold Flags.decode in Hin.
    apply filter_In in Hin. destruct Hin as [Hin Hset].
    apply in_pow2_flags in Hin. destruct Hin as [k [-> Hk]].
    rewrite land_pow2_eqb, negb_involutive in Hset by lia.
    rewrite Z.pow2_bits_eqb in Hbit by lia.
    apply Z.eqb_eq in Hbit. now subst i.
  - intro Hbit.
    assert (Hlt : i < Z.of_nat n).
    { destruct (Z.lt_ge_cases i (Z.of_nat n)) as [H|H]; [exact H|].
      rewrite (testbit_above n w i Hw H) in Hbit. discriminate. }
    exists (2 ^ i). split.
    + unfold Flags.decode. apply filter_In. split.
      * apply in_pow2_flags. exists (Z.to_nat i). split; [f_equal; lia|lia].
      * rewrite land_pow2_eqb, negb_involutive by exact Hi. exact Hbit.
    + apply Z.pow2_bits_true. exact Hi.
Qed.

Lemma decode_encode_pow2 (n : nat) (sel : Z -> bool) :
  Flags.decode (Flags.encode (filter sel (Flags.pow2_flags n))) (Flags.pow2_flags n) =
  filter sel (Flags.pow2_flags n).
Proof.
  unfold Flags.decode. apply filter_ext_in. intros f Hf.
  apply in_pow2_flags in Hf. destruct Hf as [k [-> Hk]].
  rewrite land_pow2_eqb, negb_involutive by lia.
  rewrite testbit_encode by lia.
  apply Bool.eq_iff_eq_true. rewrite existsb_exists. split.
  - intros [g [Hin Hbit]]. apply filter_In in Hin. destruct Hin as [Hin Hsel].
    apply in_pow2_flags in Hin. destruct Hin as [j [-> Hj]].
    rewrite Z.pow2_bits_eqb in Hbit by lia. apply Z.eqb_eq in Hbit.
    assert (j = k) by lia. now subst j.
  - intro Hsel. exists (2 ^ Z.of_nat k). split.
    + apply filter_In. split; [|exact Hsel].
      apply in_pow2_flags. now exists k.
    + apply Z.pow2_bits_true. lia.
Qed.

Lemma flag_enums_are_pow2 (e : enum_decl) :
  In e Flags.flag_enums -> Flags.flags_of e = Flags.pow2_flags (Flags.width e).
Proof.
  unfold Flags.flag_enums. cbn [In]. intro H.
  repeat (destruct H as [<-|H]; [vm_compute; reflexivity|]).
  contradiction.
Qed.

(** X4. In each of the eleven status and interrupt enumerations the flags
    (the values other than a "none" 0) are single bits in ascending order:
    the k-th flag is 2^k.  They take up 4, 16, 20, 32, 25, 15, 18, 32, 27,
    32 and 32 bits. *)
Theorem X4_flags_are_single_bits :
  Forall (fun e => Flags.flags_of e = Flags.pow2_flags (Flags.width e)) Flags.flag_enums /\
  map (fun e => (e_typedef e, Flags.width e)) Flags.flag_enums =
    [ ("AXT_AIO_EVENT_MASK", 4%nat);
      ("AXT_MOTION_IPEND_STATUS", 16%nat);
      ("AXT_MOTION_IPDRIVE_STATUS", 20%nat);
      ("AXT_MOTION_IPINTERRUPT_BANK1", 32%nat);
      ("AXT_MOTION_IPINTERRUPT_BANK2", 25%nat);
      ("AXT_MOTION_IPMECHANICAL_SIGNAL", 15%nat);
      ("AXT_MOTION_QIMECHANICAL_SIGNAL", 18%nat);
      ("AXT_MOTION_QIEND_STATUS", 32%nat);
      ("AXT_MOTION_QIDRIVE_STATUS", 27%nat);
      ("AXT_MOTION_QIINTERRUPT_BANK1", 32%nat);
      ("AXT_MOTION_QIINTERRUPT_BANK2", 32%nat) ].
Proof.
  split; [|vm_compute; reflexivity].
  apply Forall_forall. exact flag_enums_are_pow2.
Qed.

(** X5. A status word that fits the width of a flag enumeration is fully
    described by the flags raised in it: OR-ing the flags decoded from the
    word gives the word back. *)
Theorem X5_status_word_round_trip (e : enum_decl) (w : Z) :
  In e Flags.flag_enums ->
  0 <= w < 2 ^ Z.of_nat (Flags.width e) ->
  Flags.encode (Flags.decode w (Flags.flags_of e)) = w.
Proof.
  intros He Hw. rewrite (flag_enums_are_pow2 e He). now apply encode_decode_pow2.
Qed.

Lemma X5_witness :
  Flags.encode (Flags.decode 0x8041 (Flags.flags_of AXHSEnum.AXT_MOTION_IPEND_STATUS)) = 0x8041.
Proof.
  apply X5_status_word_round_trip.
  - right. left. reflexivity.
  - vm_compute. split; [discriminate|reflexivity].
Defined.

(** X6. The flags of a flag enumeration are independent: when any selection
    of them is OR-ed into a word, decoding the word yields exactly the
    selected flags, no more and no fewer. *)
Theorem X6_flag_selection_round_trip (e : enum_decl) (sel : Z -> bool) :
  In e Flags.flag_enums ->
  Flags.decode (Flags.encode (filter sel (Flags.flags_of e))) (Flags.flags_of e) =
  filter sel (Flags.flags_of e).
Proof.
  intro He. rewrite (flag_enums_are_pow2 e He). apply decode_encode_pow2.
Qed.

Lemma X6_witness :
  Flags.decode
    (Flags.encode (filter (fun f => f <? 4) (Flags.flags_of AXHSEnum.AXT_MOTION_QIEND_STATUS)))
    (Flags.flags_of AXHSEnum.AXT_MOTION_QIEND_STATUS) =
  filter (fun f => f <? 4) (Flags.flags_of AXHSEnum.AXT_MOTION_QIEND_STATUS).
Proof.
  apply X6_flag_selection_round_trip.
  do 7 right. left. reflexivity.
Defined.

(** ** Command tables *)

(** X7. In the four command tables ([CNTCOMMAND], [HPCCOMMAND],
    [HPC30COMMAND], [LCM10COMMAND]) every code fits one byte, every command
    named [...Read] has bit 7 clear and every command named [...Write] has
    bit 7 set. *)
Theorem X7_command_direction_bit (e : enum_decl) (name : string) (v : Z) :
  In e Command.command_enums ->
  In (name, v) (enum_values e) ->
  0 <= v <= 0xFF /\
  (Command.is_read name = true -> Z.testbit v 7 = false) /\
  (Command.is_write name = true -> Z.testbit v 7 = true).
Proof.
  intros He Hin.
  assert (Hscan : forallb
            (fun e => forallb
               (fun it => (0 <=? snd it) && (snd it <=? 0xFF)
                          && (negb (Command.is_read (fst it)) || negb (Z.testbit (snd it) 7))
                          && (negb (Command.is_write (fst it)) || Z.testbit (snd it) 7))
               (enum_values e))
            Command.command_enums = true) by (vm_compute; reflexivity).
  rewrite forallb_forall in Hscan. specialize (Hscan e He).
  rewrite forallb_forall in Hscan. specialize (Hscan (name, v) Hin).
  simpl in Hscan.
  apply andb_prop in Hscan. destruct Hscan as [Hscan Hw].
  apply andb_prop in Hscan. destruct Hscan as [Hscan Hr].
  apply andb_prop in Hscan. destruct Hscan as [Hlo Hhi].
  apply Z.leb_le in Hlo, Hhi.
  split; [lia|]. split; intro Hn; rewrite Hn in *; simpl in *.
  - now apply negb_true_iff.
  - exact Hw.
Qed.

Lemma X7_witness :
  0 <= 0x90 <= 0xFF /\
  (Command.is_read "CnCh1CounterWrite" = true -> Z.testbit 0x90 7 = false) /\
  (Command.is_write "CnCh1CounterWrite" = true -> Z.testbit 0x90 7 = true).
Proof.
  apply (X7_command_direction_bit AXHSEnum.CNTCOMMAND).
  - left. reflexivity.
  - right. left. reflexivity.
Defined.

(** X8. In [HPCCOMMAND] each of the 45 commands that exist as a
    [...Read]/[...Write] pair uses one register number for both: the write
    code is the read code with bit 7 set. *)
Theorem X8_hpc_write_is_read_with_bit7 :
  List.length (Command.read_write_pairs AXHSEnum.HPCCOMMAND) = 45%nat /\
  (forall name r w,
     In (name, r, w) (Command.read_write_pairs AXHSEnum.HPCCOMMAND) ->
     w = Z.lor r 0x80).
Proof.
  split; [vm_compute; reflexivity|].
  assert (Hscan : forallb (fun t => snd t =? Z.lor (snd (fst t)) 0x80)
                    (Command.read_write_pairs AXHSEnum.HPCCOMMAND) = true)
    by (vm_compute; reflexivity).
  rewrite forallb_forall in Hscan.
  intros name r w Hin. specialize (Hscan (name, r, w) Hin).
  simpl in Hscan. now apply Z.eqb_eq.
Qed.

Lemma X8_witness : 0x90 = Z.lor 0x10 0x80.
Proof.
  apply (proj2 X8_hpc_write_is_read_with_bit7 "HpcCh1CounterRead").
  vm_compute. left. reflexivity.
Defined.

(** X9. In [CNTCOMMAND] the write code of a [...Read]/[...Write] pair is the
    read code with bit 7 set for 19 of the 21 pairs; the counter of channel
    2 (read 0x20, write 0xA1) and the RAM data (read 0x31, write 0xB0) are
    the two that differ. *)
Theorem X9_cnt_write_is_read_with_bit7 :
  List.length (Command.read_write_pairs AXHSEnum.CNTCOMMAND) = 21%nat /\
  (forall name r w,
     In (name, r, w) (Command.read_write_pairs AXHSEnum.CNTCOMMAND) ->
     name <> "CnCh2CounterRead" -> name <> "CnRamDataRead" ->
     w = Z.lor r 0x80) /\
  filter (fun t => negb (snd t =? Z.lor (snd (fst t)) 0x80))
    (Command.read_write_pairs AXHSEnum.CNTCOMMAND) =
    [ ("CnCh2CounterRead", 0x20, 0xA1); ("CnRamDataRead", 0x31, 0xB0) ].
Proof.
  conj_compute.
  assert (Hscan : forallb
            (fun t => String.eqb (fst (fst t)) "CnCh2CounterRead"
                      || String.eqb (fst (fst t)) "CnRamDataRead"
                      || (snd t =? Z.lor (snd (fst t)) 0x80))
            (Command.read_write_pairs AXHSEnum.CNTCOMMAND) = true)
    by (vm_compute; reflexivity).
  rewrite forallb_forall in Hscan.
  intros name r w Hin Hn1 Hn2. specialize (Hscan (name, r, w) Hin).
  simpl in Hscan. apply String.eqb_neq in Hn1, Hn2.
  rewrite Hn1, Hn2 in Hscan. simpl in Hscan. now apply Z.eqb_eq.
Qed.

Lemma X9_witness : 0x90 = Z.lor 0x10 0x80.
Proof.
  apply (proj1 (proj2 X9_cnt_write_is_read_with_bit7) "CnCh1CounterRead").
  - vm_compute. left. reflexivity.
  - discriminate.
  - discriminate.
Defined.

(** X10. The HPC, HPC30 and LCM10 families share one port map: once the
    family prefix is taken off the names, their data-port, channel-status
    and interrupt/IO port enumerations are equal name for name and offset
    for offset, and so are the RAM address ports of HPC and HPC30. *)
Theorem X10_port_maps_shared :
  Command.unprefixed 3 AXHSEnum.HPCPORT_DATA_WRITE =
    Command.unprefixed 5 AXHSEnum.HPC30PORT_DATA_WRITE /\
  Command.unprefixed 3 AXHSEnum.HPCPORT_DATA_WRITE =
    Command.unprefixed 5 AXHSEnum.LCM10PORT_DATA_WRITE /\
  Command.unprefixed 3 AXHSEnum.HPCPORT_CH_STAUTS =
    Command.unprefixed 5 AXHSEnum.HPC30PORT_CH_STAUTS /\
  Command.unprefixed 3 AXHSEnum.HPCPORT_CH_STAUTS =
    Command.unprefixed 5 AXHSEnum.LCM10PORT_CH_STAUTS /\
  Command.unprefixed 3 AXHSEnum.HPCPORT_ETC =
    Command.unprefixed 5 AXHSEnum.HPC30PORT_ETC /\
  Command.unprefixed 3 AXHSEnum.HPCPORT_ETC =
    Command.unprefixed 5 AXHSEnum.LCM10PORT_ETC /\
  Command.unprefixed 3 AXHSEnum.HPCRAM_DATA =
    Command.unprefixed 5 AXHSEnum.HPC30RAM_DATA /\
  map fst (Command.unprefixed 3 AXHSEnum.HPCPORT_DATA_WRITE) =
    [ "Reset"; "Command"; "Data12"; "Data34"; "CmStatus" ].
Proof.
  conj_compute.
Qed.

(** ** Homing results and detect signals *)

(** X11. In [AXT_MOTION_HOME_RESULT] the error results are exactly the
    values from 0x10 up: an enumerator is named [HOME_ERR_...] if and only
    if its value is at least 0x10; success is 1 and searching is 2. *)
Theorem X11_home_errors_from_0x10 :
  (forall name v,
     In (name, v) (enum_values AXHSEnum.AXT_MOTION_HOME_RESULT) ->
     (Home.is_error_name name = true <-> 0x10 <= v)) /\
  lookup "HOME_SUCCESS" (enum_values AXHSEnum.AXT_MOTION_HOME_RESULT) = Some 1 /\
  lookup "HOME_SEARCHING" (enum_values AXHSEnum.AXT_MOTION_HOME_RESULT) = Some 2 /\
  List.length (filter (fun it => Home.is_error_name (fst it))
                 (enum_values AXHSEnum.AXT_MOTION_HOME_RESULT)) = 17%nat.
Proof.
  conj_compute.
  assert (Hscan : forallb (fun it => Bool.eqb (Home.is_error_name (fst it)) (0x10 <=? snd it))
                    (enum_values AXHSEnum.AXT_MOTION_HOME_RESULT) = true)
    by (vm_compute; reflexivity).
  rewrite forallb_forall in Hscan.
  intros name v Hin. specialize (Hscan (name, v) Hin). simpl in Hscan.
  apply Bool.eqb_prop in Hscan. rewrite Hscan. apply Z.leb_le.
Qed.

Lemma X11_witness : Home.is_error_name "HOME_ERR_TIMEOUT" = true <-> 0x10 <= 0x20.
Proof.
  apply (proj1 X11_home_errors_from_0x10).
  vm_compute. do 13 right. left. reflexivity.
Defined.

(** X16. The eight detect signals of [AXT_MOTION_QIDETECT_DESTINATION_SIGNAL]
    are the first eight home detect signals of
    [AXT_MOTION_HOME_DETECT_SIGNAL] under a [Signal_] prefix, with the same
    values 0 to 7. *)
Theorem X16_detect_signals_agree :
  Command.unprefixed 7 AXHSEnum.AXT_MOTION_QIDETECT_DESTINATION_SIGNAL =
    firstn 8 (enum_values AXHSEnum.AXT_MOTION_HOME_DETECT_SIGNAL) /\
  map snd (enum_values AXHSEnum.AXT_MOTION_QIDETECT_DESTINATION_SIGNAL) =
    [ 0; 1; 2; 3; 4; 5; 6; 7 ].
Proof.
  conj_compute.
Qed.

(** ** Prototypes of AXM.h *)

Lemma cexpr_eqb_eq (a b : cexpr) : Pairing.cexpr_eqb a b = true -> a = b.
Proof.
  destruct a, b; simpl; intro H; try discriminate.
  - apply Z.eqb_eq in H. now subst.
  - apply String.eqb_eq in H. now subst.
Qed.

Lemma callconv_eqb_eq (a b : callconv) : Pairing.callconv_eqb a b = true -> a = b.
Proof.
  destruct a, b; simpl; intro H; try discriminate; reflexivity.
Qed.

Lemma ctype_eqb_eq : forall a b : ctype, Pairing.ctype_eqb a b = true -> a = b.
Proof.
  fix ctype_eqb_eq 1. intro a.
  destruct a as [| | | | | | | |n|n|t|t len|r c l]; intros [| | | | | | | |m|m|u|u k|r' c' l'];
    simpl; intro H; try discriminate; try reflexivity.
  - apply String.eqb_eq in H. now subst.
  - apply String.eqb_eq in H. now subst.
  - f_equal. now apply ctype_eqb_eq.
  - apply andb_prop in H. destruct H as [Ht Hk].
    f_equal; [now apply ctype_eqb_eq|now apply cexpr_eqb_eq].
  - apply andb_prop in H. destruct H as [H Hl].
    apply andb_prop in H. destruct H as [Hr Hc].
    f_equal; [now apply ctype_eqb_eq|now apply callconv_eqb_eq|].
    clear Hr Hc. revert l' Hl.
    induction l as [|x l0 IH]; intros [|y m0] Hl; try discriminate; [reflexivity|].
    apply andb_prop in Hl. destruct Hl as [Hx Hrest].
    f_equal; [now apply ctype_eqb_eq|now apply IH].
Qed.

Lemma forall2b_Forall2 {A B : Type} (r : A -> B -> bool) (l : list A) :
  forall m, Pairing.forall2b r l m = true -> Forall2 (fun a b => r a b = true) l m.
Proof.
  induction l as [|x l' IH]; intros [|y m'] H; simpl in H; try discriminate.
  - constructor.
  - apply andb_prop in H. destruct H as [Hxy Hr]. constructor; [exact Hxy|now apply IH].
Qed.

Lemma find_proto_unique (l : list prototype) :
  NoDup (map f_name l) -> forall f, In f l -> find_proto (f_name f) l = Some f.
Proof.
  induction l as [|x r IH]; intros Hnd f Hin; [contradiction|].
  simpl in Hnd. inversion Hnd as [|y t Hx Hr]; subst.
  unfold find_proto. simpl. fold (find_proto (f_name f) r).
  destruct Hin as [->|Hin].
  - now rewrite String.eqb_refl.
  - destruct (String.eqb_spec (f_name f) (f_name x)) as [E|E].
    + exfalso. apply Hx. rewrite <- E. now apply in_map.
    + now apply IH.
Qed.

(** X12. No two prototypes of AXM.h have the same name, so each of the 391
    exported symbols has exactly one declaration and looking a prototype up
    by its name finds that prototype. *)
Theorem X12_function_names_unique :
  NoDup (map f_name AXM.AXM_prototypes) /\
  (forall f, In f AXM.AXM_prototypes ->
     find_proto (f_name f) AXM.AXM_prototypes = Some f).
Proof.
  assert (Hnd : NoDup (map f_name AXM.AXM_prototypes))
    by (apply distinct_strings_NoDup; vm_compute; reflexivity).
  split; [exact Hnd|].
  now apply find_proto_unique.
Qed.

Lemma X12_witness :
  find_proto "AxmInfoIsMotionModule" AXM.AXM_prototypes =
  Some (Prototype (Tnamed "DWORD") Stdcall "AxmInfoIsMotionModule"
          [Param (Tptr (Tnamed "DWORD")) "upStatus"]).
Proof.
  apply (proj2 X12_function_names_unique
           (Prototype (Tnamed "DWORD") Stdcall "AxmInfoIsMotionModule"
              [Param (Tptr (Tnamed "DWORD")) "upStatus"])).
  right. left. reflexivity.
Defined.

(** X13. Within each prototype of AXM.h the parameter names are pairwise
    different. *)
Theorem X13_parameter_names_unique (f : prototype) :
  In f AXM.AXM_prototypes -> NoDup (map p_name (f_params f)).
Proof.
  intro Hin.
  assert (Hscan : forallb (fun f => distinct_strings (map p_name (f_params f)))
                    AXM.AXM_prototypes = true) by (vm_compute; reflexivity).
  rewrite forallb_forall in Hscan.
  apply distinct_strings_NoDup. now apply Hscan.
Qed.

Lemma X13_witness :
  NoDup (map p_name (f_params
    (Prototype (Tnamed "DWORD") Stdcall "AxmInfoGetAxis"
       [Param Tlong "lAxisNo"; Param (Tptr Tlong) "lpBoardNo";
        Param (Tptr Tlong) "lpModulePos"; Param (Tptr (Tnamed "DWORD")) "upModuleID"]))).
Proof.
  apply X13_parameter_names_unique.
  left. reflexivity.
Defined.

(** X14. Eighty [Set] prototypes of AXM.h have a [Get] prototype of the same
    name.  For all of them but [AxmGantrySetEnable] the getter has as many
    parameters as the setter, each either of the setter's type (a selector
    or an array) or a pointer to it (the value read back), and at least one
    pointer to write through. *)
Theorem X14_getters_mirror_setters :
  List.length Pairing.set_get_pairs = 80%nat /\
  (forall s g, In (s, g) Pairing.set_get_pairs ->
     f_name s <> "AxmGantrySetEnable" ->
     Forall2 (fun a b => p_type b = p_type a \/ p_type b = Tptr (p_type a))
       (f_params s) (f_params g) /\
     Shape.has_output_pointer g = true).
Proof.
  split; [vm_compute; reflexivity|].
  assert (Hscan : forallb
            (fun sg => String.eqb (f_name (fst sg)) "AxmGantrySetEnable"
                       || (Pairing.forall2b Pairing.mirrors
                             (f_params (fst sg)) (f_params (snd sg))
                           && Shape.has_output_pointer (snd sg)))
            Pairing.set_get_pairs = true) by (vm_compute; reflexivity).
  rewrite forallb_forall in Hscan.
  intros s g Hin Hne. specialize (Hscan (s, g) Hin). simpl in Hscan.
  apply String.eqb_neq in Hne. rewrite Hne in Hscan. simpl in Hscan.
  apply andb_prop in Hscan. destruct Hscan as [Hm Hp].
  split; [|exact Hp].
  apply forall2b_Forall2 in Hm.
  eapply Forall2_impl; [|exact Hm].
  intros a b Hab. unfold Pairing.mirrors in Hab.
  apply orb_prop in Hab. destruct Hab as [H|H]; apply ctype_eqb_eq in H; auto.
Qed.

Lemma X14_witness :
  Forall2 (fun a b => p_type b = p_type a \/ p_type b = Tptr (p_type a))
    [Param Tlong "lRealAxisNo"; Param Tlong "lVirtualAxisNo"]
    [Param Tlong "lRealAxisNo"; Param (Tptr Tlong) "lpVirtualAxisNo"].
Proof.
  refine (proj1 (proj2 X14_getters_mirror_setters
    (Prototype (Tnamed "DWORD") Stdcall "AxmVirtualSetAxisNoMap"
       [Param Tlong "lRealAxisNo"; Param Tlong "lVirtualAxisNo"])
    (Prototype (Tnamed "DWORD") Stdcall "AxmVirtualGetAxisNoMap"
       [Param Tlong "lRealAxisNo"; Param (Tptr Tlong) "lpVirtualAxisNo"]) _ _)).
  - vm_compute. left. reflexivity.
  - discriminate.
Defined.

(** X15. With the type names of the header resolved (its typedefs, and
    [HWND], which the header defines as a macro for [HANDLE]), every
    parameter of every prototype of AXM.h has one of fifteen types: [long],
    [double], [unsigned long], [unsigned short], [unsigned char], a pointer
    to one of these or to [char], [void *], [void **], a pointer to
    [struct _MOTION_INFO], or a pointer to a [__stdcall] callback; and each
    of the fifteen is the type of some parameter. *)
Theorem X15_parameter_type_vocabulary :
  (forall f p, In f AXM.AXM_prototypes -> In p (f_params f) ->
     In (Pairing.canon 4 (p_type p)) Pairing.abi_types) /\
  (forall t, In t Pairing.abi_types ->
     exists f p, In f AXM.AXM_prototypes /\ In p (f_params f) /\
                 Pairing.canon 4 (p_type p) = t) /\
  lookup "HWND" AXHS.type_macros = Some (Tnamed "HANDLE") /\
  lookup "HWND" AXHS.declared_typedefs = None /\
  Pairing.canon 4 (Tnamed "HWND") = Tptr Tvoid /\
  Pairing.canon 4 (Tptr (Tnamed "HANDLE")) = Tptr (Tptr Tvoid) /\
  Pairing.canon 4 (Tnamed "AXT_INTERRUPT_PROC") =
    Tptr (Tfunction Tvoid Stdcall [Tlong; Tulong]) /\
  Pairing.canon 4 (Tnamed "PMOTION_INFO") = Tptr (Tstruct "_MOTION_INFO").
Proof.
  conj_compute.
  - assert (Hscan : forallb
              (fun f => forallb
                 (fun p => existsb (Pairing.ctype_eqb (Pairing.canon 4 (p_type p)))
                             Pairing.abi_types)
                 (f_params f))
              AXM.AXM_prototypes = true) by (vm_compute; reflexivity).
    rewrite forallb_forall in Hscan.
    intros f p Hf Hp. specialize (Hscan f Hf).
    rewrite forallb_forall in Hscan. specialize (Hscan p Hp).
    apply existsb_exists in Hscan. destruct Hscan as [t [Hin Heq]].
    apply ctype_eqb_eq in Heq. now rewrite Heq.
  - assert (Hscan : forallb
              (fun t => existsb
                 (fun f => existsb
                    (fun p => Pairing.ctype_eqb (Pairing.canon 4 (p_type p)) t)
                    (f_params f))
                 AXM.AXM_prototypes)
              Pairing.abi_types = true) by (vm_compute; reflexivity).
    rewrite forallb_forall in Hscan.
    intros t Ht. specialize (Hscan t Ht).
    apply existsb_exists in Hscan. destruct Hscan as [f [Hf Hscan]].
    apply existsb_exists in Hscan. destruct Hscan as [p [Hp Heq]].
    apply ctype_eqb_eq in Heq. now exists f, p.
Qed.

Lemma X15_witness :
  In (Pairing.canon 4 (p_type (Param (Tptr (Tnamed "DWORD")) "upStatus"))) Pairing.abi_types.
Proof.
  apply (proj1 X15_parameter_type_vocabulary
           (Prototype (Tnamed "DWORD") Stdcall "AxmInfoIsMotionModule"
              [Param (Tptr (Tnamed "DWORD")) "upStatus"])).
  - right. left. reflexivity.
  - left. reflexivity.
Defined.
